(** * terraform-provider-junos: configuration transaction and line codec

    A shallow embedding of four resources of the provider
    (junos_ospf_area, junos_security_ike_proposal, junos_security_ike_policy,
    junos_security_ipsec_policy) and the properties of their
    lock / stage / commit / verify protocol and of their set-line codec. *)

From Stdlib Require Import String Ascii List Bool Arith ZArith Lia.
From Stdlib Require Decimal DecimalString DecimalZ DecimalN DecimalPos.
Import ListNotations.

Local Open Scope list_scope.
Local Open Scope string_scope.

(** ** Go values used by the source *)

(** Go [error] values.  [errorString] is what [fmt.Errorf] without [%w] and
    [errors.New] build, [NumError] is [*strconv.NumError], [wrapError] is
    what [fmt.Errorf] builds for a format ending in [%w]: the text in front
    of the verb, and the wrapped error. *)
Inductive error : Type :=
| errorString (s : string)
| NumError (Func Num : string) (Err : error)
| wrapError (msg : string) (err : error).

(** [diag.Diagnostics]: a list of diagnostics; [nil] is success. *)
Definition Diagnostics := list error.
Definition diag_FromErr (err : error) : Diagnostics := [err].

(** Go's package [strings], on [string]. *)
Module strings.

Fixpoint HasPrefix (s prefix : string) {struct prefix} : bool :=
  match prefix with
  | EmptyString => true
  | String p prefix' =>
      match s with
      | EmptyString => false
      | String c s' => Ascii.eqb c p && HasPrefix s' prefix'
      end
  end.

(** [s[len(prefix):]], used once the prefix is known to be there. *)
Fixpoint drop (n : nat) (s : string) : string :=
  match n, s with
  | O, _ => s
  | S _, EmptyString => EmptyString
  | S n', String _ s' => drop n' s'
  end.

Definition TrimPrefix (s prefix : string) : string :=
  if HasPrefix s prefix then drop (String.length prefix) s else s.

Fixpoint Contains (s substr : string) : bool :=
  HasPrefix s substr ||
  match s with
  | EmptyString => false
  | String _ s' => Contains s' substr
  end.

(** [Split s sep] for a non-empty [sep] (the source only splits on a line
    feed and on a space): the pieces between the non-overlapping occurrences
    of [sep], leftmost first.  [skip] counts the bytes of an occurrence still
    to be passed over. *)
Fixpoint genSplit (sep : string) (skip : nat) (s : string) : list string :=
  match s with
  | EmptyString => [EmptyString]
  | String c s' =>
      match skip with
      | S k => genSplit sep k s'
      | O =>
          if HasPrefix s sep
          then EmptyString :: genSplit sep (String.length sep - 1) s'
          else match genSplit sep 0 s' with
               | piece :: rest => String c piece :: rest
               | [] => [String c EmptyString]
               end
      end
  end.

Definition Split (s sep : string) : list string := genSplit sep 0 s.

Fixpoint inCutset (c : ascii) (cutset : string) : bool :=
  match cutset with
  | EmptyString => false
  | String k cutset' => Ascii.eqb c k || inCutset c cutset'
  end.

Fixpoint TrimLeft (s cutset : string) : string :=
  match s with
  | EmptyString => EmptyString
  | String c s' => if inCutset c cutset then TrimLeft s' cutset else s
  end.

(** The trailing bytes of the cutset go: a byte is kept when something that
    is kept follows it or when it is not in the cutset. *)
Fixpoint TrimRight (s cutset : string) : string :=
  match s with
  | EmptyString => EmptyString
  | String c s' =>
      match TrimRight s' cutset with
      | EmptyString => if inCutset c cutset then EmptyString else String c EmptyString
      | kept => String c kept
      end
  end.

Definition Trim (s cutset : string) : string :=
  TrimRight (TrimLeft s cutset) cutset.

(** [strings.Join]. *)
Fixpoint Join (elems : list string) (sep : string) : string :=
  match elems with
  | [] => EmptyString
  | [e] => e
  | e :: rest => e ++ sep ++ Join rest sep
  end.

End strings.

(** Go's package [strconv], for the 64-bit [int] of the provider's targets. *)
Module strconv.

Definition ErrSyntax : error := errorString "invalid syntax".
Definition ErrRange : error := errorString "value out of range".

Definition maxInt : Z := 9223372036854775807.
Definition minInt : Z := -9223372036854775808.

Definition Itoa (i : Z) : string := DecimalString.NilZero.string_of_int (Z.to_int i).

(** [Atoi]: an optional sign, then one decimal digit or more; the value and
    [nil], or 0 and a syntax error, or the nearest bound and a range error. *)
Definition Atoi (s : string) : Z * option error :=
  let digits :=
    match s with
    | String c s' => if Ascii.eqb c "+" || Ascii.eqb c "-" then s' else s
    | EmptyString => s
    end in
  let neg := match s with String c _ => Ascii.eqb c "-" | EmptyString => false end in
  match DecimalString.NilZero.uint_of_string digits with
  | None => (0%Z, Some (NumError "Atoi" s ErrSyntax))
  | Some u =>
      let n := Z.of_uint u in
      let v := if neg then (- n)%Z else n in
      if (v <? minInt)%Z then (minInt, Some (NumError "Atoi" s ErrRange))
      else if (maxInt <? v)%Z then (maxInt, Some (NumError "Atoi" s ErrRange))
      else (v, None)
  end.

End strconv.

(** ** Constants of the package that the resources use *)

(** Modelled from the spec: [setLineStart] is declared in a file of the
    package that is not among the sources; the spec gives it as the literal
    line start marker of a relative display, the word set and a space. *)
Definition setLineStart : string := "set ".

(** The other package constants are declared outside the sources as well and
    the spec gives no literal for them: they are taken as given. *)
Record Constants : Type := {
  emptyWord : string;
  defaultWord : string;
  idSeparator : string;
  opsfV2 : string;
  ospfV3 : string
}.

(** ** Lines of a device answer *)

(** The two markers around the lines of an answer. *)
Definition marker_begin : string := "<configuration-output>".
Definition marker_end : string := "</configuration-output>".

Definition LF : string := String "010" "".

(** The lines a read loop gets to look at: a line that holds the begin
    marker is passed over, a line that holds the end marker and not the begin
    marker ends the loop. *)
Fixpoint content_lines (items : list string) : list string :=
  match items with
  | [] => []
  | item :: rest =>
      if strings.Contains item marker_begin then content_lines rest
      else if strings.Contains item marker_end then []
      else item :: content_lines rest
  end.

(** What the device answers to a show of [path] with display set relative
    once the lines [configSet] are its configuration under [path]: every
    line without the path of the object, joined by line feeds. *)
Definition display_set_relative (path : string) (configSet : list string) : string :=
  strings.Join
    (map (fun line => setLineStart ++ strings.TrimPrefix line (setLineStart ++ path ++ " "))
         configSet)
    LF.

(** A set line of a relative display: the line start and what follows. *)
Definition set_line (body : string) : string := setLineStart ++ body.

(** A text value that stays one line and is not taken for a marker. *)
Definition plain (v : string) : bool :=
  negb (strings.Contains v LF) && negb (strings.Contains v marker_begin)
  && negb (strings.Contains v marker_end).

(** A name without a space, a line feed or an opening angle bracket. *)
Fixpoint token (v : string) : bool :=
  match v with
  | EmptyString => true
  | String c v' =>
      negb (Ascii.eqb c " ") && negb (Ascii.eqb c "010") && negb (Ascii.eqb c "<")
      && token v'
  end.

Definition is_error {A} (r : A * option error) : bool :=
  match snd r with Some _ => true | None => false end.

Definition in_int_range (i : Z) : bool :=
  (strconv.minInt <=? i)%Z && (i <=? strconv.maxInt)%Z.

(** The empty word is no configuration text: it is not the empty text and
    does not start as a set line does. *)
Definition sentinel_ok (K : Constants) : bool :=
  negb (String.eqb (emptyWord K) "")
  && negb (strings.HasPrefix (emptyWord K) setLineStart).

(** A byte that is neither a line feed nor the first byte of a marker. *)
Definition ordinary (c : ascii) : bool :=
  negb (Ascii.eqb c "<") && negb (Ascii.eqb c "010").

(** The bytes of a string all pass [ok]. *)
Fixpoint all_bytes (ok : ascii -> bool) (s : string) : bool :=
  match s with
  | EmptyString => true
  | String c s' => ok c && all_bytes ok s'
  end.

Definition is_digit_or_minus (c : ascii) : bool :=
  match c with
  | "0" | "1" | "2" | "3" | "4" | "5" | "6" | "7" | "8" | "9" | "-" => true
  | _ => false
  end%char.

(** *** How a read loop treats the markers *)

Section Markers.
Context {C : Type} (loop : C -> list string -> C * option error).

(** The lines from the first one that holds the end marker on are not looked
    at. *)
Definition stops_at_first_end_marker : Prop :=
  forall c pre item post,
    Forall (fun l => strings.Contains l marker_end = false) pre ->
    strings.Contains item marker_end = true ->
    loop c (pre ++ item :: post)%list = loop c pre.

(** The lines from one that holds the end marker and not the begin marker
    on are not looked at. *)
Definition stops_at_end_marker : Prop :=
  forall c pre item post,
    strings.Contains item marker_begin = false ->
    strings.Contains item marker_end = true ->
    loop c (pre ++ item :: post)%list = loop c pre.

(** A line that holds the begin marker is passed over, whatever else it
    holds. *)
Definition skips_begin_marker : Prop :=
  forall c pre item post,
    strings.Contains item marker_begin = true ->
    loop c (pre ++ item :: post)%list = loop c (pre ++ post)%list.

End Markers.

(** *** When a read loop returns an error, and what it passes over *)


Section LoopErrors.
Context {C : Type} (loop : C -> list string -> C * option error).




End LoopErrors.

(** ** The session and transport collaborator *)

(** [Session] with its methods, over a device state [D] and session handles
    [H] ([*NetconfObject]).  The methods live outside the sources; what a
    resource sees of a call is its result and the next device state.  The
    package function [checkCompatibilitySecurity] and the model of the
    platform, which the resources read from the handle, are taken along. *)
Record Session (D H : Type) : Type := {
  startNewSession : D -> (H + error) * D;
  closeSession : H -> D -> D;
  configLock : H -> D -> D;
  configClear : H -> D -> D;
  command : string -> H -> D -> (string + error) * D;
  configSet : list string -> H -> D -> option error * D;
  commitConf : string -> H -> D -> option error * D;
  checkCompatibilitySecurity : H -> bool;
  platformModel : H -> string
}.

Arguments startNewSession {D H}.
Arguments closeSession {D H}.
Arguments configLock {D H}.
Arguments configClear {D H}.
Arguments command {D H}.
Arguments configSet {D H}.
Arguments commitConf {D H}.
Arguments checkCompatibilitySecurity {D H}.
Arguments platformModel {D H}.

(** What a run does to its collaborators, oldest call first once reversed. *)
Inductive event (H : Type) : Type :=
| EvStartNewSession (r : H + error)
| EvCloseSession (jnprSess : H)
| EvConfigLock (jnprSess : H)
| EvConfigClear (jnprSess : H)
| EvCommand (cmd : string) (jnprSess : H) (r : string + error)
| EvConfigSet (configSet : list string) (jnprSess : H) (r : option error)
| EvCommitConf (logMessage : string) (jnprSess : H) (r : option error)
| EvMutexLock
| EvMutexUnlock
| EvSetId (id : string).

Arguments EvStartNewSession {H}.
Arguments EvCloseSession {H}.
Arguments EvConfigLock {H}.
Arguments EvConfigClear {H}.
Arguments EvCommand {H}.
Arguments EvConfigSet {H}.
Arguments EvCommitConf {H}.
Arguments EvMutexLock {H}.
Arguments EvMutexUnlock {H}.
Arguments EvSetId {H}.

(** [*schema.ResourceData] of a resource whose schema fields are [T]. *)
Record ResourceData (T : Type) : Type := {
  fields : T;
  Id : string;
  partial : bool
}.

Arguments fields {T}.
Arguments Id {T}.
Arguments partial {T}.

(** The state a lifecycle function runs in: the device behind the session,
    the resource data [d] it was handed, and the calls made so far, newest
    first. *)
Record World (D H T : Type) : Type := {
  device : D;
  d : ResourceData T;
  log : list (event H)
}.

Arguments device {D H T}.
Arguments d {D H T}.
Arguments log {D H T}.

Definition M (D H T A : Type) : Type := World D H T -> A * World D H T.

Definition ret {D H T A} (a : A) : M D H T A := fun w => (a, w).

Definition bind {D H T A B} (m : M D H T A) (k : A -> M D H T B) : M D H T B :=
  fun w => let (a, w') := m w in k a w'.

Declare Scope go_scope.
Delimit Scope go_scope with go.
Notation "x <- m ;; k" := (bind m (fun x => k))
  (at level 61, m at next level, right associativity) : go_scope.
Notation "m ;;; k" := (bind m (fun _ => k))
  (at level 61, right associativity) : go_scope.

(** The calls of a finished run, oldest first. *)
Definition trace {D H T} (w : World D H T) : list (event H) := rev (log w).

(** ** The calls a resource makes, as steps of [M] *)

Section Calls.
Context {D H T : Type} (sess : Session D H).

Local Open Scope go_scope.

Definition record_call (e : event H) (dv : D) : M D H T unit :=
  fun w => (tt, {| device := dv; d := d w; log := e :: log w |}).

Definition sess_startNewSession : M D H T (H + error) :=
  fun w => let (r, dv) := startNewSession sess (device w) in
           (r, {| device := dv; d := d w; log := EvStartNewSession r :: log w |}).

Definition sess_closeSession (jnprSess : H) : M D H T unit :=
  fun w => record_call (EvCloseSession jnprSess) (closeSession sess jnprSess (device w)) w.

Definition sess_configLock (jnprSess : H) : M D H T unit :=
  fun w => record_call (EvConfigLock jnprSess) (configLock sess jnprSess (device w)) w.

Definition sess_configClear (jnprSess : H) : M D H T unit :=
  fun w => record_call (EvConfigClear jnprSess) (configClear sess jnprSess (device w)) w.

Definition sess_command (cmd : string) (jnprSess : H) : M D H T (string + error) :=
  fun w => let (r, dv) := command sess cmd jnprSess (device w) in
           (r, {| device := dv; d := d w; log := EvCommand cmd jnprSess r :: log w |}).

Definition sess_configSet (lines : list string) (jnprSess : H) : M D H T (option error) :=
  fun w => let (r, dv) := configSet sess lines jnprSess (device w) in
           (r, {| device := dv; d := d w; log := EvConfigSet lines jnprSess r :: log w |}).

Definition sess_commitConf (logMessage : string) (jnprSess : H) : M D H T (option error) :=
  fun w => let (r, dv) := commitConf sess logMessage jnprSess (device w) in
           (r, {| device := dv; d := d w; log := EvCommitConf logMessage jnprSess r :: log w |}).

(** The package-level [mutex] of the read path. *)
Definition mutex_Lock : M D H T unit :=
  fun w => record_call EvMutexLock (device w) w.

Definition mutex_Unlock : M D H T unit :=
  fun w => record_call EvMutexUnlock (device w) w.

(** [defer sess.closeSession(jnprSess)]: the session is closed when the
    function returns, whatever it returns. *)
Definition defer_closeSession {A} (jnprSess : H) (body : M D H T A) : M D H T A :=
  r <- body ;; sess_closeSession jnprSess ;;; ret r.

(** [d.Get]: a schema field of the resource data, as it is now. *)
Definition d_Get {A} (field : T -> A) : M D H T A :=
  fun w => (field (fields (d w)), w).

Definition d_Id : M D H T string :=
  fun w => (Id (d w), w).

Definition d_SetId (id : string) : M D H T unit :=
  fun w => (tt, {| device := device w;
                   d := {| fields := fields (d w); Id := id; partial := partial (d w) |};
                   log := EvSetId id :: log w |}).

Definition d_Partial (b : bool) : M D H T unit :=
  fun w => (tt, {| device := device w;
                   d := {| fields := fields (d w); Id := Id (d w); partial := b |};
                   log := log w |}).

(** The [d.Set] calls of a fill function, which replace the schema fields. *)
Definition d_Set (f : T) : M D H T unit :=
  fun w => (tt, {| device := device w;
                   d := {| fields := f; Id := Id (d w); partial := partial (d w) |};
                   log := log w |}).

(** [d] itself, as a function that puts it into its result does. *)
Definition d_self : M D H T (ResourceData T) :=
  fun w => (d w, w).

End Calls.

(** A lifecycle function run on a device and a resource data, nothing logged
    before it. *)
Definition run {D H T A} (f : M D H T A) (dv : D) (rd : ResourceData T)
  : A * World D H T :=
  f {| device := dv; d := rd; log := [] |}.

(** ** junos_security_ipsec_policy *)

Module IpsecPolicy.

Record ipsecPolicyOptions : Type := {
  name : string;
  pfsKeys : string;
  proposals : list string
}.

(** The schema of the resource: name, proposals, pfs_keys. *)
Record schema : Type := {
  s_name : string;
  s_proposals : list string;
  s_pfs_keys : string
}.

Section Resource.
Context {D H : Type} (sess : Session D H) (K : Constants).

Local Open Scope go_scope.
Local Notation "'Mon' A" := (M D H schema A) (at level 10, A at level 9, only parsing).

Definition checkIpsecPolicyExists (ipsecPolicy : string) (jnprSess : H)
  : Mon (bool * option error) :=
  r <- sess_command sess ("show configuration" ++
         " security ipsec policy " ++ ipsecPolicy ++ " | display set") jnprSess ;;
  match r with
  | inr err => ret (false, Some err)
  | inl ipsecPolicyConfig =>
      if String.eqb ipsecPolicyConfig (emptyWord K) then ret (false, None)
      else ret (true, None)
  end.

(** The value of [configSet] in [setIpsecPolicy] when it is handed to the
    session. *)
Definition setIpsecPolicy_configSet (s : schema) : list string :=
  let setPrefix := "set security ipsec policy " ++ s_name s in
  List.app
    (if negb (String.eqb (s_pfs_keys s) "")
     then [setPrefix ++ " perfect-forward-secrecy keys " ++ s_pfs_keys s]
     else [])
    (map (fun v => setPrefix ++ " proposals " ++ v) (s_proposals s)).

Definition setIpsecPolicy (jnprSess : H) : Mon (option error) :=
  s <- d_Get (fun s => s) ;;
  sess_configSet sess (setIpsecPolicy_configSet s) jnprSess.

(** The loop of [readIpsecPolicy] over the lines of the answer. *)
Fixpoint readIpsecPolicy_loop (confRead : ipsecPolicyOptions) (items : list string)
  : ipsecPolicyOptions * option error :=
  match items with
  | [] => (confRead, None)
  | item :: rest =>
      if strings.Contains item "<configuration-output>" then
        readIpsecPolicy_loop confRead rest
      else if strings.Contains item "</configuration-output>" then
        (confRead, None)
      else
        let itemTrim := strings.TrimPrefix item setLineStart in
        if strings.HasPrefix itemTrim "proposals " then
          readIpsecPolicy_loop
            {| name := name confRead; pfsKeys := pfsKeys confRead;
               proposals := (proposals confRead
                             ++ [strings.TrimPrefix itemTrim "proposals "])%list |} rest
        else if strings.HasPrefix itemTrim "perfect-forward-secrecy keys " then
          readIpsecPolicy_loop
            {| name := name confRead;
               pfsKeys := strings.TrimPrefix itemTrim "perfect-forward-secrecy keys ";
               proposals := proposals confRead |} rest
        else readIpsecPolicy_loop confRead rest
  end.

Definition zero : ipsecPolicyOptions :=
  {| name := ""; pfsKeys := ""; proposals := [] |}.

(** The schema fields the [d.Set] calls of [fillIpsecPolicyData] write. *)
Definition schema_of (o : ipsecPolicyOptions) : schema :=
  {| s_name := name o; s_proposals := proposals o; s_pfs_keys := pfsKeys o |}.

(** A line no case of the loop takes. *)
Definition unrecognized (item : string) : bool :=
  let itemTrim := strings.TrimPrefix item setLineStart in
  negb (strings.Contains item marker_end)
  && negb (strings.HasPrefix itemTrim "proposals ")
  && negb (strings.HasPrefix itemTrim "perfect-forward-secrecy keys ").

(** [readIpsecPolicy] from the answer of the device on. *)
Definition readIpsecPolicy_decode (ipsecPolicy ipsecPolicyConfig : string)
  : ipsecPolicyOptions * option error :=
  if negb (String.eqb ipsecPolicyConfig (emptyWord K)) then
    readIpsecPolicy_loop
      {| name := ipsecPolicy; pfsKeys := pfsKeys zero; proposals := proposals zero |}
      (strings.Split ipsecPolicyConfig (String "010" ""))
  else ({| name := ""; pfsKeys := pfsKeys zero; proposals := proposals zero |}, None).

(** What follows the line start in the lines of a relative display of the
    object that was staged for [s]. *)
Definition relative_bodies (s : schema) : list string :=
  List.app
    (if negb (String.eqb (s_pfs_keys s) "")
     then ["perfect-forward-secrecy keys " ++ s_pfs_keys s] else [])
    (map (fun v => "proposals " ++ v) (s_proposals s)).

(** The path of the object, which a relative display leaves out. *)
Definition path (ipsecPolicy : string) : string :=
  "security ipsec policy " ++ ipsecPolicy.

(** The schema fields read back from the lines that were staged for [s]. *)
Definition decode_encode (s : schema) : schema * option error :=
  let r := readIpsecPolicy_decode (s_name s)
             (display_set_relative (path (s_name s)) (setIpsecPolicy_configSet s)) in
  (schema_of (fst r), snd r).

Definition well_formed (s : schema) : bool :=
  plain (s_pfs_keys s) && forallb plain (s_proposals s).

Definition readIpsecPolicy (ipsecPolicy : string) (jnprSess : H)
  : Mon (ipsecPolicyOptions * option error) :=
  r <- sess_command sess ("show configuration" ++
         " security ipsec policy " ++ ipsecPolicy ++ " | display set relative") jnprSess ;;
  match r with
  | inr err => ret (zero, Some err)
  | inl ipsecPolicyConfig => ret (readIpsecPolicy_decode ipsecPolicy ipsecPolicyConfig)
  end.

Definition delIpsecPolicy (jnprSess : H) : Mon (option error) :=
  nm <- d_Get s_name ;;
  sess_configSet sess ["delete security ipsec policy " ++ nm] jnprSess.

Definition fillIpsecPolicyData (o : ipsecPolicyOptions) : Mon unit :=
  d_Set (schema_of o).

Definition resourceIpsecPolicyRead : Mon Diagnostics :=
  mutex_Lock ;;;
  r <- sess_startNewSession sess ;;
  match r with
  | inr err => mutex_Unlock ;;; ret (diag_FromErr err)
  | inl jnprSess =>
      defer_closeSession sess jnprSess (
        nm <- d_Get s_name ;;
        r <- readIpsecPolicy nm jnprSess ;;
        mutex_Unlock ;;;
        match r with
        | (_, Some err) => ret (diag_FromErr err)
        | (ipsecPolicyOptions, None) =>
            if String.eqb (name ipsecPolicyOptions) "" then d_SetId "" ;;; ret []
            else fillIpsecPolicyData ipsecPolicyOptions ;;; ret []
        end)
  end.

Definition resourceIpsecPolicyCreate : Mon Diagnostics :=
  r <- sess_startNewSession sess ;;
  match r with
  | inr err => ret (diag_FromErr err)
  | inl jnprSess =>
      defer_closeSession sess jnprSess (
        if negb (checkCompatibilitySecurity sess jnprSess) then
          ret (diag_FromErr (errorString
                 ("security ipsec policy not compatible with Junos device "
                  ++ platformModel sess jnprSess)))
        else
          sess_configLock sess jnprSess ;;;
          nm <- d_Get s_name ;;
          r <- checkIpsecPolicyExists nm jnprSess ;;
          match r with
          | (_, Some err) => sess_configClear sess jnprSess ;;; ret (diag_FromErr err)
          | (true, None) =>
              sess_configClear sess jnprSess ;;;
              nm <- d_Get s_name ;;
              ret (diag_FromErr (errorString
                     ("security ipsec policy " ++ nm ++ " already exists")))
          | (false, None) =>
              err <- setIpsecPolicy jnprSess ;;
              match err with
              | Some err => sess_configClear sess jnprSess ;;; ret (diag_FromErr err)
              | None =>
                  err <- sess_commitConf sess "create resource junos_security_ipsec_policy" jnprSess ;;
                  match err with
                  | Some err => sess_configClear sess jnprSess ;;; ret (diag_FromErr err)
                  | None =>
                      nm <- d_Get s_name ;;
                      r <- checkIpsecPolicyExists nm jnprSess ;;
                      match r with
                      | (_, Some err) => ret (diag_FromErr err)
                      | (true, None) =>
                          nm <- d_Get s_name ;;
                          d_SetId nm ;;;
                          resourceIpsecPolicyRead
                      | (false, None) =>
                          nm <- d_Get s_name ;;
                          ret (diag_FromErr (errorString
                                 ("security ipsec policy " ++ nm ++ " not exists after commit "
                                  ++ "=> check your config")))
                      end
                  end
              end
          end)
  end.

Definition resourceIpsecPolicyUpdate : Mon Diagnostics :=
  d_Partial true ;;;
  r <- sess_startNewSession sess ;;
  match r with
  | inr err => ret (diag_FromErr err)
  | inl jnprSess =>
      defer_closeSession sess jnprSess (
        sess_configLock sess jnprSess ;;;
        err <- delIpsecPolicy jnprSess ;;
        match err with
        | Some err => sess_configClear sess jnprSess ;;; ret (diag_FromErr err)
        | None =>
            err <- setIpsecPolicy jnprSess ;;
            match err with
            | Some err => sess_configClear sess jnprSess ;;; ret (diag_FromErr err)
            | None =>
                err <- sess_commitConf sess "update resource junos_security_ipsec_policy" jnprSess ;;
                match err with
                | Some err => sess_configClear sess jnprSess ;;; ret (diag_FromErr err)
                | None => d_Partial false ;;; resourceIpsecPolicyRead
                end
            end
        end)
  end.

Definition resourceIpsecPolicyDelete : Mon Diagnostics :=
  r <- sess_startNewSession sess ;;
  match r with
  | inr err => ret (diag_FromErr err)
  | inl jnprSess =>
      defer_closeSession sess jnprSess (
        sess_configLock sess jnprSess ;;;
        err <- delIpsecPolicy jnprSess ;;
        match err with
        | Some err => sess_configClear sess jnprSess ;;; ret (diag_FromErr err)
        | None =>
            err <- sess_commitConf sess "delete resource junos_security_ipsec_policy" jnprSess ;;
            match err with
            | Some err => sess_configClear sess jnprSess ;;; ret (diag_FromErr err)
            | None => ret []
            end
        end)
  end.

(** [resourceIpsecPolicyImport]: the slice it returns holds [d] when the error is [nil],
    and is [nil] otherwise. *)
Definition resourceIpsecPolicyImport : Mon (list (ResourceData schema) * option error) :=
  r <- sess_startNewSession sess ;;
  match r with
  | inr err => ret ([], Some err)
  | inl jnprSess =>
      defer_closeSession sess jnprSess (
        id <- d_Id ;;
        r <- checkIpsecPolicyExists id jnprSess ;;
        match r with
        | (_, Some err) => ret ([], Some err)
        | (false, None) =>
            id <- d_Id ;;
            ret ([], Some (errorString
                   ("don't find security ipsec policy with id '" ++ id ++ "' (id must be <name>)")))
        | (true, None) =>
            id <- d_Id ;;
            r <- readIpsecPolicy id jnprSess ;;
            match r with
            | (_, Some err) => ret ([], Some err)
            | (ipsecPolicyOptions, None) =>
                fillIpsecPolicyData ipsecPolicyOptions ;;;
                result0 <- d_self ;;
                ret ([result0], None)
            end
        end)
  end.

End Resource.
End IpsecPolicy.

(** ** junos_security_ike_proposal *)

Module IkeProposal.

Record ikeProposalOptions : Type := {
  lifetimeSeconds : Z;
  name : string;
  authenticationAlgorithm : string;
  authenticationMethod : string;
  dhGroup : string;
  encryptionAlgorithm : string
}.

Record schema : Type := {
  s_name : string;
  s_authentication_algorithm : string;
  s_authentication_method : string;
  s_dh_group : string;
  s_encryption_algorithm : string;
  s_lifetime_seconds : Z
}.

Section Resource.
Context {D H : Type} (sess : Session D H) (K : Constants).

Local Open Scope go_scope.
Local Notation "'Mon' A" := (M D H schema A) (at level 10, A at level 9, only parsing).

Definition checkIkeProposalExists (ikeProposal : string) (jnprSess : H)
  : Mon (bool * option error) :=
  r <- sess_command sess ("show configuration" ++
         " security ike proposal " ++ ikeProposal ++ " | display set") jnprSess ;;
  match r with
  | inr err => ret (false, Some err)
  | inl ikeProposalConfig =>
      if String.eqb ikeProposalConfig (emptyWord K) then ret (false, None)
      else ret (true, None)
  end.

Definition setIkeProposal_configSet (s : schema) : list string :=
  let setPrefix := "set security ike proposal " ++ s_name s in
  List.app
    (if negb (String.eqb (s_authentication_method s) "")
     then [setPrefix ++ " authentication-method " ++ s_authentication_method s] else [])
  (List.app
    (if negb (String.eqb (s_authentication_algorithm s) "")
     then [setPrefix ++ " authentication-algorithm " ++ s_authentication_algorithm s] else [])
  (List.app
    (if negb (String.eqb (s_dh_group s) "")
     then [setPrefix ++ " dh-group " ++ s_dh_group s] else [])
  (List.app
    (if negb (String.eqb (s_encryption_algorithm s) "")
     then [setPrefix ++ " encryption-algorithm " ++ s_encryption_algorithm s] else [])
    (if negb (Z.eqb (s_lifetime_seconds s) 0)
     then [setPrefix ++ " lifetime-seconds " ++ strconv.Itoa (s_lifetime_seconds s)] else [])))).

Definition setIkeProposal (jnprSess : H) : Mon (option error) :=
  s <- d_Get (fun s => s) ;;
  sess_configSet sess (setIkeProposal_configSet s) jnprSess.

Definition set_authenticationAlgorithm (c : ikeProposalOptions) (v : string) :=
  {| lifetimeSeconds := lifetimeSeconds c; name := name c;
     authenticationAlgorithm := v;
     authenticationMethod := authenticationMethod c; dhGroup := dhGroup c;
     encryptionAlgorithm := encryptionAlgorithm c |}.

Definition set_authenticationMethod (c : ikeProposalOptions) (v : string) :=
  {| lifetimeSeconds := lifetimeSeconds c; name := name c;
     authenticationAlgorithm := authenticationAlgorithm c;
     authenticationMethod := v; dhGroup := dhGroup c;
     encryptionAlgorithm := encryptionAlgorithm c |}.

Definition set_dhGroup (c : ikeProposalOptions) (v : string) :=
  {| lifetimeSeconds := lifetimeSeconds c; name := name c;
     authenticationAlgorithm := authenticationAlgorithm c;
     authenticationMethod := authenticationMethod c; dhGroup := v;
     encryptionAlgorithm := encryptionAlgorithm c |}.

Definition set_encryptionAlgorithm (c : ikeProposalOptions) (v : string) :=
  {| lifetimeSeconds := lifetimeSeconds c; name := name c;
     authenticationAlgorithm := authenticationAlgorithm c;
     authenticationMethod := authenticationMethod c; dhGroup := dhGroup c;
     encryptionAlgorithm := v |}.

Definition set_lifetimeSeconds (c : ikeProposalOptions) (v : Z) :=
  {| lifetimeSeconds := v; name := name c;
     authenticationAlgorithm := authenticationAlgorithm c;
     authenticationMethod := authenticationMethod c; dhGroup := dhGroup c;
     encryptionAlgorithm := encryptionAlgorithm c |}.

Definition set_name (c : ikeProposalOptions) (v : string) :=
  {| lifetimeSeconds := lifetimeSeconds c; name := v;
     authenticationAlgorithm := authenticationAlgorithm c;
     authenticationMethod := authenticationMethod c; dhGroup := dhGroup c;
     encryptionAlgorithm := encryptionAlgorithm c |}.

(** The loop of [readIkeProposal] over the lines of the answer. *)
Fixpoint readIkeProposal_loop (confRead : ikeProposalOptions) (items : list string)
  : ikeProposalOptions * option error :=
  match items with
  | [] => (confRead, None)
  | item :: rest =>
      if strings.Contains item "<configuration-output>" then
        readIkeProposal_loop confRead rest
      else if strings.Contains item "</configuration-output>" then
        (confRead, None)
      else
        let itemTrim := strings.TrimPrefix item setLineStart in
        if strings.HasPrefix itemTrim "authentication-algorithm " then
          readIkeProposal_loop
            (set_authenticationAlgorithm confRead
               (strings.TrimPrefix itemTrim "authentication-algorithm ")) rest
        else if strings.HasPrefix itemTrim "authentication-method " then
          readIkeProposal_loop
            (set_authenticationMethod confRead
               (strings.TrimPrefix itemTrim "authentication-method ")) rest
        else if strings.HasPrefix itemTrim "dh-group " then
          readIkeProposal_loop
            (set_dhGroup confRead (strings.TrimPrefix itemTrim "dh-group ")) rest
        else if strings.HasPrefix itemTrim "encryption-algorithm" then
          readIkeProposal_loop
            (set_encryptionAlgorithm confRead
               (strings.TrimPrefix itemTrim "encryption-algorithm ")) rest
        else if strings.HasPrefix itemTrim "lifetime-seconds" then
          match strconv.Atoi (strings.TrimPrefix itemTrim "lifetime-seconds ") with
          | (v, Some err) =>
              (set_lifetimeSeconds confRead v,
               Some (wrapError ("failed to convert value from '" ++ itemTrim
                                ++ "' to integer : ") err))
          | (v, None) => readIkeProposal_loop (set_lifetimeSeconds confRead v) rest
          end
        else readIkeProposal_loop confRead rest
  end.

Definition zero : ikeProposalOptions :=
  {| lifetimeSeconds := 0; name := ""; authenticationAlgorithm := "";
     authenticationMethod := ""; dhGroup := ""; encryptionAlgorithm := "" |}.

(** The schema fields the [d.Set] calls of [fillIkeProposalData] write. *)
Definition schema_of (o : ikeProposalOptions) : schema :=
  {| s_name := name o;
     s_authentication_algorithm := authenticationAlgorithm o;
     s_authentication_method := authenticationMethod o;
     s_dh_group := dhGroup o;
     s_encryption_algorithm := encryptionAlgorithm o;
     s_lifetime_seconds := lifetimeSeconds o |}.

(** A line of the integer field whose value [strconv.Atoi] refuses. *)
Definition bad_line (item : string) : bool :=
  let itemTrim := strings.TrimPrefix item setLineStart in
  strings.HasPrefix itemTrim "lifetime-seconds"
  && is_error (strconv.Atoi (strings.TrimPrefix itemTrim "lifetime-seconds ")).

(** A line no case of the loop takes. *)
Definition unrecognized (item : string) : bool :=
  let itemTrim := strings.TrimPrefix item setLineStart in
  negb (strings.Contains item marker_end)
  && negb (strings.HasPrefix itemTrim "authentication-algorithm ")
  && negb (strings.HasPrefix itemTrim "authentication-method ")
  && negb (strings.HasPrefix itemTrim "dh-group ")
  && negb (strings.HasPrefix itemTrim "encryption-algorithm")
  && negb (strings.HasPrefix itemTrim "lifetime-seconds").

(** [readIkeProposal] from the answer of the device on. *)
Definition readIkeProposal_decode (ikeProposal ikeProposalConfig : string)
  : ikeProposalOptions * option error :=
  if negb (String.eqb ikeProposalConfig (emptyWord K)) then
    readIkeProposal_loop (set_name zero ikeProposal)
      (strings.Split ikeProposalConfig (String "010" ""))
  else (set_name zero "", None).

(** What follows the line start in the lines of a relative display of the
    object that was staged for [s]. *)
Definition relative_bodies (s : schema) : list string :=
  List.app
    (if negb (String.eqb (s_authentication_method s) "")
     then ["authentication-method " ++ s_authentication_method s] else [])
  (List.app
    (if negb (String.eqb (s_authentication_algorithm s) "")
     then ["authentication-algorithm " ++ s_authentication_algorithm s] else [])
  (List.app
    (if negb (String.eqb (s_dh_group s) "")
     then ["dh-group " ++ s_dh_group s] else [])
  (List.app
    (if negb (String.eqb (s_encryption_algorithm s) "")
     then ["encryption-algorithm " ++ s_encryption_algorithm s] else [])
    (if negb (Z.eqb (s_lifetime_seconds s) 0)
     then ["lifetime-seconds " ++ strconv.Itoa (s_lifetime_seconds s)] else [])))).

(** The path of the object, which a relative display leaves out. *)
Definition path (ikeProposal : string) : string :=
  "security ike proposal " ++ ikeProposal.

(** The schema fields read back from the lines that were staged for [s]. *)
Definition decode_encode (s : schema) : schema * option error :=
  let r := readIkeProposal_decode (s_name s)
             (display_set_relative (path (s_name s)) (setIkeProposal_configSet s)) in
  (schema_of (fst r), snd r).

Definition well_formed (s : schema) : bool :=
  plain (s_authentication_method s) && plain (s_authentication_algorithm s)
  && plain (s_dh_group s) && plain (s_encryption_algorithm s)
  && in_int_range (s_lifetime_seconds s).

Definition readIkeProposal (ikeProposal : string) (jnprSess : H)
  : Mon (ikeProposalOptions * option error) :=
  r <- sess_command sess ("show configuration" ++
         " security ike proposal " ++ ikeProposal ++ " | display set relative") jnprSess ;;
  match r with
  | inr err => ret (zero, Some err)
  | inl ikeProposalConfig => ret (readIkeProposal_decode ikeProposal ikeProposalConfig)
  end.

Definition delIkeProposal (jnprSess : H) : Mon (option error) :=
  nm <- d_Get s_name ;;
  sess_configSet sess ["delete security ike proposal " ++ nm] jnprSess.

Definition fillIkeProposalData (o : ikeProposalOptions) : Mon unit :=
  d_Set (schema_of o).

Definition resourceIkeProposalRead : Mon Diagnostics :=
  mutex_Lock ;;;
  r <- sess_startNewSession sess ;;
  match r with
  | inr err => mutex_Unlock ;;; ret (diag_FromErr err)
  | inl jnprSess =>
      defer_closeSession sess jnprSess (
        nm <- d_Get s_name ;;
        r <- readIkeProposal nm jnprSess ;;
        mutex_Unlock ;;;
        match r with
        | (_, Some err) => ret (diag_FromErr err)
        | (ikeProposalOptions, None) =>
            if String.eqb (name ikeProposalOptions) "" then d_SetId "" ;;; ret []
            else fillIkeProposalData ikeProposalOptions ;;; ret []
        end)
  end.

Definition resourceIkeProposalCreate : Mon Diagnostics :=
  r <- sess_startNewSession sess ;;
  match r with
  | inr err => ret (diag_FromErr err)
  | inl jnprSess =>
      defer_closeSession sess jnprSess (
        if negb (checkCompatibilitySecurity sess jnprSess) then
          ret (diag_FromErr (errorString
                 ("security ike proposal not compatible with Junos device "
                  ++ platformModel sess jnprSess)))
        else
          sess_configLock sess jnprSess ;;;
          nm <- d_Get s_name ;;
          r <- checkIkeProposalExists nm jnprSess ;;
          match r with
          | (_, Some err) => sess_configClear sess jnprSess ;;; ret (diag_FromErr err)
          | (true, None) =>
              sess_configClear sess jnprSess ;;;
              nm <- d_Get s_name ;;
              ret (diag_FromErr (errorString
                     ("security ike proposal " ++ nm ++ " already exists")))
          | (false, None) =>
              err <- setIkeProposal jnprSess ;;
              match err with
              | Some err => sess_configClear sess jnprSess ;;; ret (diag_FromErr err)
              | None =>
                  err <- sess_commitConf sess "create resource junos_security_ike_proposal" jnprSess ;;
                  match err with
                  | Some err => sess_configClear sess jnprSess ;;; ret (diag_FromErr err)
                  | None =>
                      nm <- d_Get s_name ;;
                      r <- checkIkeProposalExists nm jnprSess ;;
                      match r with
                      | (_, Some err) => ret (diag_FromErr err)
                      | (true, None) =>
                          nm <- d_Get s_name ;;
                          d_SetId nm ;;;
                          resourceIkeProposalRead
                      | (false, None) =>
                          nm <- d_Get s_name ;;
                          ret (diag_FromErr (errorString
                                 ("security ike proposal " ++ nm ++ " not exists after commit "
                                  ++ "=> check your config")))
                      end
                  end
              end
          end)
  end.

Definition resourceIkeProposalUpdate : Mon Diagnostics :=
  d_Partial true ;;;
  r <- sess_startNewSession sess ;;
  match r with
  | inr err => ret (diag_FromErr err)
  | inl jnprSess =>
      defer_closeSession sess jnprSess (
        sess_configLock sess jnprSess ;;;
        err <- delIkeProposal jnprSess ;;
        match err with
        | Some err => sess_configClear sess jnprSess ;;; ret (diag_FromErr err)
        | None =>
            err <- setIkeProposal jnprSess ;;
            match err with
            | Some err => sess_configClear sess jnprSess ;;; ret (diag_FromErr err)
            | None =>
                err <- sess_commitConf sess "update resource junos_security_ike_proposal" jnprSess ;;
                match err with
                | Some err => sess_configClear sess jnprSess ;;; ret (diag_FromErr err)
                | None => d_Partial false ;;; resourceIkeProposalRead
                end
            end
        end)
  end.

Definition resourceIkeProposalDelete : Mon Diagnostics :=
  r <- sess_startNewSession sess ;;
  match r with
  | inr err => ret (diag_FromErr err)
  | inl jnprSess =>
      defer_closeSession sess jnprSess (
        sess_configLock sess jnprSess ;;;
        err <- delIkeProposal jnprSess ;;
        match err with
        | Some err => sess_configClear sess jnprSess ;;; ret (diag_FromErr err)
        | None =>
            err <- sess_commitConf sess "delete resource junos_security_ike_proposal" jnprSess ;;
            match err with
            | Some err => sess_configClear sess jnprSess ;;; ret (diag_FromErr err)
            | None => ret []
            end
        end)
  end.

(** [resourceIkeProposalImport]: the slice it returns holds [d] when the error is [nil],
    and is [nil] otherwise. *)
Definition resourceIkeProposalImport : Mon (list (ResourceData schema) * option error) :=
  r <- sess_startNewSession sess ;;
  match r with
  | inr err => ret ([], Some err)
  | inl jnprSess =>
      defer_closeSession sess jnprSess (
        id <- d_Id ;;
        r <- checkIkeProposalExists id jnprSess ;;
        match r with
        | (_, Some err) => ret ([], Some err)
        | (false, None) =>
            id <- d_Id ;;
            ret ([], Some (errorString
                   ("don't find security ike proposal with id '" ++ id ++ "' (id must be <name>)")))
        | (true, None) =>
            id <- d_Id ;;
            r <- readIkeProposal id jnprSess ;;
            match r with
            | (_, Some err) => ret ([], Some err)
            | (ikeProposalOptions, None) =>
                fillIkeProposalData ikeProposalOptions ;;;
                result0 <- d_self ;;
                ret ([result0], None)
            end
        end)
  end.

End Resource.
End IkeProposal.

(** ** junos_security_ike_policy *)

Module IkePolicy.

Record ikePolicyOptions : Type := {
  name : string;
  mode : string;
  preSharedKeyText : string;
  preSharedKeyHexa : string;
  proposals : list string
}.

Record schema : Type := {
  s_name : string;
  s_proposals : list string;
  s_mode : string;
  s_pre_shared_key_text : string;
  s_pre_shared_key_hexa : string
}.

Section Resource.
(** [jdecode_Decode] is [Decode] of the library junosdecode, which turns the
    obfuscated form of a secret back into the secret or reports an error. *)
Context {D H : Type} (sess : Session D H) (K : Constants)
        (jdecode_Decode : string -> string * option error).

Local Open Scope go_scope.
Local Notation "'Mon' A" := (M D H schema A) (at level 10, A at level 9, only parsing).

Definition checkIkePolicyExists (ikePolicy : string) (jnprSess : H)
  : Mon (bool * option error) :=
  r <- sess_command sess ("show configuration security ike policy "
         ++ ikePolicy ++ " | display set") jnprSess ;;
  match r with
  | inr err => ret (false, Some err)
  | inl ikePolicyConfig =>
      if String.eqb ikePolicyConfig (emptyWord K) then ret (false, None)
      else ret (true, None)
  end.

(** The value of [configSet] in [setIkePolicy] when it is handed to the
    session, or the error the function returns before that. *)
Definition setIkePolicy_configSet (s : schema) : list string + error :=
  let setPrefix := "set security ike policy " ++ s_name s in
  if negb (String.eqb (s_mode s) "")
     && (negb (String.eqb (s_mode s) "main") && negb (String.eqb (s_mode s) "aggressive"))
  then inr (errorString ("unknown ike mode " ++ s_mode s))
  else inl
    (List.app
      (if negb (String.eqb (s_mode s) "")
       then [setPrefix ++ " mode " ++ s_mode s] else [])
    (List.app
      (map (fun v => setPrefix ++ " proposals " ++ v) (s_proposals s))
    (List.app
      (if negb (String.eqb (s_pre_shared_key_text s) "")
       then [setPrefix ++ " pre-shared-key ascii-text " ++ s_pre_shared_key_text s] else [])
      (if negb (String.eqb (s_pre_shared_key_hexa s) "")
       then [setPrefix ++ " pre-shared-key hexadecimal " ++ s_pre_shared_key_hexa s] else [])))).

Definition setIkePolicy (jnprSess : H) : Mon (option error) :=
  s <- d_Get (fun s => s) ;;
  match setIkePolicy_configSet s with
  | inr err => ret (Some err)
  | inl configSet => sess_configSet sess configSet jnprSess
  end.

Definition set_name (c : ikePolicyOptions) (v : string) :=
  {| name := v; mode := mode c; preSharedKeyText := preSharedKeyText c;
     preSharedKeyHexa := preSharedKeyHexa c; proposals := proposals c |}.

Definition set_mode (c : ikePolicyOptions) (v : string) :=
  {| name := name c; mode := v; preSharedKeyText := preSharedKeyText c;
     preSharedKeyHexa := preSharedKeyHexa c; proposals := proposals c |}.

Definition set_preSharedKeyText (c : ikePolicyOptions) (v : string) :=
  {| name := name c; mode := mode c; preSharedKeyText := v;
     preSharedKeyHexa := preSharedKeyHexa c; proposals := proposals c |}.

Definition set_preSharedKeyHexa (c : ikePolicyOptions) (v : string) :=
  {| name := name c; mode := mode c; preSharedKeyText := preSharedKeyText c;
     preSharedKeyHexa := v; proposals := proposals c |}.

Definition set_proposals (c : ikePolicyOptions) (v : list string) :=
  {| name := name c; mode := mode c; preSharedKeyText := preSharedKeyText c;
     preSharedKeyHexa := preSharedKeyHexa c; proposals := v |}.

(** The byte of a double quote, the cutset of the [strings.Trim] calls. *)
Definition dquote : string := String "034" "".

(** The loop of [readIkePolicy] over the lines of the answer. *)
Fixpoint readIkePolicy_loop (confRead : ikePolicyOptions) (items : list string)
  : ikePolicyOptions * option error :=
  match items with
  | [] => (confRead, None)
  | item :: rest =>
      if strings.Contains item "<configuration-output>" then
        readIkePolicy_loop confRead rest
      else if strings.Contains item "</configuration-output>" then
        (confRead, None)
      else
        let itemTrim := strings.TrimPrefix item setLineStart in
        if strings.HasPrefix itemTrim "mode " then
          readIkePolicy_loop (set_mode confRead (strings.TrimPrefix itemTrim "mode ")) rest
        else if strings.HasPrefix itemTrim "proposals " then
          readIkePolicy_loop
            (set_proposals confRead
               (proposals confRead ++ [strings.TrimPrefix itemTrim "proposals "])%list) rest
        else if strings.HasPrefix itemTrim "pre-shared-key hexadecimal " then
          match jdecode_Decode (strings.Trim
                  (strings.TrimPrefix itemTrim "pre-shared-key hexadecimal ") dquote) with
          | (v, Some err) =>
              (set_preSharedKeyHexa confRead v,
               Some (wrapError "failed to decode pre-shared-key hexadecimal : " err))
          | (v, None) => readIkePolicy_loop (set_preSharedKeyHexa confRead v) rest
          end
        else if strings.HasPrefix itemTrim "pre-shared-key ascii-text " then
          match jdecode_Decode (strings.Trim
                  (strings.TrimPrefix itemTrim "pre-shared-key ascii-text ") dquote) with
          | (v, Some err) =>
              (set_preSharedKeyText confRead v,
               Some (wrapError "failed to decode pre-shared-key ascii-text : " err))
          | (v, None) => readIkePolicy_loop (set_preSharedKeyText confRead v) rest
          end
        else readIkePolicy_loop confRead rest
  end.

Definition zero : ikePolicyOptions :=
  {| name := ""; mode := ""; preSharedKeyText := ""; preSharedKeyHexa := "";
     proposals := [] |}.

(** The schema fields the [d.Set] calls of [fillIkePolicyData] write. *)
Definition schema_of (o : ikePolicyOptions) : schema :=
  {| s_name := name o; s_proposals := proposals o; s_mode := mode o;
     s_pre_shared_key_text := preSharedKeyText o;
     s_pre_shared_key_hexa := preSharedKeyHexa o |}.

(** A line of a pre-shared key whose value [jdecode.Decode] refuses. *)
Definition bad_line (item : string) : bool :=
  let itemTrim := strings.TrimPrefix item setLineStart in
  (strings.HasPrefix itemTrim "pre-shared-key hexadecimal "
   && is_error (jdecode_Decode (strings.Trim
        (strings.TrimPrefix itemTrim "pre-shared-key hexadecimal ") dquote)))
  || (strings.HasPrefix itemTrim "pre-shared-key ascii-text "
      && is_error (jdecode_Decode (strings.Trim
           (strings.TrimPrefix itemTrim "pre-shared-key ascii-text ") dquote))).

(** A line no case of the loop takes. *)
Definition unrecognized (item : string) : bool :=
  let itemTrim := strings.TrimPrefix item setLineStart in
  negb (strings.Contains item marker_end)
  && negb (strings.HasPrefix itemTrim "mode ")
  && negb (strings.HasPrefix itemTrim "proposals ")
  && negb (strings.HasPrefix itemTrim "pre-shared-key hexadecimal ")
  && negb (strings.HasPrefix itemTrim "pre-shared-key ascii-text ").

(** [readIkePolicy] from the answer of the device on. *)
Definition readIkePolicy_decode (ikePolicy ikePolicyConfig : string)
  : ikePolicyOptions * option error :=
  if negb (String.eqb ikePolicyConfig (emptyWord K)) then
    readIkePolicy_loop (set_name zero ikePolicy)
      (strings.Split ikePolicyConfig (String "010" ""))
  else (set_name zero "", None).

(** What follows the line start in the lines of a relative display of the
    object that was staged for [s]. *)
Definition relative_bodies (s : schema) : list string :=
  List.app
    (if negb (String.eqb (s_mode s) "") then ["mode " ++ s_mode s] else [])
  (List.app
    (map (fun v => "proposals " ++ v) (s_proposals s))
  (List.app
    (if negb (String.eqb (s_pre_shared_key_text s) "")
     then ["pre-shared-key ascii-text " ++ s_pre_shared_key_text s] else [])
    (if negb (String.eqb (s_pre_shared_key_hexa s) "")
     then ["pre-shared-key hexadecimal " ++ s_pre_shared_key_hexa s] else []))).

(** The path of the object, which a relative display leaves out. *)
Definition path (ikePolicy : string) : string :=
  "security ike policy " ++ ikePolicy.

(** The schema fields read back from the lines that were staged for [s],
    when [setIkePolicy] gets to stage them. *)
Definition decode_encode (s : schema) : option (schema * option error) :=
  match setIkePolicy_configSet s with
  | inr _ => None
  | inl configSet =>
      let r := readIkePolicy_decode (s_name s)
                 (display_set_relative (path (s_name s)) configSet) in
      Some (schema_of (fst r), snd r)
  end.

Definition plain_fields (s : schema) : bool :=
  plain (s_mode s) && forallb plain (s_proposals s)
  && plain (s_pre_shared_key_text s) && plain (s_pre_shared_key_hexa s).

Definition mode_known (s : schema) : bool :=
  String.eqb (s_mode s) "" || String.eqb (s_mode s) "main"
  || String.eqb (s_mode s) "aggressive".

(** [jdecode.Decode] hands a secret back as it was written. *)
Definition decodes_to_itself (v : string) : Prop :=
  v = "" \/ jdecode_Decode (strings.Trim v dquote) = (v, None).

(** Reading back what was staged gives the schema fields that were staged,
    for every text that is plain and every mode the set function takes. *)
Definition roundtrips : Prop :=
  forall s, plain_fields s = true -> mode_known s = true ->
            decode_encode s = Some (s, None).

Definition readIkePolicy (ikePolicy : string) (jnprSess : H)
  : Mon (ikePolicyOptions * option error) :=
  r <- sess_command sess ("show configuration" ++
         " security ike policy " ++ ikePolicy ++ " | display set relative") jnprSess ;;
  match r with
  | inr err => ret (zero, Some err)
  | inl ikePolicyConfig => ret (readIkePolicy_decode ikePolicy ikePolicyConfig)
  end.

Definition delIkePolicy (jnprSess : H) : Mon (option error) :=
  nm <- d_Get s_name ;;
  sess_configSet sess ["delete security ike policy " ++ nm] jnprSess.

Definition fillIkePolicyData (o : ikePolicyOptions) : Mon unit :=
  d_Set (schema_of o).

Definition resourceIkePolicyRead : Mon Diagnostics :=
  mutex_Lock ;;;
  r <- sess_startNewSession sess ;;
  match r with
  | inr err => mutex_Unlock ;;; ret (diag_FromErr err)
  | inl jnprSess =>
      defer_closeSession sess jnprSess (
        nm <- d_Get s_name ;;
        r <- readIkePolicy nm jnprSess ;;
        mutex_Unlock ;;;
        match r with
        | (_, Some err) => ret (diag_FromErr err)
        | (ikePolicyOptions, None) =>
            if String.eqb (name ikePolicyOptions) "" then d_SetId "" ;;; ret []
            else fillIkePolicyData ikePolicyOptions ;;; ret []
        end)
  end.

Definition resourceIkePolicyCreate : Mon Diagnostics :=
  r <- sess_startNewSession sess ;;
  match r with
  | inr err => ret (diag_FromErr err)
  | inl jnprSess =>
      defer_closeSession sess jnprSess (
        if negb (checkCompatibilitySecurity sess jnprSess) then
          ret (diag_FromErr (errorString
                 ("security ike policy not compatible with Junos device "
                  ++ platformModel sess jnprSess)))
        else
          sess_configLock sess jnprSess ;;;
          nm <- d_Get s_name ;;
          r <- checkIkePolicyExists nm jnprSess ;;
          match r with
          | (_, Some err) => sess_configClear sess jnprSess ;;; ret (diag_FromErr err)
          | (true, None) =>
              sess_configClear sess jnprSess ;;;
              nm <- d_Get s_name ;;
              ret (diag_FromErr (errorString
                     ("security ike policy " ++ nm ++ " already exists")))
          | (false, None) =>
              err <- setIkePolicy jnprSess ;;
              match err with
              | Some err => sess_configClear sess jnprSess ;;; ret (diag_FromErr err)
              | None =>
                  err <- sess_commitConf sess "create resource junos_security_ike_policy" jnprSess ;;
                  match err with
                  | Some err => sess_configClear sess jnprSess ;;; ret (diag_FromErr err)
                  | None =>
                      nm <- d_Get s_name ;;
                      r <- checkIkePolicyExists nm jnprSess ;;
                      match r with
                      | (_, Some err) => ret (diag_FromErr err)
                      | (true, None) =>
                          nm <- d_Get s_name ;;
                          d_SetId nm ;;;
                          resourceIkePolicyRead
                      | (false, None) =>
                          nm <- d_Get s_name ;;
                          ret (diag_FromErr (errorString
                                 ("security ike policy " ++ nm ++ " not exists after commit "
                                  ++ "=> check your config")))
                      end
                  end
              end
          end)
  end.

Definition resourceIkePolicyUpdate : Mon Diagnostics :=
  d_Partial true ;;;
  r <- sess_startNewSession sess ;;
  match r with
  | inr err => ret (diag_FromErr err)
  | inl jnprSess =>
      defer_closeSession sess jnprSess (
        sess_configLock sess jnprSess ;;;
        err <- delIkePolicy jnprSess ;;
        match err with
        | Some err => sess_configClear sess jnprSess ;;; ret (diag_FromErr err)
        | None =>
            err <- setIkePolicy jnprSess ;;
            match err with
            | Some err => sess_configClear sess jnprSess ;;; ret (diag_FromErr err)
            | None =>
                err <- sess_commitConf sess "update resource junos_security_ike_policy" jnprSess ;;
                match err with
                | Some err => sess_configClear sess jnprSess ;;; ret (diag_FromErr err)
                | None => d_Partial false ;;; resourceIkePolicyRead
                end
            end
        end)
  end.

Definition resourceIkePolicyDelete : Mon Diagnostics :=
  r <- sess_startNewSession sess ;;
  match r with
  | inr err => ret (diag_FromErr err)
  | inl jnprSess =>
      defer_closeSession sess jnprSess (
        sess_configLock sess jnprSess ;;;
        err <- delIkePolicy jnprSess ;;
        match err with
        | Some err => sess_configClear sess jnprSess ;;; ret (diag_FromErr err)
        | None =>
            err <- sess_commitConf sess "delete resource junos_security_ike_policy" jnprSess ;;
            match err with
            | Some err => sess_configClear sess jnprSess ;;; ret (diag_FromErr err)
            | None => ret []
            end
        end)
  end.

(** [resourceIkePolicyImport]: the slice it returns holds [d] when the error is [nil],
    and is [nil] otherwise. *)
Definition resourceIkePolicyImport : Mon (list (ResourceData schema) * option error) :=
  r <- sess_startNewSession sess ;;
  match r with
  | inr err => ret ([], Some err)
  | inl jnprSess =>
      defer_closeSession sess jnprSess (
        id <- d_Id ;;
        r <- checkIkePolicyExists id jnprSess ;;
        match r with
        | (_, Some err) => ret ([], Some err)
        | (false, None) =>
            id <- d_Id ;;
            ret ([], Some (errorString
                   ("don't find security ike policy with id '" ++ id ++ "' (id must be <name>)")))
        | (true, None) =>
            id <- d_Id ;;
            r <- readIkePolicy id jnprSess ;;
            match r with
            | (_, Some err) => ret ([], Some err)
            | (ikePolicyOptions, None) =>
                fillIkePolicyData ikePolicyOptions ;;;
                result0 <- d_self ;;
                ret ([result0], None)
            end
        end)
  end.

End Resource.
End IkePolicy.

(** ** junos_ospf_area *)

Module OspfArea.

(** An element of the interface block: the Go map with the keys name,
    disable, passive, metric, hello_interval, retransmit_interval and
    dead_interval, all of them present in every map the source builds. *)
Record ospfInterface : Type := {
  name : string;
  disable : bool;
  passive : bool;
  metric : Z;
  hello_interval : Z;
  retransmit_interval : Z;
  dead_interval : Z
}.

Record ospfAreaOptions : Type := {
  areaID : string;
  routingInstance : string;
  version : string;
  interFace : list ospfInterface
}.

Record schema : Type := {
  s_area_id : string;
  s_routing_instance : string;
  s_version : string;
  s_interface : list ospfInterface
}.

(** Modelled from the spec: [copyAndRemoveItemMapList] is defined in a file
    of the package that is not among the sources.  The spec (4.3) has it look
    the key of [m] up in the list; when an element has it, that element is what
    the caller goes on with and its old occurrence is removed, the caller
    re-adding the merged map at the end; when none has it, the fresh [m] is
    handed back and the list is as it was.  [identifier] reads the key; the
    flag for integer keys, false at the one call of the sources, is left
    out. *)
Fixpoint copyAndRemoveItemMapList (identifier : ospfInterface -> string)
    (m : ospfInterface) (elements : list ospfInterface)
  : ospfInterface * list ospfInterface :=
  match elements with
  | [] => (m, [])
  | element :: rest =>
      if String.eqb (identifier element) (identifier m) then (element, rest)
      else let (m', rest') := copyAndRemoveItemMapList identifier m rest in
           (m', element :: rest')
  end.

Definition set_disable (i : ospfInterface) (v : bool) :=
  {| name := name i; disable := v; passive := passive i; metric := metric i;
     hello_interval := hello_interval i; retransmit_interval := retransmit_interval i;
     dead_interval := dead_interval i |}.

Definition set_passive (i : ospfInterface) (v : bool) :=
  {| name := name i; disable := disable i; passive := v; metric := metric i;
     hello_interval := hello_interval i; retransmit_interval := retransmit_interval i;
     dead_interval := dead_interval i |}.

Definition set_metric (i : ospfInterface) (v : Z) :=
  {| name := name i; disable := disable i; passive := passive i; metric := v;
     hello_interval := hello_interval i; retransmit_interval := retransmit_interval i;
     dead_interval := dead_interval i |}.

Definition set_hello_interval (i : ospfInterface) (v : Z) :=
  {| name := name i; disable := disable i; passive := passive i; metric := metric i;
     hello_interval := v; retransmit_interval := retransmit_interval i;
     dead_interval := dead_interval i |}.

Definition set_retransmit_interval (i : ospfInterface) (v : Z) :=
  {| name := name i; disable := disable i; passive := passive i; metric := metric i;
     hello_interval := hello_interval i; retransmit_interval := v;
     dead_interval := dead_interval i |}.

Definition set_dead_interval (i : ospfInterface) (v : Z) :=
  {| name := name i; disable := disable i; passive := passive i; metric := metric i;
     hello_interval := hello_interval i; retransmit_interval := retransmit_interval i;
     dead_interval := v |}.

Definition set_interFace (c : ospfAreaOptions) (l : list ospfInterface) :=
  {| areaID := areaID c; routingInstance := routingInstance c; version := version c;
     interFace := l |}.

(** The map literal of [readOspfArea]: the name and the zero of every other
    key. *)
Definition interfaceOptions_new (nm : string) : ospfInterface :=
  {| name := nm; disable := false; passive := false; metric := 0;
     hello_interval := 0; retransmit_interval := 0; dead_interval := 0 |}.

Definition failed_to_convert (itemTrimInterface : string) (err : error) : error :=
  wrapError ("failed to convert value from '" ++ itemTrimInterface ++ "' to integer : ") err.

(** The body of the loop of [readOspfArea] for a line of the interface
    block: the list of interfaces after the line, or the list and the error
    the function returns with. *)
Definition readOspfArea_interface (itemTrim : string) (interFace0 : list ospfInterface)
  : list ospfInterface * option error :=
  let itemInterfaceList := strings.Split (strings.TrimPrefix itemTrim "interface ") " " in
  let interfaceOptions := interfaceOptions_new (nth 0 itemInterfaceList "") in
  let itemTrimInterface :=
    strings.TrimPrefix itemTrim ("interface " ++ nth 0 itemInterfaceList "" ++ " ") in
  let (interfaceOptions, interFace1) :=
    copyAndRemoveItemMapList name interfaceOptions interFace0 in
  if strings.HasPrefix itemTrimInterface "disable" then
    ((interFace1 ++ [set_disable interfaceOptions true])%list, None)
  else if strings.HasPrefix itemTrimInterface "passive" then
    ((interFace1 ++ [set_passive interfaceOptions true])%list, None)
  else if strings.HasPrefix itemTrimInterface "metric " then
    match strconv.Atoi (strings.TrimPrefix itemTrimInterface "metric ") with
    | (_, Some err) => (interFace1, Some (failed_to_convert itemTrimInterface err))
    | (v, None) => ((interFace1 ++ [set_metric interfaceOptions v])%list, None)
    end
  else if strings.HasPrefix itemTrimInterface "hello-interval " then
    match strconv.Atoi (strings.TrimPrefix itemTrimInterface "hello-interval ") with
    | (_, Some err) => (interFace1, Some (failed_to_convert itemTrimInterface err))
    | (v, None) => ((interFace1 ++ [set_hello_interval interfaceOptions v])%list, None)
    end
  else if strings.HasPrefix itemTrimInterface "retransmit-interval " then
    match strconv.Atoi (strings.TrimPrefix itemTrimInterface "retransmit-interval ") with
    | (_, Some err) => (interFace1, Some (failed_to_convert itemTrimInterface err))
    | (v, None) => ((interFace1 ++ [set_retransmit_interval interfaceOptions v])%list, None)
    end
  else if strings.HasPrefix itemTrimInterface "dead-interval " then
    match strconv.Atoi (strings.TrimPrefix itemTrimInterface "dead-interval ") with
    | (_, Some err) => (interFace1, Some (failed_to_convert itemTrimInterface err))
    | (v, None) => ((interFace1 ++ [set_dead_interval interfaceOptions v])%list, None)
    end
  else ((interFace1 ++ [interfaceOptions])%list, None).

(** The loop of [readOspfArea] over the lines of the answer. *)
Fixpoint readOspfArea_loop (confRead : ospfAreaOptions) (items : list string)
  : ospfAreaOptions * option error :=
  match items with
  | [] => (confRead, None)
  | item :: rest =>
      if strings.Contains item "<configuration-output>" then
        readOspfArea_loop confRead rest
      else if strings.Contains item "</configuration-output>" then
        (confRead, None)
      else
        let itemTrim := strings.TrimPrefix item setLineStart in
        if strings.HasPrefix itemTrim "interface " then
          match readOspfArea_interface itemTrim (interFace confRead) with
          | (l, Some err) => (set_interFace confRead l, Some err)
          | (l, None) => readOspfArea_loop (set_interFace confRead l) rest
          end
        else readOspfArea_loop confRead rest
  end.

Definition zero : ospfAreaOptions :=
  {| areaID := ""; routingInstance := ""; version := ""; interFace := [] |}.

(** The schema fields the [d.Set] calls of [fillOspfAreaData] write. *)
Definition schema_of (o : ospfAreaOptions) : schema :=
  {| s_area_id := areaID o; s_routing_instance := routingInstance o;
     s_version := version o; s_interface := interFace o |}.

(** The key of a line of the interface block, and what follows it, as
    [readOspfArea] takes them from the line. *)
Definition block_key (itemTrim : string) : string :=
  nth 0 (strings.Split (strings.TrimPrefix itemTrim "interface ") " ") "".

Definition block_rest (itemTrim : string) : string :=
  strings.TrimPrefix itemTrim ("interface " ++ block_key itemTrim ++ " ").

(** The key of a line, when it is a line of the interface block. *)
Definition interface_key (item : string) : option string :=
  let itemTrim := strings.TrimPrefix item setLineStart in
  if strings.HasPrefix itemTrim "interface " then Some (block_key itemTrim) else None.

(** The keys of the lines of the interface block, in the order of the
    lines. *)
Fixpoint block_keys (items : list string) : list string :=
  match items with
  | [] => []
  | item :: rest =>
      match interface_key item with
      | Some k => k :: block_keys rest
      | None => block_keys rest
      end
  end.

(** The keys of a list without repetition, each at the place of its first
    appearance ([seen] holds the keys already met). *)
Fixpoint first_appearance_from (seen keys : list string) : list string :=
  match keys with
  | [] => []
  | k :: rest =>
      if existsb (String.eqb k) seen then first_appearance_from seen rest
      else k :: first_appearance_from (k :: seen) rest
  end.

Definition first_appearance (keys : list string) : list string :=
  first_appearance_from [] keys.

(** The keys of a list without repetition, each at the place of its last
    appearance. *)
Fixpoint last_appearance (keys : list string) : list string :=
  match keys with
  | [] => []
  | k :: rest =>
      if existsb (String.eqb k) rest then last_appearance rest
      else k :: last_appearance rest
  end.

(** The lines of every key come one after the other: a key that gave way to
    another one does not come back. *)
Fixpoint grouped (keys : list string) : Prop :=
  match keys with
  | [] => True
  | k :: rest =>
      match rest with
      | [] => True
      | k' :: _ => k = k' \/ ~ In k rest
      end /\ grouped rest
  end.

(** The keys of a list of interfaces, and the test for an element with
    another key than [k]. *)
Definition names (l : list ospfInterface) : list string := map name l.

Definition other (k : string) (x : ospfInterface) : bool := negb (String.eqb (name x) k).

(** The test for a key that is not among [keys]. *)
Definition unseen (keys : list string) (x : string) : bool :=
  negb (existsb (String.eqb x) keys).

(** The keys of the interface list that [readOspfArea] builds from the lines
    [items], in the order of the list; [confRead] is the record the loop
    starts from. *)
Definition decoded_keys (confRead : ospfAreaOptions) (items : list string) : list string :=
  names (interFace (fst (readOspfArea_loop confRead items))).

(** A line of an integer field of the interface block whose value
    [strconv.Atoi] refuses. *)
Definition bad_line (item : string) : bool :=
  let itemTrim := strings.TrimPrefix item setLineStart in
  strings.HasPrefix itemTrim "interface "
  && existsb (fun keyword =>
                strings.HasPrefix (block_rest itemTrim) keyword
                && is_error (strconv.Atoi
                     (strings.TrimPrefix (block_rest itemTrim) keyword)))
       ["metric "; "hello-interval "; "retransmit-interval "; "dead-interval "].

(** A line no case of the loop takes. *)
Definition unrecognized (item : string) : bool :=
  let itemTrim := strings.TrimPrefix item setLineStart in
  negb (strings.Contains item marker_end)
  && negb (strings.HasPrefix itemTrim "interface ").

(** [r'] is [r] with at most one of its fields set anew. *)
Definition extends (r r' : ospfInterface) : Prop :=
  r' = r \/ r' = set_disable r true \/ r' = set_passive r true
  \/ exists v, r' = set_metric r v \/ r' = set_hello_interval r v
               \/ r' = set_retransmit_interval r v \/ r' = set_dead_interval r v.

(** What a line of the interface block sets in the element [r] of its key
    when it is taken without an error, [rest] being what follows the key in
    the line: the field that the keyword of the line names, set to true for
    disable and passive and to the integer that follows the keyword for the
    four integer fields; the other fields are those of [r], and a line with
    none of the keywords sets nothing. *)
Definition line_sets (rest : string) (r : ospfInterface) : ospfInterface :=
  if strings.HasPrefix rest "disable" then set_disable r true
  else if strings.HasPrefix rest "passive" then set_passive r true
  else if strings.HasPrefix rest "metric " then
    set_metric r (fst (strconv.Atoi (strings.TrimPrefix rest "metric ")))
  else if strings.HasPrefix rest "hello-interval " then
    set_hello_interval r (fst (strconv.Atoi (strings.TrimPrefix rest "hello-interval ")))
  else if strings.HasPrefix rest "retransmit-interval " then
    set_retransmit_interval r
      (fst (strconv.Atoi (strings.TrimPrefix rest "retransmit-interval ")))
  else if strings.HasPrefix rest "dead-interval " then
    set_dead_interval r (fst (strconv.Atoi (strings.TrimPrefix rest "dead-interval ")))
  else r.

(** An element of the interface list with a field that [setOspfArea] writes
    a line for. *)
Definition has_explicit_field (i : ospfInterface) : bool :=
  disable i || passive i || negb (Z.eqb (metric i) 0)
  || negb (Z.eqb (hello_interval i) 0) || negb (Z.eqb (retransmit_interval i) 0)
  || negb (Z.eqb (dead_interval i) 0).

(** What follows the line start in the lines of a relative display of the
    interface [i] as it was staged. *)
Definition relative_bodies_interface (i : ospfInterface) : list string :=
  let block := "interface " ++ name i ++ " " in
  List.app (if disable i then [block ++ "disable"] else [])
  (List.app (if passive i then [block ++ "passive"] else [])
  (List.app (if negb (Z.eqb (metric i) 0)
             then [block ++ "metric " ++ strconv.Itoa (metric i)] else [])
  (List.app (if negb (Z.eqb (hello_interval i) 0)
             then [block ++ "hello-interval " ++ strconv.Itoa (hello_interval i)] else [])
  (List.app (if negb (Z.eqb (retransmit_interval i) 0)
             then [block ++ "retransmit-interval "
                   ++ strconv.Itoa (retransmit_interval i)] else [])
            (if negb (Z.eqb (dead_interval i) 0)
             then [block ++ "dead-interval " ++ strconv.Itoa (dead_interval i)]
             else []))))).

Definition relative_bodies (l : list ospfInterface) : list string :=
  flat_map relative_bodies_interface l.

(** The record while the lines of one interface are read: the list [l] of
    the interfaces read before, and the element [p] of the interface being
    read once a line of it was read ([e]). *)
Definition reading (c : ospfAreaOptions) (l : list ospfInterface) (e : bool)
    (p : ospfInterface) : ospfAreaOptions :=
  set_interFace c (l ++ if e then [p] else [])%list.

(** [p] is the element for the key [n], and the new one as long as no line
    was read. *)
Definition reading_of (n : string) (e : bool) (p : ospfInterface) : Prop :=
  name p = n /\ (e = false -> p = interfaceOptions_new n).

(** An element of the interface list that [setOspfArea] writes at least one
    line for, with a name in one piece and integers of the Go type. *)
Definition well_formed_interface (i : ospfInterface) : bool :=
  token (name i) && has_explicit_field i
  && in_int_range (metric i) && in_int_range (hello_interval i)
  && in_int_range (retransmit_interval i) && in_int_range (dead_interval i).

Definition well_formed (s : schema) : Prop :=
  NoDup (names (s_interface s))
  /\ forallb well_formed_interface (s_interface s) = true.

Section Resource.
Context {D H : Type} (sess : Session D H) (K : Constants).

Local Open Scope go_scope.
Local Notation "'Mon' A" := (M D H schema A) (at level 10, A at level 9, only parsing).

Definition ospfVersion_of (version : string) : string :=
  if String.eqb version "v3" then ospfV3 K else opsfV2 K.

Definition checkOspfAreaExists (idArea version routingInstance : string) (jnprSess : H)
  : Mon (bool * option error) :=
  let ospfVersion := ospfVersion_of version in
  r <- (if String.eqb routingInstance (defaultWord K) then
          sess_command sess ("show configuration protocols " ++
            ospfVersion ++ " area " ++ idArea ++ " | display set") jnprSess
        else
          sess_command sess ("show configuration routing-instances " ++
            routingInstance ++ " protocols " ++ ospfVersion ++ " area " ++ idArea
            ++ " | display set") jnprSess) ;;
  match r with
  | inr err => ret (false, Some err)
  | inl ospfAreaConfig =>
      if String.eqb ospfAreaConfig (emptyWord K) then ret (false, None)
      else ret (true, None)
  end.

(** The lines [setOspfArea] adds for one element of the interface list. *)
Definition setOspfArea_interface (setPrefix : string) (ospfInterface : ospfInterface)
  : list string :=
  let setPrefixInterface := setPrefix ++ "interface " ++ name ospfInterface ++ " " in
  List.app (if disable ospfInterface then [setPrefixInterface ++ "disable"] else [])
  (List.app (if passive ospfInterface then [setPrefixInterface ++ "passive"] else [])
  (List.app (if negb (Z.eqb (metric ospfInterface) 0)
             then [setPrefixInterface ++ "metric " ++ strconv.Itoa (metric ospfInterface)]
             else [])
  (List.app (if negb (Z.eqb (hello_interval ospfInterface) 0)
             then [setPrefixInterface ++ "hello-interval "
                   ++ strconv.Itoa (hello_interval ospfInterface)]
             else [])
  (List.app (if negb (Z.eqb (retransmit_interval ospfInterface) 0)
             then [setPrefixInterface ++ "retransmit-interval "
                   ++ strconv.Itoa (retransmit_interval ospfInterface)]
             else [])
            (if negb (Z.eqb (dead_interval ospfInterface) 0)
             then [setPrefixInterface ++ "dead-interval "
                   ++ strconv.Itoa (dead_interval ospfInterface)]
             else []))))).

Definition setOspfArea_setPrefix (s : schema) : string :=
  let ospfVersion := ospfVersion_of (s_version s) in
  if String.eqb (s_routing_instance s) (defaultWord K) then
    setLineStart ++ "protocols " ++ ospfVersion ++ " area " ++ s_area_id s ++ " "
  else
    setLineStart ++ "routing-instances " ++ s_routing_instance s ++
      " protocols " ++ ospfVersion ++ " area " ++ s_area_id s ++ " ".

(** The value of [configSet] in [setOspfArea] when it is handed to the
    session. *)
Definition setOspfArea_configSet (s : schema) : list string :=
  flat_map (setOspfArea_interface (setOspfArea_setPrefix s)) (s_interface s).

Definition setOspfArea (jnprSess : H) : Mon (option error) :=
  s <- d_Get (fun s => s) ;;
  sess_configSet sess (setOspfArea_configSet s) jnprSess.

(** [readOspfArea] from the answer of the device on. *)
Definition readOspfArea_decode (idArea version routingInstance ospfAreaConfig : string)
  : ospfAreaOptions * option error :=
  if negb (String.eqb ospfAreaConfig (emptyWord K)) then
    readOspfArea_loop
      {| areaID := idArea; routingInstance := routingInstance; version := version;
         interFace := [] |}
      (strings.Split ospfAreaConfig (String "010" ""))
  else ({| areaID := ""; routingInstance := ""; version := ""; interFace := [] |}, None).

(** The path of the object, which a relative display leaves out. *)
Definition path (s : schema) : string :=
  let ospfVersion := ospfVersion_of (s_version s) in
  if String.eqb (s_routing_instance s) (defaultWord K) then
    "protocols " ++ ospfVersion ++ " area " ++ s_area_id s
  else
    "routing-instances " ++ s_routing_instance s ++
      " protocols " ++ ospfVersion ++ " area " ++ s_area_id s.

(** The schema fields read back from the lines that were staged for [s]. *)
Definition decode_encode (s : schema) : schema * option error :=
  let r := readOspfArea_decode (s_area_id s) (s_version s) (s_routing_instance s)
             (display_set_relative (path s) (setOspfArea_configSet s)) in
  (schema_of (fst r), snd r).

Definition readOspfArea (idArea version routingInstance : string) (jnprSess : H)
  : Mon (ospfAreaOptions * option error) :=
  let ospfVersion := ospfVersion_of version in
  r <- (if String.eqb routingInstance (defaultWord K) then
          sess_command sess ("show configuration protocols " ++
            ospfVersion ++ " area " ++ idArea ++ " | display set relative") jnprSess
        else
          sess_command sess ("show configuration routing-instances " ++
            routingInstance ++ " protocols " ++ ospfVersion ++ " area " ++ idArea
            ++ " | display set relative") jnprSess) ;;
  match r with
  | inr err => ret (zero, Some err)
  | inl ospfAreaConfig =>
      ret (readOspfArea_decode idArea version routingInstance ospfAreaConfig)
  end.

Definition delOspfArea_configSet (s : schema) : list string :=
  let ospfVersion := ospfVersion_of (s_version s) in
  if String.eqb (s_routing_instance s) (defaultWord K) then
    ["delete protocols " ++ ospfVersion ++ " area " ++ s_area_id s]
  else
    ["delete routing-instances " ++ s_routing_instance s ++
       " protocols " ++ ospfVersion ++ " area " ++ s_area_id s].

Definition delOspfArea (jnprSess : H) : Mon (option error) :=
  s <- d_Get (fun s => s) ;;
  sess_configSet sess (delOspfArea_configSet s) jnprSess.

Definition fillOspfAreaData (o : ospfAreaOptions) : Mon unit :=
  d_Set (schema_of o).

Definition resourceOspfAreaRead : Mon Diagnostics :=
  mutex_Lock ;;;
  r <- sess_startNewSession sess ;;
  match r with
  | inr err => mutex_Unlock ;;; ret (diag_FromErr err)
  | inl jnprSess =>
      defer_closeSession sess jnprSess (
        s <- d_Get (fun s => s) ;;
        r <- readOspfArea (s_area_id s) (s_version s) (s_routing_instance s) jnprSess ;;
        mutex_Unlock ;;;
        match r with
        | (_, Some err) => ret (diag_FromErr err)
        | (ospfAreaOptions, None) =>
            if String.eqb (areaID ospfAreaOptions) "" then d_SetId "" ;;; ret []
            else fillOspfAreaData ospfAreaOptions ;;; ret []
        end)
  end.

Definition resourceOspfAreaCreate : Mon Diagnostics :=
  r <- sess_startNewSession sess ;;
  match r with
  | inr err => ret (diag_FromErr err)
  | inl jnprSess =>
      defer_closeSession sess jnprSess (
        sess_configLock sess jnprSess ;;;
        s <- d_Get (fun s => s) ;;
        r <- checkOspfAreaExists (s_area_id s) (s_version s) (s_routing_instance s) jnprSess ;;
        match r with
        | (_, Some err) => sess_configClear sess jnprSess ;;; ret (diag_FromErr err)
        | (true, None) =>
            sess_configClear sess jnprSess ;;;
            s <- d_Get (fun s => s) ;;
            ret (diag_FromErr (errorString
                   ("ospf " ++ s_version s ++ " area " ++ s_area_id s
                    ++ " already exists in routing instance " ++ s_routing_instance s)))
        | (false, None) =>
            err <- setOspfArea jnprSess ;;
            match err with
            | Some err => sess_configClear sess jnprSess ;;; ret (diag_FromErr err)
            | None =>
                err <- sess_commitConf sess "create resource junos_ospf_area" jnprSess ;;
                match err with
                | Some err => sess_configClear sess jnprSess ;;; ret (diag_FromErr err)
                | None =>
                    s <- d_Get (fun s => s) ;;
                    r <- checkOspfAreaExists (s_area_id s) (s_version s)
                           (s_routing_instance s) jnprSess ;;
                    match r with
                    | (_, Some err) => ret (diag_FromErr err)
                    | (true, None) =>
                        s <- d_Get (fun s => s) ;;
                        d_SetId (s_area_id s ++ idSeparator K ++ s_version s ++
                                 idSeparator K ++ s_routing_instance s) ;;;
                        resourceOspfAreaRead
                    | (false, None) =>
                        s <- d_Get (fun s => s) ;;
                        ret (diag_FromErr (errorString
                               ("ospf " ++ s_version s ++ " area " ++ s_area_id s
                                ++ " in routing instance " ++ s_routing_instance s
                                ++ " not exists after commit => check your config")))
                    end
                end
            end
        end)
  end.

Definition resourceOspfAreaUpdate : Mon Diagnostics :=
  d_Partial true ;;;
  r <- sess_startNewSession sess ;;
  match r with
  | inr err => ret (diag_FromErr err)
  | inl jnprSess =>
      defer_closeSession sess jnprSess (
        sess_configLock sess jnprSess ;;;
        err <- delOspfArea jnprSess ;;
        match err with
        | Some err => sess_configClear sess jnprSess ;;; ret (diag_FromErr err)
        | None =>
            err <- setOspfArea jnprSess ;;
            match err with
            | Some err => sess_configClear sess jnprSess ;;; ret (diag_FromErr err)
            | None =>
                err <- sess_commitConf sess "update resource junos_ospf_area" jnprSess ;;
                match err with
                | Some err => sess_configClear sess jnprSess ;;; ret (diag_FromErr err)
                | None => d_Partial false ;;; resourceOspfAreaRead
                end
            end
        end)
  end.

Definition resourceOspfAreaDelete : Mon Diagnostics :=
  r <- sess_startNewSession sess ;;
  match r with
  | inr err => ret (diag_FromErr err)
  | inl jnprSess =>
      defer_closeSession sess jnprSess (
        sess_configLock sess jnprSess ;;;
        err <- delOspfArea jnprSess ;;
        match err with
        | Some err => sess_configClear sess jnprSess ;;; ret (diag_FromErr err)
        | None =>
            err <- sess_commitConf sess "delete resource junos_ospf_area" jnprSess ;;
            match err with
            | Some err => sess_configClear sess jnprSess ;;; ret (diag_FromErr err)
            | None => ret []
            end
        end)
  end.

(** The identity [resourceOspfAreaCreate] gives the resource. *)
Definition identity (s : schema) : string :=
  s_area_id s ++ idSeparator K ++ s_version s ++ idSeparator K ++ s_routing_instance s.

(** The area, the version and the routing instance that
    [resourceOspfAreaImport] takes from an identity: the first three pieces
    of the identity split at the separator. *)
Definition schema_of_id (id : string) : schema :=
  let idSplit := strings.Split id (idSeparator K) in
  {| s_area_id := nth 0 idSplit ""; s_routing_instance := nth 2 idSplit "";
     s_version := nth 1 idSplit ""; s_interface := [] |}.

(** [resourceOspfAreaImport], for an [idSeparator] that is not empty and
    holds no percent sign: the slice it returns holds [d] when the error is
    [nil], and is [nil] otherwise. *)
Definition resourceOspfAreaImport : Mon (list (ResourceData schema) * option error) :=
  r <- sess_startNewSession sess ;;
  match r with
  | inr err => ret ([], Some err)
  | inl jnprSess =>
      defer_closeSession sess jnprSess (
        id <- d_Id ;;
        let idSplit := strings.Split id (idSeparator K) in
        if Nat.ltb (List.length idSplit) 3 then
          ret ([], Some (errorString
                 ("missing element(s) in id with separator " ++ idSeparator K)))
        else
          r <- checkOspfAreaExists (nth 0 idSplit "") (nth 1 idSplit "") (nth 2 idSplit "")
                 jnprSess ;;
          match r with
          | (_, Some err) => ret ([], Some err)
          | (false, None) =>
              id <- d_Id ;;
              ret ([], Some (errorString
                     ("don't find ospf area with id '" ++ id ++ "' (id must be " ++
                      "<aread_id>" ++ idSeparator K ++ "<version>" ++ idSeparator K ++
                      "<routing_instance>)")))
          | (true, None) =>
              r <- readOspfArea (nth 0 idSplit "") (nth 1 idSplit "") (nth 2 idSplit "")
                     jnprSess ;;
              match r with
              | (_, Some err) => ret ([], Some err)
              | (ospfAreaOptions, None) =>
                  fillOspfAreaData ospfAreaOptions ;;;
                  result0 <- d_self ;;
                  ret ([result0], None)
              end
          end)
  end.

End Resource.
End OspfArea.

(** ** What a run shows of the protocol *)

Section Protocol.
Context {H : Type} (K : Constants).

Definition is_SetId (e : event H) : bool :=
  match e with EvSetId _ => true | _ => false end.

Definition is_ConfigSet (e : event H) : bool :=
  match e with EvConfigSet _ _ _ => true | _ => false end.

Definition is_ConfigClear (e : event H) : bool :=
  match e with EvConfigClear _ => true | _ => false end.

Definition is_ConfigLock (e : event H) : bool :=
  match e with EvConfigLock _ => true | _ => false end.

Definition is_commit_ok (e : event H) : bool :=
  match e with EvCommitConf _ _ None => true | _ => false end.

(** The answer an existence check takes for the object being there: any
    text but the empty word, and no error. *)
Definition answers_exists (r : string + error) : bool :=
  match r with
  | inl config => negb (String.eqb config (emptyWord K))
  | inr _ => false
  end.

(** The answer an existence check takes for the object not being there. *)
Definition answers_absent (r : string + error) : bool :=
  match r with
  | inl config => String.eqb config (emptyWord K)
  | inr _ => false
  end.

(** The first query of the run was answered as by an object that exists. *)
Fixpoint first_check_exists (tr : list (event H)) : bool :=
  match tr with
  | [] => false
  | EvCommand _ _ r :: _ => answers_exists r
  | _ :: rest => first_check_exists rest
  end.

(** A commit went through and the query right after it was answered as by
    an object that is not there. *)
Fixpoint commit_ok_then_absent (tr : list (event H)) : bool :=
  match tr with
  | [] => false
  | e :: rest =>
      match e, rest with
      | EvCommitConf _ _ None, EvCommand _ _ r :: _ =>
          answers_absent r || commit_ok_then_absent rest
      | _, _ => commit_ok_then_absent rest
      end
  end.

(** The last thing done with the session before it was closed was to clear
    the candidate configuration. *)
Definition cleared_before_close (tr : list (event H)) : bool :=
  match rev tr with
  | EvCloseSession _ :: EvConfigClear _ :: _ => true
  | _ => false
  end.

End Protocol.

(** ** A device to run the resources on *)

(** A device that takes every set of lines and every commit, and drops the
    candidate configuration and the lock of a session that is closed.  It
    answers a query from the list [answers] as long as the list has an answer
    left, and from its configuration after that: with the set lines under the
    path of the query, without the path for a relative display, or with the
    empty word [empty] when there is none. *)
Module TestDevice.

Record state : Type := {
  committed : list string;
  candidate : list string;
  locked : bool;
  answers : list (string + error)
}.

Definition K : Constants :=
  {| emptyWord := "empty"; defaultWord := "default"; idSeparator := "_-_";
     opsfV2 := "ospf"; ospfV3 := "ospf3" |}.

Fixpoint reverse_onto (s acc : string) : string :=
  match s with
  | EmptyString => acc
  | String c s' => reverse_onto s' (String c acc)
  end.

Definition reverse (s : string) : string := reverse_onto s "".

(** [s] without [suffix] at its end, when it ends with it. *)
Definition cut_suffix (s suffix : string) : option string :=
  if strings.HasPrefix (reverse s) (reverse suffix)
  then Some (reverse (strings.drop (String.length suffix) (reverse s)))
  else None.

(** The set lines of a configuration under a path. *)
Definition under (path : string) (config : list string) : list string :=
  filter (fun line => strings.HasPrefix line (setLineStart ++ path ++ " ")) config.

Definition show (config : list string) (cmd : string) : string :=
  let query := strings.TrimPrefix cmd "show configuration " in
  match cut_suffix query " | display set relative" with
  | Some path =>
      match under path config with
      | [] => emptyWord K
      | lines => display_set_relative path lines
      end
  | None =>
      match cut_suffix query " | display set" with
      | Some path =>
          match under path config with
          | [] => emptyWord K
          | lines => strings.Join lines LF
          end
      | None => emptyWord K
      end
  end.

(** A line of the candidate configuration, committed: a delete line takes
    the set lines under its path away, a set line is added unless it is
    there. *)
Definition commit_line (config : list string) (line : string) : list string :=
  if strings.HasPrefix line "delete " then
    filter (fun l => negb (strings.HasPrefix l
                             (setLineStart ++ strings.TrimPrefix line "delete " ++ " ")))
           config
  else if existsb (String.eqb line) config then config
  else (config ++ [line])%list.

Definition sess : Session state unit :=
  {| startNewSession := fun dv => (inl tt, dv);
     closeSession := fun _ dv =>
       {| committed := committed dv; candidate := []; locked := false;
          answers := answers dv |};
     configLock := fun _ dv =>
       {| committed := committed dv; candidate := candidate dv; locked := true;
          answers := answers dv |};
     configClear := fun _ dv =>
       {| committed := committed dv; candidate := []; locked := false;
          answers := answers dv |};
     command := fun cmd _ dv =>
       match answers dv with
       | [] => (inl (show (committed dv) cmd), dv)
       | r :: rest =>
           (r, {| committed := committed dv; candidate := candidate dv;
                  locked := locked dv; answers := rest |})
       end;
     configSet := fun lines _ dv =>
       (None, {| committed := committed dv; candidate := (candidate dv ++ lines)%list;
                 locked := locked dv; answers := answers dv |});
     commitConf := fun _ _ dv =>
       (None, {| committed := fold_left commit_line (candidate dv) (committed dv);
                 candidate := []; locked := locked dv; answers := answers dv |});
     checkCompatibilitySecurity := fun _ => true;
     platformModel := fun _ => "vsrx" |}.

(** A stand-in for [jdecode.Decode] that refuses every text. *)
Definition decode_refuses (s : string) : string * option error :=
  ("", Some (errorString "invalid junos secret")).

(** A stand-in for [jdecode.Decode] that hands every text back. *)
Definition decode_id (s : string) : string * option error := (s, None).

(** The device with no configuration and the answers [answers]. *)
Definition device0 (answers : list (string + error)) : state :=
  {| committed := []; candidate := []; locked := false; answers := answers |}.

(** The device with the configuration [config]. *)
Definition device_with (config : list string) : state :=
  {| committed := config; candidate := []; locked := false; answers := [] |}.

Definition rd_ospf (interfaces : list OspfArea.ospfInterface)
  : ResourceData OspfArea.schema :=
  {| fields := {| OspfArea.s_area_id := "0.0.0.0"; OspfArea.s_routing_instance := "default";
                  OspfArea.s_version := "v2"; OspfArea.s_interface := interfaces |};
     Id := ""; partial := false |}.

Definition rd_ipsec : ResourceData IpsecPolicy.schema :=
  {| fields := {| IpsecPolicy.s_name := "POL1"; IpsecPolicy.s_proposals := ["p1"; "p2"];
                  IpsecPolicy.s_pfs_keys := "group14" |};
     Id := ""; partial := false |}.

(** Two ike policies that differ in their pre-shared key only: the text a,
    and the text a between two double quotes. *)
Definition ike_policy (key : string) : IkePolicy.schema :=
  {| IkePolicy.s_name := "POL1"; IkePolicy.s_proposals := ["p1"];
     IkePolicy.s_mode := "main"; IkePolicy.s_pre_shared_key_text := key;
     IkePolicy.s_pre_shared_key_hexa := "" |}.

Definition quoted_a : string := String "034" (String "a" (String "034" "")).

Definition ospf_area (interfaces : list OspfArea.ospfInterface) : OspfArea.schema :=
  {| OspfArea.s_area_id := "0.0.0.0"; OspfArea.s_routing_instance := "default";
     OspfArea.s_version := "v2"; OspfArea.s_interface := interfaces |}.

(** The device when no session can be started. *)
Definition sess_down : Session state unit :=
  {| startNewSession := fun dv => (inr (errorString "connection refused"), dv);
     closeSession := closeSession sess;
     configLock := configLock sess;
     configClear := configClear sess;
     command := command sess;
     configSet := configSet sess;
     commitConf := commitConf sess;
     checkCompatibilitySecurity := checkCompatibilitySecurity sess;
     platformModel := platformModel sess |}.

(** The device when it is a router without the security configuration. *)
Definition sess_router : Session state unit :=
  {| startNewSession := startNewSession sess;
     closeSession := closeSession sess;
     configLock := configLock sess;
     configClear := configClear sess;
     command := command sess;
     configSet := configSet sess;
     commitConf := commitConf sess;
     checkCompatibilitySecurity := fun _ => false;
     platformModel := fun _ => "mx240" |}.

(** The resource data of an ike policy with a mode the provider does not
    know. *)
Definition rd_ike_quick : ResourceData IkePolicy.schema :=
  {| fields := {| IkePolicy.s_name := "POL1"; IkePolicy.s_proposals := ["p1"];
                  IkePolicy.s_mode := "quick"; IkePolicy.s_pre_shared_key_text := "";
                  IkePolicy.s_pre_shared_key_hexa := "" |};
     Id := "POL1"; partial := false |}.

(** The resource data of an import: the identity and nothing else. *)
Definition rd_import_ipsec (id : string) : ResourceData IpsecPolicy.schema :=
  {| fields := {| IpsecPolicy.s_name := ""; IpsecPolicy.s_proposals := [];
                  IpsecPolicy.s_pfs_keys := "" |};
     Id := id; partial := false |}.

Definition rd_import_ospf (id : string) : ResourceData OspfArea.schema :=
  {| fields := {| OspfArea.s_area_id := ""; OspfArea.s_routing_instance := "";
                  OspfArea.s_version := ""; OspfArea.s_interface := [] |};
     Id := id; partial := false |}.

End TestDevice.

(** ** The properties of the protocol, for one lifecycle function *)

Section ProtocolProperties.
Context {D H T : Type} (K : Constants).

(** A create whose commit went through and whose check right after it found
    nothing returns the error of [message], and the identity of the resource
    is not set: there is no [SetId] call and [Id] is what it was. *)
Definition fails_when_not_verified
    (create : M D H T Diagnostics) (message : T -> string) : Prop :=
  forall (dv : D) (rd : ResourceData T),
    commit_ok_then_absent K (trace (snd (run create dv rd))) = true ->
    fst (run create dv rd) = diag_FromErr (errorString (message (fields rd)))
    /\ existsb is_SetId (trace (snd (run create dv rd))) = false
    /\ Id (d (snd (run create dv rd))) = Id rd.

(** A create whose first check found the object returns the error of
    [message] and hands no line to the session. *)
Definition fails_when_exists
    (create : M D H T Diagnostics) (message : T -> string) : Prop :=
  forall (dv : D) (rd : ResourceData T),
    first_check_exists K (trace (snd (run create dv rd))) = true ->
    fst (run create dv rd) = diag_FromErr (errorString (message (fields rd)))
    /\ existsb is_ConfigSet (trace (snd (run create dv rd))) = false.

(** A function that took the lock, returns an error and saw no commit go
    through ends by clearing the candidate configuration and closing the
    session; once a commit went through it never clears. *)
Definition rolls_back_until_commit (f : M D H T Diagnostics) : Prop :=
  forall (dv : D) (rd : ResourceData T),
    (fst (run f dv rd) <> [] ->
     existsb is_ConfigLock (trace (snd (run f dv rd))) = true ->
     existsb is_commit_ok (trace (snd (run f dv rd))) = false ->
     cleared_before_close (trace (snd (run f dv rd))) = true)
    /\ (existsb is_commit_ok (trace (snd (run f dv rd))) = true ->
        existsb is_ConfigClear (trace (snd (run f dv rd))) = false).

(** The claim as the spec has it: whenever a function that took the lock
    returns an error, it has cleared the candidate configuration. *)
Definition rolls_back_always (f : M D H T Diagnostics) : Prop :=
  forall (dv : D) (rd : ResourceData T),
    fst (run f dv rd) <> [] ->
    existsb is_ConfigLock (trace (snd (run f dv rd))) = true ->
    existsb is_ConfigClear (trace (snd (run f dv rd))) = true.

End ProtocolProperties.

(** ** What a run shows of its calls *)

(** The query for the set lines under a path, and the one for the lines
    without the path. *)
Definition show_set (path : string) : string :=
  "show configuration " ++ path ++ " | display set".

Definition show_set_relative (path : string) : string :=
  "show configuration " ++ path ++ " | display set relative".

(** The values of the lines of [items] that start, after the line start,
    with [keyword]: what follows the keyword, line by line. *)
Definition values_of (keyword : string) (items : list string) : list string :=
  map (fun item => strings.TrimPrefix (strings.TrimPrefix item setLineStart) keyword)
      (filter (fun item => strings.HasPrefix (strings.TrimPrefix item setLineStart) keyword)
              items).

(** A set line for something under [path]. *)
Definition is_under (path line : string) : bool :=
  strings.HasPrefix line (setLineStart ++ path ++ " ").

(** A byte other than [x]. *)
Definition not_byte (x c : ascii) : bool := negb (Ascii.eqb c x).

(** [l] is how [m] begins. *)
Definition prefix_of {A} (l m : list A) : Prop := exists rest, m = (l ++ rest)%list.

Section RunCalls.
Context {H : Type} (K : Constants).

Definition is_Command (e : event H) : bool :=
  match e with EvCommand _ _ _ => true | _ => false end.

Definition is_CommitConf (e : event H) : bool :=
  match e with EvCommitConf _ _ _ => true | _ => false end.

Definition is_ConfigSet_ok (e : event H) : bool :=
  match e with EvConfigSet _ _ None => true | _ => false end.

Definition is_Mutex (e : event H) : bool :=
  match e with EvMutexLock | EvMutexUnlock => true | _ => false end.

(** A call that takes the lock or touches the candidate or the committed
    configuration. *)
Definition is_change (e : event H) : bool :=
  is_ConfigLock e || is_ConfigSet e || is_ConfigClear e || is_CommitConf e.

(** The lines handed to the session, call by call. *)
Fixpoint configSets (tr : list (event H)) : list (list string) :=
  match tr with
  | [] => []
  | EvConfigSet configSet _ _ :: rest => configSet :: configSets rest
  | _ :: rest => configSets rest
  end.

(** The queries of the run, and the answers to them. *)
Fixpoint commands (tr : list (event H)) : list string :=
  match tr with
  | [] => []
  | EvCommand cmd _ _ :: rest => cmd :: commands rest
  | _ :: rest => commands rest
  end.

Fixpoint answers (tr : list (event H)) : list (string + error) :=
  match tr with
  | [] => []
  | EvCommand _ _ r :: rest => r :: answers rest
  | _ :: rest => answers rest
  end.

(** The identities the run gave the resource. *)
Fixpoint set_ids (tr : list (event H)) : list string :=
  match tr with
  | [] => []
  | EvSetId id :: rest => id :: set_ids rest
  | _ :: rest => set_ids rest
  end.

(** With the sessions of [stack] open before it, the last one opened first,
    every call of the run is made on the session that was opened last and is
    still open, the sessions are closed in the reverse order of their
    opening, none is left open, and the run ends with the close that leaves
    no session open: a session opened later in the run is opened while the
    first one is open, and closed before it. *)
Fixpoint session_discipline (stack : list H) (tr : list (event H)) : Prop :=
  match tr with
  | [] => stack = []
  | EvStartNewSession (inl jnprSess) :: rest => session_discipline (jnprSess :: stack) rest
  | EvStartNewSession (inr _) :: rest => session_discipline stack rest
  | EvCloseSession jnprSess :: rest =>
      hd_error stack = Some jnprSess
      /\ (tl stack = [] -> rest = [])
      /\ session_discipline (tl stack) rest
  | EvConfigLock jnprSess :: rest =>
      hd_error stack = Some jnprSess /\ session_discipline stack rest
  | EvConfigClear jnprSess :: rest =>
      hd_error stack = Some jnprSess /\ session_discipline stack rest
  | EvCommand _ jnprSess _ :: rest =>
      hd_error stack = Some jnprSess /\ session_discipline stack rest
  | EvConfigSet _ jnprSess _ :: rest =>
      hd_error stack = Some jnprSess /\ session_discipline stack rest
  | EvCommitConf _ jnprSess _ :: rest =>
      hd_error stack = Some jnprSess /\ session_discipline stack rest
  | EvMutexLock :: rest => session_discipline stack rest
  | EvMutexUnlock :: rest => session_discipline stack rest
  | EvSetId _ :: rest => session_discipline stack rest
  end.

(** The mutex is locked only when it is free and unlocked only when it is
    held, a session is started and a query is made only while it is held, a
    session is closed only once it is free again, and it is free in the
    end. *)
Fixpoint mutex_discipline (held : bool) (tr : list (event H)) : bool :=
  match tr with
  | [] => negb held
  | EvMutexLock :: rest => negb held && mutex_discipline true rest
  | EvMutexUnlock :: rest => held && mutex_discipline false rest
  | EvStartNewSession _ :: rest => held && mutex_discipline held rest
  | EvCommand _ _ _ :: rest => held && mutex_discipline held rest
  | EvCloseSession _ :: rest => negb held && mutex_discipline held rest
  | _ :: rest => mutex_discipline held rest
  end.

(** A call that staged lines and was refused. *)
Definition is_ConfigSet_refused (e : event H) : bool :=
  match e with EvConfigSet _ _ (Some _) => true | _ => false end.

(** The calls before the first commit call of a run, and those after it. *)
Fixpoint before_commit (tr : list (event H)) : list (event H) :=
  match tr with
  | [] => []
  | EvCommitConf _ _ _ :: _ => []
  | e :: rest => e :: before_commit rest
  end.

Fixpoint after_commit (tr : list (event H)) : list (event H) :=
  match tr with
  | [] => []
  | EvCommitConf _ _ _ :: rest => rest
  | _ :: rest => after_commit rest
  end.

(** The run of a create that got as far as setting the identity: session,
    lock, the query [query] answered with the empty word, the lines [lines]
    staged in one call that is taken, a commit that goes through, the same
    query answered with a text, and the identity [identity]; what follows
    changes nothing on the device. *)
Definition verified_run (query : string) (lines : list string + error)
    (identity : string) (tr : list (event H)) : Prop :=
  exists jnprSess configSet logMessage absent found rest,
    tr = EvStartNewSession (inl jnprSess)
         :: EvConfigLock jnprSess
         :: EvCommand query jnprSess (inl absent)
         :: EvConfigSet configSet jnprSess None
         :: EvCommitConf logMessage jnprSess None
         :: EvCommand query jnprSess (inl found)
         :: EvSetId identity
         :: rest
    /\ lines = inl configSet
    /\ String.eqb absent (emptyWord K) = true
    /\ String.eqb found (emptyWord K) = false
    /\ existsb is_change rest = false.

(** The run of a delete: the start of the session fails, or the session is
    locked and handed the lines [lines] in one call; when the call is taken
    the commit follows, and nothing else; a call or a commit that is refused
    is followed by the clearing of the candidate configuration; the session
    is closed at the end. *)
Definition delete_run (lines : list string) (tr : list (event H)) : Prop :=
  (exists err, tr = [EvStartNewSession (inr err)])
  \/ exists jnprSess staged rest,
       tr = EvStartNewSession (inl jnprSess) :: EvConfigLock jnprSess
            :: EvConfigSet lines jnprSess staged :: rest
       /\ match staged with
          | Some _ => rest = [EvConfigClear jnprSess; EvCloseSession jnprSess]
          | None =>
              exists logMessage committed rest',
                rest = EvCommitConf logMessage jnprSess committed :: rest'
                /\ rest' = match committed with
                           | Some _ => [EvConfigClear jnprSess; EvCloseSession jnprSess]
                           | None => [EvCloseSession jnprSess]
                           end
          end.

(** The run of an update: the start of the session fails, or the session is
    locked and handed the lines [del] and then, when they are taken and the
    set function has lines, the lines of [encode] in a second call; when
    that call is taken the commit follows; a call or a commit that is
    refused, and a set function that returns an error, are followed by the
    clearing of the candidate configuration and the close; after a commit
    that went through come only calls that change nothing, among them the
    only query of the run. *)
Definition update_run (del : list string) (encode : list string + error)
    (tr : list (event H)) : Prop :=
  (exists err, tr = [EvStartNewSession (inr err)])
  \/ exists jnprSess deleted rest,
       tr = EvStartNewSession (inl jnprSess) :: EvConfigLock jnprSess
            :: EvConfigSet del jnprSess deleted :: rest
       /\ match deleted, encode with
          | Some _, _ => rest = [EvConfigClear jnprSess; EvCloseSession jnprSess]
          | None, inr _ => rest = [EvConfigClear jnprSess; EvCloseSession jnprSess]
          | None, inl configSet =>
              exists staged rest',
                rest = EvConfigSet configSet jnprSess staged :: rest'
                /\ match staged with
                   | Some _ => rest' = [EvConfigClear jnprSess; EvCloseSession jnprSess]
                   | None =>
                       exists logMessage committed rest'',
                         rest' = EvCommitConf logMessage jnprSess committed :: rest''
                         /\ match committed with
                            | Some _ =>
                                rest'' = [EvConfigClear jnprSess; EvCloseSession jnprSess]
                            | None =>
                                existsb is_change rest'' = false
                                /\ commands rest'' = commands tr
                            end
                   end
          end.

End RunCalls.

(** ** The properties of a run, for one lifecycle function *)

Section RunProperties.
Context {D H T : Type} (K : Constants).

(** All or nothing.  The function asks for a commit only once the session
    has taken, call by call, exactly the lines of [staged], and stages and
    commits nothing after that: a commit that goes through commits the full
    set of the lines the function stages.  When no commit goes through the
    function returns an error and, if it took the lock, ends by clearing the
    candidate configuration and closing the session: nothing of what it
    staged is left.  It returns no error only after a commit that went
    through. *)
Definition all_or_nothing (f : M D H T Diagnostics)
    (staged : T -> list (list string)) : Prop :=
  forall (dv : D) (rd : ResourceData T),
    let tr := trace (snd (run f dv rd)) in
    (existsb is_CommitConf tr = true ->
     configSets (before_commit tr) = staged (fields rd)
     /\ existsb is_ConfigSet_refused (before_commit tr) = false
     /\ existsb (fun e => is_ConfigSet e || is_CommitConf e) (after_commit tr) = false)
    /\ (existsb is_commit_ok tr = false ->
        fst (run f dv rd) <> []
        /\ (existsb is_ConfigLock tr = true -> cleared_before_close tr = true))
    /\ (fst (run f dv rd) = [] -> existsb is_commit_ok tr = true).

(** The transaction of a create, an update or a delete that stages the
    calls of [staged]: it rolls back until its commit went through, and
    commits all it stages or nothing. *)
Definition transaction (f : M D H T Diagnostics)
    (staged : T -> list (list string)) : Prop :=
  rolls_back_until_commit f /\ all_or_nothing f staged.

(** A function that only reads: it takes no lock, hands no line to the
    session, clears and commits nothing, and makes one query at most. *)
Definition reads_only {A} (f : M D H T A) : Prop :=
  forall (dv : D) (rd : ResourceData T),
    existsb is_change (trace (snd (run f dv rd))) = false
    /\ List.length (commands (trace (snd (run f dv rd)))) <= 1.

(** A read starts by locking the mutex, keeps to [mutex_discipline], and
    locks and unlocks once. *)
Definition holds_mutex (f : M D H T Diagnostics) : Prop :=
  forall (dv : D) (rd : ResourceData T),
    hd_error (trace (snd (run f dv rd))) = Some EvMutexLock
    /\ mutex_discipline false (trace (snd (run f dv rd))) = true
    /\ List.length (filter is_Mutex (trace (snd (run f dv rd)))) = 2.

(** Every session the function opens is closed when it returns, the one
    opened last first; every call is made on the session that was opened
    last and is not closed yet; and nothing follows the close of the session
    the function opened first, so that every other session of the run is
    opened and closed while that one is open. *)
Definition closes_sessions {A} (f : M D H T A) : Prop :=
  forall (dv : D) (rd : ResourceData T),
    session_discipline [] (trace (snd (run f dv rd))).

(** When the session cannot be started the function returns the error of
    the start, calls the session no further and leaves the schema fields and
    the identity of the resource as they were. *)
Definition fails_at_start (sess : Session D H) (f : M D H T Diagnostics) : Prop :=
  forall (dv dv' : D) (rd : ResourceData T) (err : error),
    startNewSession sess dv = (inr err, dv') ->
    fst (run f dv rd) = diag_FromErr err
    /\ filter (fun e => negb (is_Mutex e)) (trace (snd (run f dv rd)))
       = [EvStartNewSession (inr err)]
    /\ device (snd (run f dv rd)) = dv'
    /\ fields (d (snd (run f dv rd))) = fields rd
    /\ Id (d (snd (run f dv rd))) = Id rd.

(** On a device that [checkCompatibilitySecurity] refuses, the create returns
    the error of [message] for the model of the platform, and all it does
    with the session is to close it: no lock, no query, no line. *)
Definition refuses_platform (sess : Session D H) (create : M D H T Diagnostics)
    (message : string) : Prop :=
  forall (dv dv' : D) (rd : ResourceData T) (jnprSess : H),
    startNewSession sess dv = (inl jnprSess, dv') ->
    checkCompatibilitySecurity sess jnprSess = false ->
    run create dv rd
    = (diag_FromErr (errorString (message ++ platformModel sess jnprSess)),
       {| device := closeSession sess jnprSess dv'; d := rd;
          log := [EvCloseSession jnprSess; EvStartNewSession (inl jnprSess)] |}).

(** A create that returns no diagnostics has asked the same question before
    and after the commit, was told the object was not there and then that it
    was, handed the session the lines of [encode] in one call, saw its commit
    go through, and gave the resource the identity [identity] right after the
    second answer; the read that follows leaves that identity or takes it
    away.  The calls came in this order: the run is a [verified_run]. *)
Definition create_verified (create : M D H T Diagnostics)
    (identity query : T -> string) (encode : T -> list string + error) : Prop :=
  forall (dv : D) (rd : ResourceData T),
    fst (run create dv rd) = [] ->
    let tr := trace (snd (run create dv rd)) in
    firstn 2 (commands tr) = [query (fields rd); query (fields rd)]
    /\ map (answers_exists K) (firstn 2 (answers tr)) = [false; true]
    /\ map inl (configSets tr) = [encode (fields rd)]
    /\ existsb is_commit_ok tr = true
    /\ hd_error (set_ids tr) = Some (identity (fields rd))
    /\ (Id (d (snd (run create dv rd))) = identity (fields rd)
        \/ Id (d (snd (run create dv rd))) = "")
    /\ verified_run K (query (fields rd)) (encode (fields rd)) (identity (fields rd)) tr.

(** A create sets an identity only once its commit went through and the
    check after it, the second of the run, found the object; nothing is
    cleared in such a run.  The identity is [identity], and it is set right
    after the answer to the check that follows the commit: the run is a
    [verified_run]. *)
Definition identity_when_verified (create : M D H T Diagnostics)
    (identity query : T -> string) (encode : T -> list string + error) : Prop :=
  forall (dv : D) (rd : ResourceData T),
    let tr := trace (snd (run create dv rd)) in
    set_ids tr <> [] ->
    existsb is_commit_ok tr = true
    /\ map (answers_exists K) (firstn 2 (answers tr)) = [false; true]
    /\ existsb is_ConfigClear tr = false
    /\ verified_run K (query (fields rd)) (encode (fields rd)) (identity (fields rd)) tr.

(** A delete asks the device nothing and leaves the resource data alone; it
    hands the session the lines of [staged] and nothing else, and returns no
    diagnostics exactly when its commit went through.  Once its session is
    started it does hand the lines over, right after the lock, and it asks
    for the commit only when they were taken: the run is a [delete_run]. *)
Definition deletes_blindly (delete : M D H T Diagnostics)
    (staged : T -> list string) : Prop :=
  forall (dv : D) (rd : ResourceData T),
    let tr := trace (snd (run delete dv rd)) in
    commands tr = []
    /\ d (snd (run delete dv rd)) = rd
    /\ prefix_of (configSets tr) [staged (fields rd)]
    /\ (fst (run delete dv rd) = [] <-> existsb is_commit_ok tr = true)
    /\ delete_run (staged (fields rd)) tr.

(** An update hands the session the lines of [del] and then, in a second
    call, the lines of [encode], as far as it gets; it asks the device
    nothing before its commit went through and once at most after; the
    partial mode it switched on is switched off exactly when the commit went
    through; and the only identity it may set is the empty one.  The calls
    come in the order of an [update_run]: both calls are made, and taken,
    before the commit is asked for. *)
Definition updates_in_order (update : M D H T Diagnostics)
    (del : T -> list string) (encode : T -> list string + error) : Prop :=
  forall (dv : D) (rd : ResourceData T),
    let tr := trace (snd (run update dv rd)) in
    prefix_of (configSets tr)
      (del (fields rd) :: match encode (fields rd) with
                          | inl configSet => [configSet]
                          | inr _ => []
                          end)
    /\ List.length (commands tr) <= (if existsb is_commit_ok tr then 1 else 0)
    /\ partial (d (snd (run update dv rd))) = negb (existsb is_commit_ok tr)
    /\ prefix_of (set_ids tr) [""]
    /\ update_run (del (fields rd)) (encode (fields rd)) tr.

(** A read whose query was answered with [text]: with a decoding error it
    returns the error and leaves the resource data alone; with a record
    without name it takes the identity away and leaves the schema fields;
    otherwise it writes the schema fields of the record and leaves the
    identity. *)
Definition read_outcome {O} (read : M D H T Diagnostics)
    (query : T -> string) (decode : T -> string -> O * option error)
    (absent : O -> bool) (schema_of : O -> T) : Prop :=
  forall (dv : D) (rd : ResourceData T) (text : string),
    answers (trace (snd (run read dv rd))) = [inl text] ->
    commands (trace (snd (run read dv rd))) = [query (fields rd)]
    /\ match decode (fields rd) text with
       | (_, Some err) =>
           fst (run read dv rd) = diag_FromErr err /\ d (snd (run read dv rd)) = rd
       | (o, None) =>
           fst (run read dv rd) = []
           /\ d (snd (run read dv rd))
              = if absent o
                then {| fields := fields rd; Id := ""; partial := partial rd |}
                else {| fields := schema_of o; Id := Id rd; partial := partial rd |}
       end.

(** An import only reads, without the mutex, and sets no identity; its slice
    holds the resource data as the function leaves it when there is no error,
    and is empty when there is one, in which case the resource data is as it
    was. *)
Definition import_result (import : M D H T (list (ResourceData T) * option error)) : Prop :=
  forall (dv : D) (rd : ResourceData T),
    let r := run import dv rd in
    existsb (fun e => is_change e || is_Mutex e || is_SetId e) (trace (snd r)) = false
    /\ Id (d (snd r)) = Id rd
    /\ match snd (fst r) with
       | None => fst (fst r) = [d (snd r)]
       | Some _ => fst (fst r) = [] /\ d (snd r) = rd
       end.

(** An import whose existence check is answered as by an object that is not
    there returns the error of [message] after that one query. *)
Definition import_not_found (import : M D H T (list (ResourceData T) * option error))
    (message : string -> string) : Prop :=
  forall (dv : D) (rd : ResourceData T),
    option_map (answers_absent K) (hd_error (answers (trace (snd (run import dv rd)))))
      = Some true ->
    fst (run import dv rd) = ([], Some (errorString (message (Id rd))))
    /\ List.length (commands (trace (snd (run import dv rd)))) = 1.

(** An import that returns no error asked whether the object of [key] is
    there, read it, and wrote the schema fields of what the read decoded from
    its answer. *)
Definition import_fills {O} (import : M D H T (list (ResourceData T) * option error))
    (key : string -> string) (decode : string -> string -> O * option error)
    (schema_of : O -> T) : Prop :=
  forall (dv : D) (rd : ResourceData T),
    snd (fst (run import dv rd)) = None ->
    exists found text,
      answers (trace (snd (run import dv rd))) = [inl found; inl text]
      /\ commands (trace (snd (run import dv rd)))
         = [show_set (key (Id rd)); show_set_relative (key (Id rd))]
      /\ snd (decode (Id rd) text) = None
      /\ fields (d (snd (run import dv rd))) = schema_of (fst (decode (Id rd) text)).

End RunProperties.

(** * Properties *)

(** ** The Go library functions on examples *)

Example Split_lines :
  strings.Split ("a" ++ String "010" "b c" ++ String "010" "") (String "010" "")
  = ["a"; "b c"; ""].
Proof. reflexivity. Qed.

Example Split_words : strings.Split "ge-0/0/0 metric 100" " " = ["ge-0/0/0"; "metric"; "100"].
Proof. reflexivity. Qed.

Example Split_empty : strings.Split "" " " = [""].
Proof. reflexivity. Qed.

Example Trim_quotes :
  strings.Trim (String "034" "$9$abc" ++ String "034" EmptyString) (String "034" EmptyString)
  = "$9$abc".
Proof. reflexivity. Qed.

Example Atoi_examples :
  strconv.Atoi "100" = (100%Z, None) /\ strconv.Atoi "-7" = ((-7)%Z, None) /\
  strconv.Atoi "+7" = (7%Z, None) /\ snd (strconv.Atoi "") <> None /\
  snd (strconv.Atoi "12a") <> None /\ snd (strconv.Atoi "-") <> None /\
  strconv.Atoi "9223372036854775808" = (strconv.maxInt, Some (NumError "Atoi" "9223372036854775808" strconv.ErrRange)) /\
  strconv.Itoa 0 = "0" /\ strconv.Itoa (-42) = "-42" /\ strconv.Itoa 65535 = "65535".
Proof. repeat split; try reflexivity; discriminate. Qed.

(** ** Running a lifecycle function step by step *)

Ltac norm :=
  cbv beta iota zeta delta
    [bind ret run defer_closeSession sess_startNewSession sess_closeSession
     sess_configLock sess_configClear sess_command sess_configSet sess_commitConf
     record_call mutex_Lock mutex_Unlock d_Get d_Id d_SetId d_Partial d_Set
     device d log fields Id partial trace rev app negb diag_FromErr fst snd
     commit_ok_then_absent first_check_exists answers_exists answers_absent
     cleared_before_close is_SetId is_ConfigSet is_ConfigClear is_ConfigLock
     is_commit_ok forallb existsb andb orb
     fails_when_not_verified fails_when_exists rolls_back_until_commit
     IpsecPolicy.resourceIpsecPolicyCreate IpsecPolicy.resourceIpsecPolicyRead
     IpsecPolicy.resourceIpsecPolicyUpdate IpsecPolicy.resourceIpsecPolicyDelete
     IpsecPolicy.checkIpsecPolicyExists IpsecPolicy.setIpsecPolicy
     IpsecPolicy.readIpsecPolicy IpsecPolicy.delIpsecPolicy
     IpsecPolicy.fillIpsecPolicyData
     IkeProposal.resourceIkeProposalCreate IkeProposal.resourceIkeProposalRead
     IkeProposal.resourceIkeProposalUpdate IkeProposal.resourceIkeProposalDelete
     IkeProposal.checkIkeProposalExists IkeProposal.setIkeProposal
     IkeProposal.readIkeProposal IkeProposal.delIkeProposal
     IkeProposal.fillIkeProposalData
     IkePolicy.resourceIkePolicyCreate IkePolicy.resourceIkePolicyRead
     IkePolicy.resourceIkePolicyUpdate IkePolicy.resourceIkePolicyDelete
     IkePolicy.checkIkePolicyExists IkePolicy.setIkePolicy
     IkePolicy.readIkePolicy IkePolicy.delIkePolicy
     IkePolicy.fillIkePolicyData
     OspfArea.resourceOspfAreaCreate OspfArea.resourceOspfAreaRead
     OspfArea.resourceOspfAreaUpdate OspfArea.resourceOspfAreaDelete
     OspfArea.checkOspfAreaExists OspfArea.setOspfArea
     OspfArea.readOspfArea OspfArea.delOspfArea
     OspfArea.fillOspfAreaData].

(** One call of the run is answered: every answer the collaborator can give
    is followed. *)
Ltac call :=
  match goal with
  | |- context [startNewSession ?s ?x] => destruct (startNewSession s x) as [[?|?] ?]
  | |- context [command ?s ?c ?h ?x] => destruct (command s c h x) as [[?|?] ?]
  | |- context [configSet ?s ?c ?h ?x] => destruct (configSet s c h x) as [[?|] ?]
  | |- context [commitConf ?s ?c ?h ?x] => destruct (commitConf s c h x) as [[?|] ?]
  | |- context [checkCompatibilitySecurity ?s ?h] =>
      destruct (checkCompatibilitySecurity s h)
  | |- context [IpsecPolicy.readIpsecPolicy_decode ?k ?a ?b] =>
      destruct (IpsecPolicy.readIpsecPolicy_decode k a b) as [? [?|]]
  | |- context [IkeProposal.readIkeProposal_decode ?k ?a ?b] =>
      destruct (IkeProposal.readIkeProposal_decode k a b) as [? [?|]]
  | |- context [IkePolicy.readIkePolicy_decode ?k ?f ?a ?b] =>
      destruct (IkePolicy.readIkePolicy_decode k f a b) as [? [?|]]
  | |- context [OspfArea.readOspfArea_decode ?k ?a ?b ?c ?e] =>
      destruct (OspfArea.readOspfArea_decode k a b c e) as [? [?|]]
  | |- context [IkePolicy.setIkePolicy_configSet ?s] =>
      destruct (IkePolicy.setIkePolicy_configSet s) as [?|?]
  | |- context [if String.eqb ?a ?b then _ else _] => destruct (String.eqb a b) eqn:?
  end.

Ltac exec := norm; repeat (call; norm).

Section Transactions.
Context {D H : Type} (sess : Session D H) (K : Constants)
        (jdecode_Decode : string -> string * option error).

(** C1: in every resource, a create whose commit went through and whose
    existence check right after it found nothing fails with the error that
    the object does not exist after the commit, and does not set the
    identity of the resource (no [SetId] call, [Id] unchanged). *)
Theorem create_commit_not_verified :
  fails_when_not_verified K (IpsecPolicy.resourceIpsecPolicyCreate sess K)
    (fun s => "security ipsec policy " ++ IpsecPolicy.s_name s
              ++ " not exists after commit " ++ "=> check your config")
  /\ fails_when_not_verified K (IkeProposal.resourceIkeProposalCreate sess K)
    (fun s => "security ike proposal " ++ IkeProposal.s_name s
              ++ " not exists after commit " ++ "=> check your config")
  /\ fails_when_not_verified K (IkePolicy.resourceIkePolicyCreate sess K jdecode_Decode)
    (fun s => "security ike policy " ++ IkePolicy.s_name s
              ++ " not exists after commit " ++ "=> check your config")
  /\ fails_when_not_verified K (OspfArea.resourceOspfAreaCreate sess K)
    (fun s => "ospf " ++ OspfArea.s_version s ++ " area " ++ OspfArea.s_area_id s
              ++ " in routing instance " ++ OspfArea.s_routing_instance s
              ++ " not exists after commit => check your config").
Proof.
  split; [|split; [|split]]; intros dv rd; exec;
    try discriminate; intros _; repeat split; reflexivity.
Qed.

(** C2: in every resource, a create whose existence check before any change
    found the object fails with the error that the object already exists,
    and hands no line to the session (no [configSet] call). *)
Theorem create_already_exists :
  fails_when_exists K (IpsecPolicy.resourceIpsecPolicyCreate sess K)
    (fun s => "security ipsec policy " ++ IpsecPolicy.s_name s ++ " already exists")
  /\ fails_when_exists K (IkeProposal.resourceIkeProposalCreate sess K)
    (fun s => "security ike proposal " ++ IkeProposal.s_name s ++ " already exists")
  /\ fails_when_exists K (IkePolicy.resourceIkePolicyCreate sess K jdecode_Decode)
    (fun s => "security ike policy " ++ IkePolicy.s_name s ++ " already exists")
  /\ fails_when_exists K (OspfArea.resourceOspfAreaCreate sess K)
    (fun s => "ospf " ++ OspfArea.s_version s ++ " area " ++ OspfArea.s_area_id s
              ++ " already exists in routing instance " ++ OspfArea.s_routing_instance s).
Proof.
  split; [|split; [|split]]; intros dv rd; exec;
    try discriminate; intros _; repeat split; reflexivity.
Qed.

End Transactions.

Lemma create_commit_not_verified_witness :
  fst (run (IpsecPolicy.resourceIpsecPolicyCreate TestDevice.sess TestDevice.K)
           (TestDevice.device0 [inl "empty"; inl "empty"]) TestDevice.rd_ipsec)
  = [errorString "security ipsec policy POL1 not exists after commit => check your config"]
  /\ existsb is_SetId
       (trace (snd (run (IpsecPolicy.resourceIpsecPolicyCreate TestDevice.sess TestDevice.K)
                        (TestDevice.device0 [inl "empty"; inl "empty"]) TestDevice.rd_ipsec))) = false
  /\ Id (d (snd (run (IpsecPolicy.resourceIpsecPolicyCreate TestDevice.sess TestDevice.K)
                     (TestDevice.device0 [inl "empty"; inl "empty"]) TestDevice.rd_ipsec))) = "".
Proof.
  apply (proj1 (create_commit_not_verified TestDevice.sess TestDevice.K (fun s => (s, None)))).
  vm_compute. reflexivity.
Defined.

Lemma create_already_exists_witness :
  fst (run (IpsecPolicy.resourceIpsecPolicyCreate TestDevice.sess TestDevice.K)
           (TestDevice.device0 [inl "set security ipsec policy POL1 proposals p1"])
           TestDevice.rd_ipsec)
  = [errorString "security ipsec policy POL1 already exists"]
  /\ existsb is_ConfigSet
       (trace (snd (run (IpsecPolicy.resourceIpsecPolicyCreate TestDevice.sess TestDevice.K)
                        (TestDevice.device0 [inl "set security ipsec policy POL1 proposals p1"])
                        TestDevice.rd_ipsec))) = false.
Proof.
  apply (proj1 (create_already_exists TestDevice.sess TestDevice.K (fun s => (s, None)))).
  vm_compute. reflexivity.
Defined.

(** A create on the device without configuration: the lines are staged and
    committed, the object is found, its identity is set, and the read fills
    the resource data with what the device shows. *)
Example create_run :
  run (IpsecPolicy.resourceIpsecPolicyCreate TestDevice.sess TestDevice.K)
      (TestDevice.device0 []) TestDevice.rd_ipsec
  = ([],
     {| device :=
          {| TestDevice.committed :=
               ["set security ipsec policy POL1 perfect-forward-secrecy keys group14";
                "set security ipsec policy POL1 proposals p1";
                "set security ipsec policy POL1 proposals p2"];
             TestDevice.candidate := []; TestDevice.locked := false;
             TestDevice.answers := [] |};
        d := {| fields := fields TestDevice.rd_ipsec; Id := "POL1"; partial := false |};
        log :=
          rev [EvStartNewSession (inl tt);
               EvConfigLock tt;
               EvCommand "show configuration security ipsec policy POL1 | display set" tt
                 (inl "empty");
               EvConfigSet
                 ["set security ipsec policy POL1 perfect-forward-secrecy keys group14";
                  "set security ipsec policy POL1 proposals p1";
                  "set security ipsec policy POL1 proposals p2"] tt None;
               EvCommitConf "create resource junos_security_ipsec_policy" tt None;
               EvCommand "show configuration security ipsec policy POL1 | display set" tt
                 (inl (strings.Join
                         ["set security ipsec policy POL1 perfect-forward-secrecy keys group14";
                          "set security ipsec policy POL1 proposals p1";
                          "set security ipsec policy POL1 proposals p2"] LF));
               EvSetId "POL1";
               EvMutexLock;
               EvStartNewSession (inl tt);
               EvCommand
                 "show configuration security ipsec policy POL1 | display set relative" tt
                 (inl (strings.Join
                         ["set perfect-forward-secrecy keys group14";
                          "set proposals p1"; "set proposals p2"] LF));
               EvMutexUnlock;
               EvCloseSession tt;
               EvCloseSession tt] |}).
Proof. vm_compute. reflexivity. Qed.

(** An update replaces the lines of the object, a delete takes them away. *)
Example update_then_delete_run :
  TestDevice.committed
    (device (snd (run (IpsecPolicy.resourceIpsecPolicyUpdate TestDevice.sess TestDevice.K)
                      (TestDevice.device_with
                         ["set security ipsec policy POL1 proposals old";
                          "set security ipsec policy POL2 proposals p1"])
                      TestDevice.rd_ipsec)))
  = ["set security ipsec policy POL2 proposals p1";
     "set security ipsec policy POL1 perfect-forward-secrecy keys group14";
     "set security ipsec policy POL1 proposals p1";
     "set security ipsec policy POL1 proposals p2"]
  /\ TestDevice.committed
       (device (snd (run (IpsecPolicy.resourceIpsecPolicyDelete TestDevice.sess)
                         (TestDevice.device_with
                            ["set security ipsec policy POL1 proposals old";
                             "set security ipsec policy POL2 proposals p1"])
                         TestDevice.rd_ipsec)))
     = ["set security ipsec policy POL2 proposals p1"].
Proof. split; vm_compute; reflexivity. Qed.

(** The run behind the counterexample of C3: the device takes the lines and
    the commit, and both existence checks are answered with the empty
    word. *)
Example create_not_verified_run :
  trace (snd (run (IpsecPolicy.resourceIpsecPolicyCreate TestDevice.sess TestDevice.K)
                  (TestDevice.device0 [inl "empty"; inl "empty"]) TestDevice.rd_ipsec))
  = [EvStartNewSession (inl tt);
     EvConfigLock tt;
     EvCommand "show configuration security ipsec policy POL1 | display set" tt (inl "empty");
     EvConfigSet ["set security ipsec policy POL1 perfect-forward-secrecy keys group14";
                  "set security ipsec policy POL1 proposals p1";
                  "set security ipsec policy POL1 proposals p2"] tt None;
     EvCommitConf "create resource junos_security_ipsec_policy" tt None;
     EvCommand "show configuration security ipsec policy POL1 | display set" tt (inl "empty");
     EvCloseSession tt].
Proof. vm_compute. reflexivity. Qed.

(** C3 as the spec has it fails: a create whose commit went through and
    whose check after it found nothing returns an error with the lock taken,
    makes no [configClear] call at all, and leaves the lines it staged
    committed on the device. *)
Lemma rollback_always_counterexample :
  ~ rolls_back_always (IpsecPolicy.resourceIpsecPolicyCreate TestDevice.sess TestDevice.K)
  /\ fst (run (IpsecPolicy.resourceIpsecPolicyCreate TestDevice.sess TestDevice.K)
              (TestDevice.device0 [inl "empty"; inl "empty"]) TestDevice.rd_ipsec)
     = [errorString "security ipsec policy POL1 not exists after commit => check your config"]
  /\ existsb is_ConfigClear
       (trace (snd (run (IpsecPolicy.resourceIpsecPolicyCreate TestDevice.sess TestDevice.K)
                        (TestDevice.device0 [inl "empty"; inl "empty"]) TestDevice.rd_ipsec))) = false
  /\ TestDevice.committed
       (device (snd (run (IpsecPolicy.resourceIpsecPolicyCreate TestDevice.sess TestDevice.K)
                         (TestDevice.device0 [inl "empty"; inl "empty"]) TestDevice.rd_ipsec)))
     = ["set security ipsec policy POL1 perfect-forward-secrecy keys group14";
        "set security ipsec policy POL1 proposals p1";
        "set security ipsec policy POL1 proposals p2"].
Proof.
  split; [| repeat split; vm_compute; reflexivity].
  intros Hall.
  specialize (Hall (TestDevice.device0 [inl "empty"; inl "empty"]) TestDevice.rd_ipsec).
  assert (Hclear : false = true);
    [apply Hall; vm_compute; [discriminate | reflexivity] | discriminate Hclear].
Qed.

(** ** Facts on the Go library functions *)

Module StringFacts.
Import strings.

Lemma append_assoc (a b c : string) : (a ++ b) ++ c = a ++ (b ++ c).
Proof. induction a as [|x a IH]; simpl; [reflexivity | now rewrite IH]. Qed.

Lemma append_nil_r (a : string) : a ++ "" = a.
Proof. induction a as [|x a IH]; simpl; [reflexivity | now rewrite IH]. Qed.

Lemma HasPrefix_app (p s : string) : HasPrefix (p ++ s) p = true.
Proof.
  induction p as [|x p IH]; simpl; [reflexivity|].
  now rewrite Ascii.eqb_refl, IH.
Qed.

Lemma drop_app (p s : string) : drop (String.length p) (p ++ s) = s.
Proof. induction p as [|x p IH]; simpl; [now destruct s | exact IH]. Qed.

Lemma TrimPrefix_app (p s : string) : TrimPrefix (p ++ s) p = s.
Proof. unfold TrimPrefix. now rewrite HasPrefix_app, drop_app. Qed.

Lemma HasPrefix_nil (s : string) : HasPrefix s "" = true.
Proof. now destruct s. Qed.

(** Two prefixes of one string: one of them is a prefix of the other. *)
Lemma HasPrefix_comparable (s p q : string) :
  HasPrefix s p = true -> HasPrefix s q = true ->
  HasPrefix p q = true \/ HasPrefix q p = true.
Proof.
  revert p q; induction s as [|c s IH]; intros [|x p] [|y q]; simpl; auto;
    try discriminate.
  intros Hp Hq.
  apply andb_true_iff in Hp as [Hx Hp]; apply andb_true_iff in Hq as [Hy Hq].
  apply Ascii.eqb_eq in Hx, Hy; subst x y.
  rewrite Ascii.eqb_refl; simpl. now apply IH.
Qed.

(** No prefix of [s] when neither is a prefix of the other and another one
    is a prefix of [s]. *)
Lemma HasPrefix_other (s p q : string) :
  HasPrefix s p = true -> HasPrefix p q = false -> HasPrefix q p = false ->
  HasPrefix s q = false.
Proof.
  intros Hp Hpq Hqp. destruct (HasPrefix s q) eqn:Hq; [|reflexivity].
  destruct (HasPrefix_comparable s p q Hp Hq); congruence.
Qed.

Lemma all_bytes_app ok (a b : string) :
  all_bytes ok (a ++ b) = all_bytes ok a && all_bytes ok b.
Proof.
  induction a as [|x a IH]; simpl; [reflexivity|].
  now rewrite IH, andb_assoc.
Qed.

Lemma all_bytes_weaken (ok ok' : ascii -> bool) (s : string) :
  (forall c, ok c = true -> ok' c = true) ->
  all_bytes ok s = true -> all_bytes ok' s = true.
Proof.
  intros Hw; induction s as [|c s IH]; simpl; [reflexivity|].
  intros H; apply andb_true_iff in H as [Hc Hs].
  now rewrite (Hw _ Hc), IH.
Qed.

(** A string without the first byte of [m] does not contain [m]. *)
Lemma Contains_first_byte (s : string) (x : ascii) (m : string) :
  all_bytes (fun c => negb (Ascii.eqb c x)) s = true ->
  Contains s (String x m) = false.
Proof.
  induction s as [|c s IH]; simpl; [reflexivity|].
  intros H; apply andb_true_iff in H as [Hc Hs].
  apply negb_true_iff in Hc. rewrite Hc; simpl. now apply IH.
Qed.

Lemma Contains_byte (s : string) (x : ascii) :
  Contains s (String x "") = negb (all_bytes (fun c => negb (Ascii.eqb c x)) s).
Proof.
  induction s as [|c s IH]; simpl; [reflexivity|].
  rewrite IH. destruct (Ascii.eqb c x); simpl; [now destruct s | reflexivity].
Qed.

(** Splitting on one byte. *)
Lemma genSplit_byte_cons (x c : ascii) (s : string) :
  genSplit (String x "") 0 (String c s)
  = if Ascii.eqb c x then "" :: genSplit (String x "") 0 s
    else match genSplit (String x "") 0 s with
         | piece :: rest => String c piece :: rest
         | [] => [String c ""]
         end.
Proof. simpl. destruct (Ascii.eqb c x); simpl; reflexivity. Qed.

Lemma Split_no_sep (x : ascii) (s : string) :
  Contains s (String x "") = false -> Split s (String x "") = [s].
Proof.
  unfold Split. induction s as [|c s IH]; [reflexivity|].
  intros H. rewrite genSplit_byte_cons.
  simpl in H. destruct (Ascii.eqb c x); simpl in H; [now destruct s|].
  now rewrite (IH H).
Qed.

Lemma Split_app_sep (x : ascii) (s rest : string) :
  Contains s (String x "") = false ->
  Split (s ++ String x rest) (String x "") = s :: Split rest (String x "").
Proof.
  unfold Split. induction s as [|c s IH]; intros H.
  - change ("" ++ String x rest) with (String x rest).
    rewrite genSplit_byte_cons, Ascii.eqb_refl. reflexivity.
  - change (String c s ++ String x rest) with (String c (s ++ String x rest)).
    rewrite genSplit_byte_cons.
    simpl in H. destruct (Ascii.eqb c x); simpl in H; [now destruct s|].
    now rewrite (IH H).
Qed.

(** The lines of a text that was joined from lines. *)
Lemma Split_Join (x : ascii) (lines : list string) :
  lines <> [] ->
  Forall (fun l => Contains l (String x "") = false) lines ->
  Split (Join lines (String x "")) (String x "") = lines.
Proof.
  induction lines as [|l lines IH]; [congruence|].
  intros _ Hall. inversion Hall as [|? ? Hl Hrest]; subst.
  destruct lines as [|l' lines].
  - simpl. now apply Split_no_sep.
  - change (Join (l :: l' :: lines) (String x ""))
      with (l ++ String x "" ++ Join (l' :: lines) (String x "")).
    change (String x "" ++ Join (l' :: lines) (String x ""))
      with (String x (Join (l' :: lines) (String x ""))).
    rewrite (Split_app_sep _ _ _ Hl). f_equal. apply IH; [discriminate | assumption].
Qed.

End StringFacts.

Module StrconvFacts.
Import strconv.

Lemma string_of_uint_bytes (u : Decimal.uint) :
  all_bytes is_digit_or_minus (DecimalString.NilEmpty.string_of_uint u) = true.
Proof. induction u; simpl; auto. Qed.

Lemma Itoa_bytes (i : Z) : all_bytes is_digit_or_minus (Itoa i) = true.
Proof.
  unfold Itoa. destruct i as [|p|p]; simpl; [reflexivity| |].
  - unfold DecimalString.NilZero.string_of_uint.
    destruct (Pos.to_uint p); try apply string_of_uint_bytes; reflexivity.
  - unfold DecimalString.NilZero.string_of_uint.
    destruct (Pos.to_uint p); try apply string_of_uint_bytes; reflexivity.
Qed.

Lemma string_of_uint_head (u : Decimal.uint) :
  u <> Decimal.Nil ->
  exists c s, DecimalString.NilZero.string_of_uint u = String c s
              /\ Ascii.eqb c "+" = false /\ Ascii.eqb c "-" = false.
Proof. destruct u; [congruence| ..]; intros _; simpl; eauto. Qed.

Lemma Atoi_Itoa (i : Z) :
  (minInt <= i <= maxInt)%Z -> Atoi (Itoa i) = (i, None).
Proof.
  intros Hrange. unfold Itoa. destruct i as [|p|p].
  - reflexivity.
  - simpl.
    destruct (string_of_uint_head (Pos.to_uint p)) as (c & s & Hs & Hplus & Hminus);
      [apply DecimalPos.Unsigned.to_uint_nonnil|].
    unfold Atoi. rewrite Hs, Hplus, Hminus. simpl orb. cbv iota.
    rewrite <- Hs, DecimalString.NilZero.usu by apply DecimalPos.Unsigned.to_uint_nonnil.
    unfold Z.of_uint. rewrite DecimalPos.Unsigned.of_to. simpl Z.of_N.
    destruct (Z.ltb_spec (Z.pos p) minInt); [lia|].
    destruct (Z.ltb_spec maxInt (Z.pos p)); [lia|]. reflexivity.
  - simpl. unfold Atoi.
    change (Ascii.eqb "-" "+" || Ascii.eqb "-" "-") with true. cbv iota.
    rewrite DecimalString.NilZero.usu by apply DecimalPos.Unsigned.to_uint_nonnil.
    unfold Z.of_uint. rewrite DecimalPos.Unsigned.of_to. simpl Z.of_N.
    change (Ascii.eqb "-" "-") with true. cbv iota.
    change (- Z.pos p)%Z with (Z.neg p).
    destruct (Z.ltb_spec (Z.neg p) minInt); [lia|].
    destruct (Z.ltb_spec maxInt (Z.neg p)); [lia|]. reflexivity.
Qed.

End StrconvFacts.

(** ** The markers of an answer *)

(** One turn of a read loop: every branch the line can take. *)
Ltac loop_cases :=
  repeat match goal with
  | |- context [if ?b then _ else _] => destruct b eqn:?
  | |- context [match ?x with (_, _) => _ end] => destruct x as [? [?|]] eqn:?
  end.

Ltac marker_proof loop :=
  intros c pre; revert c; induction pre as [|line pre IH]; intros c item post;
  [ intros; cbn [app loop];
    change "<configuration-output>" with marker_begin;
    change "</configuration-output>" with marker_end;
    repeat match goal with H : strings.Contains _ _ = _ |- _ => rewrite H end;
    reflexivity
  | intros; cbn [app loop]; loop_cases; auto ].

Section MarkerTheorems.
Context (jdecode_Decode : string -> string * option error).

Lemma IpsecPolicy_stops : stops_at_end_marker IpsecPolicy.readIpsecPolicy_loop.
Proof. unfold stops_at_end_marker. marker_proof IpsecPolicy.readIpsecPolicy_loop. Qed.

Lemma IpsecPolicy_skips : skips_begin_marker IpsecPolicy.readIpsecPolicy_loop.
Proof. unfold skips_begin_marker. marker_proof IpsecPolicy.readIpsecPolicy_loop. Qed.

Lemma IkeProposal_stops : stops_at_end_marker IkeProposal.readIkeProposal_loop.
Proof. unfold stops_at_end_marker. marker_proof IkeProposal.readIkeProposal_loop. Qed.

Lemma IkeProposal_skips : skips_begin_marker IkeProposal.readIkeProposal_loop.
Proof. unfold skips_begin_marker. marker_proof IkeProposal.readIkeProposal_loop. Qed.

Lemma IkePolicy_stops :
  stops_at_end_marker (IkePolicy.readIkePolicy_loop jdecode_Decode).
Proof. unfold stops_at_end_marker. marker_proof IkePolicy.readIkePolicy_loop. Qed.

Lemma IkePolicy_skips :
  skips_begin_marker (IkePolicy.readIkePolicy_loop jdecode_Decode).
Proof. unfold skips_begin_marker. marker_proof IkePolicy.readIkePolicy_loop. Qed.

Lemma OspfArea_stops : stops_at_end_marker OspfArea.readOspfArea_loop.
Proof. unfold stops_at_end_marker. marker_proof OspfArea.readOspfArea_loop. Qed.

Lemma OspfArea_skips : skips_begin_marker OspfArea.readOspfArea_loop.
Proof. unfold skips_begin_marker. marker_proof OspfArea.readOspfArea_loop. Qed.

(** C10, as the code has it: in every resource the read loop passes over a
    line that holds the begin marker, also when the line holds the end marker
    as well, and stops at the first other line that holds the end marker: no
    line after that one adds to the record. *)
Theorem read_stops_at_end_marker :
  (stops_at_end_marker IpsecPolicy.readIpsecPolicy_loop
   /\ skips_begin_marker IpsecPolicy.readIpsecPolicy_loop)
  /\ (stops_at_end_marker IkeProposal.readIkeProposal_loop
      /\ skips_begin_marker IkeProposal.readIkeProposal_loop)
  /\ (stops_at_end_marker (IkePolicy.readIkePolicy_loop jdecode_Decode)
      /\ skips_begin_marker (IkePolicy.readIkePolicy_loop jdecode_Decode))
  /\ (stops_at_end_marker OspfArea.readOspfArea_loop
      /\ skips_begin_marker OspfArea.readOspfArea_loop).
Proof.
  repeat split;
    auto using IpsecPolicy_stops, IpsecPolicy_skips, IkeProposal_stops, IkeProposal_skips,
      IkePolicy_stops, IkePolicy_skips, OspfArea_stops, OspfArea_skips.
Qed.

End MarkerTheorems.

Lemma read_stops_at_end_marker_witness :
  IpsecPolicy.readIpsecPolicy_loop IpsecPolicy.zero
    (["set proposals p1"] ++ "</configuration-output>" :: ["set proposals p2"])
  = IpsecPolicy.readIpsecPolicy_loop IpsecPolicy.zero ["set proposals p1"].
Proof.
  apply (proj1 (proj1 (read_stops_at_end_marker (fun s => (s, None))))); reflexivity.
Defined.

(** C10 as the spec has it fails: a line that holds both markers is passed
    over, and the line after it is read. *)
Lemma first_end_marker_counterexample :
  ~ stops_at_first_end_marker IpsecPolicy.readIpsecPolicy_loop
  /\ IpsecPolicy.proposals
       (fst (IpsecPolicy.readIpsecPolicy_loop IpsecPolicy.zero
               ["<configuration-output></configuration-output>"; "set proposals p1"]))
     = ["p1"].
Proof.
  split; [|reflexivity].
  intros Hstop.
  specialize (Hstop IpsecPolicy.zero []
                "<configuration-output></configuration-output>" ["set proposals p1"]
                (Forall_nil _) eq_refl).
  discriminate Hstop.
Qed.

(** ** The lines the set functions stage *)

(** C5, as the code has it: for the name POL1, the proposals p1 and p2 and
    the pfs keys group14, [setIpsecPolicy] hands the session exactly three
    lines, each starting with the word set: the line of the
    perfect-forward-secrecy keys first, then the lines of the proposals p1
    and p2. *)
Theorem setIpsecPolicy_example :
  IpsecPolicy.setIpsecPolicy_configSet
    {| IpsecPolicy.s_name := "POL1"; IpsecPolicy.s_proposals := ["p1"; "p2"];
       IpsecPolicy.s_pfs_keys := "group14" |}
  = ["set security ipsec policy POL1 perfect-forward-secrecy keys group14";
     "set security ipsec policy POL1 proposals p1";
     "set security ipsec policy POL1 proposals p2"].
Proof. reflexivity. Qed.

(** C5 as the spec has it fails: the lines are not the three of the spec in
    the order of the spec, and they are not even once the word set is taken
    off each of them. *)
Lemma setIpsecPolicy_example_counterexample :
  IpsecPolicy.setIpsecPolicy_configSet
    {| IpsecPolicy.s_name := "POL1"; IpsecPolicy.s_proposals := ["p1"; "p2"];
       IpsecPolicy.s_pfs_keys := "group14" |}
  <> ["security ipsec policy POL1 proposals p1";
      "security ipsec policy POL1 proposals p2";
      "security ipsec policy POL1 perfect-forward-secrecy keys group14"]
  /\ map (fun line => strings.TrimPrefix line setLineStart)
       (IpsecPolicy.setIpsecPolicy_configSet
          {| IpsecPolicy.s_name := "POL1"; IpsecPolicy.s_proposals := ["p1"; "p2"];
             IpsecPolicy.s_pfs_keys := "group14" |})
     <> ["security ipsec policy POL1 proposals p1";
         "security ipsec policy POL1 proposals p2";
         "security ipsec policy POL1 perfect-forward-secrecy keys group14"].
Proof. split; vm_compute; discriminate. Qed.

(** The same three lines are what the create of the resource leaves on the
    device. *)
Example setIpsecPolicy_example_staged :
  TestDevice.committed
    (device (snd (run (IpsecPolicy.resourceIpsecPolicyCreate TestDevice.sess TestDevice.K)
                      (TestDevice.device0 []) TestDevice.rd_ipsec)))
  = ["set security ipsec policy POL1 perfect-forward-secrecy keys group14";
     "set security ipsec policy POL1 proposals p1";
     "set security ipsec policy POL1 proposals p2"].
Proof. vm_compute. reflexivity. Qed.

Section OspfEncode.
Context (K : Constants).

(** For an element of the interface list, every line [setOspfArea] writes
    goes beyond the key: it holds the key line, a space and a field. *)
Lemma setOspfArea_interface_lines (setPrefix : string) (i : OspfArea.ospfInterface) :
  Forall (fun line =>
            exists field, field <> ""
              /\ line = setPrefix ++ "interface " ++ OspfArea.name i ++ " " ++ field)
         (OspfArea.setOspfArea_interface setPrefix i).
Proof.
  unfold OspfArea.setOspfArea_interface.
  repeat match goal with
         | |- context [if ?b then _ else _] => destruct b
         end; cbn [app];
    repeat (constructor;
            [eexists; split;
             [| rewrite !StringFacts.append_assoc; repeat f_equal;
                try rewrite <- StringFacts.append_assoc; reflexivity];
             discriminate |]); constructor.
Qed.

(** C6: for an element of the interface list whose only field is its name,
    [setOspfArea] writes no line at all, where the claim has it write the key
    line. *)
Theorem setOspfArea_name_only (setPrefix nm : string) :
  OspfArea.setOspfArea_interface setPrefix (OspfArea.interfaceOptions_new nm) = [].
Proof. reflexivity. Qed.

End OspfEncode.

(** The failing input of C6: an area whose one interface has a name and
    nothing else. *)
Example setOspfArea_name_only_example :
  OspfArea.setOspfArea_configSet TestDevice.K
    {| OspfArea.s_area_id := "0.0.0.0"; OspfArea.s_routing_instance := "default";
       OspfArea.s_version := "v2";
       OspfArea.s_interface := [OspfArea.interfaceOptions_new "ge-0/0/0.0"] |}
  = [].
Proof. reflexivity. Qed.

(** The read side knows the key line: it makes the element with the name
    and nothing else of it. *)
Example readOspfArea_key_line :
  OspfArea.readOspfArea_loop OspfArea.zero ["set interface ge-0/0/0.0"]
  = (OspfArea.set_interFace OspfArea.zero [OspfArea.interfaceOptions_new "ge-0/0/0.0"],
     None).
Proof. reflexivity. Qed.

(** With a field set, the lines are the ones of the claim. *)
Example setOspfArea_example :
  OspfArea.setOspfArea_configSet TestDevice.K
    {| OspfArea.s_area_id := "0.0.0.0"; OspfArea.s_routing_instance := "default";
       OspfArea.s_version := "v2";
       OspfArea.s_interface :=
         [OspfArea.set_metric
            (OspfArea.set_passive (OspfArea.interfaceOptions_new "ge-0/0/0.0") true) 100;
          OspfArea.set_disable (OspfArea.interfaceOptions_new "ge-0/0/1.0") true] |}
  = ["set protocols ospf area 0.0.0.0 interface ge-0/0/0.0 passive";
     "set protocols ospf area 0.0.0.0 interface ge-0/0/0.0 metric 100";
     "set protocols ospf area 0.0.0.0 interface ge-0/0/1.0 disable"].
Proof. reflexivity. Qed.

(** What comes of it: the create of an area whose interface has a name only
    stages nothing, commits, does not find the area and fails; with a field
    set, the area is created and read back. *)
Example create_ospf_name_only_run :
  fst (run (OspfArea.resourceOspfAreaCreate TestDevice.sess TestDevice.K)
           (TestDevice.device0 [])
           (TestDevice.rd_ospf [OspfArea.interfaceOptions_new "ge-0/0/0.0"]))
  = [errorString ("ospf v2 area 0.0.0.0 in routing instance default"
                  ++ " not exists after commit => check your config")]
  /\ existsb (fun e => match e with
                       | EvConfigSet [] _ None => true
                       | _ => false
                       end)
       (trace (snd (run (OspfArea.resourceOspfAreaCreate TestDevice.sess TestDevice.K)
                        (TestDevice.device0 [])
                        (TestDevice.rd_ospf [OspfArea.interfaceOptions_new "ge-0/0/0.0"]))))
     = true
  /\ d (snd (run (OspfArea.resourceOspfAreaCreate TestDevice.sess TestDevice.K)
                 (TestDevice.device0 [])
                 (TestDevice.rd_ospf
                    [OspfArea.set_passive (OspfArea.interfaceOptions_new "ge-0/0/0.0") true])))
     = {| fields :=
            fields (TestDevice.rd_ospf
                      [OspfArea.set_passive (OspfArea.interfaceOptions_new "ge-0/0/0.0") true]);
          Id := "0.0.0.0_-_v2_-_default"; partial := false |}.
Proof. repeat split; vm_compute; reflexivity. Qed.

(** ** The errors of the read loops *)



Section ReadErrors.
Context (K : Constants) (jdecode_Decode : string -> string * option error).












End ReadErrors.



(** The example of the spec for the interface block. *)
Example readOspfArea_example :
  OspfArea.readOspfArea_loop OspfArea.zero
    ["set interface ge-0/0/0 metric 100"; "set interface ge-0/0/0 passive";
     "set interface ge-0/0/1 disable"]
  = (OspfArea.set_interFace OspfArea.zero
       [OspfArea.set_passive
          (OspfArea.set_metric (OspfArea.interfaceOptions_new "ge-0/0/0") 100) true;
        OspfArea.set_disable (OspfArea.interfaceOptions_new "ge-0/0/1") true],
     None).
Proof. reflexivity. Qed.

(** A value that does not convert, in a line the loop gets to look at. *)
Example readIkeProposal_bad_number :
  IkeProposal.readIkeProposal_loop IkeProposal.zero ["set lifetime-seconds abc"]
  = (IkeProposal.zero,
     Some (wrapError "failed to convert value from 'lifetime-seconds abc' to integer : "
             (NumError "Atoi" "abc" strconv.ErrSyntax))).
Proof. reflexivity. Qed.

(** ** The interface block of the ospf area: merging by key *)

Module MergeFacts.
Import OspfArea.
Local Open Scope list_scope.

Lemma names_app (l l' : list ospfInterface) : names (l ++ l') = names l ++ names l'.
Proof. apply map_app. Qed.

Lemma names_filter (k : string) (l : list ospfInterface) :
  names (filter (other k) l) = filter (fun x => negb (String.eqb x k)) (names l).
Proof.
  induction l as [|x l IH]; [reflexivity|]. unfold other in *. simpl.
  destruct (String.eqb (name x) k); simpl; now rewrite IH.
Qed.

Lemma filter_other_notin (k : string) (l : list ospfInterface) :
  ~ In k (names l) -> filter (other k) l = l.
Proof.
  induction l as [|x l IH]; [reflexivity|]. unfold other in *. simpl. intros Hnot.
  destruct (String.eqb_spec (name x) k) as [Heq|Hne]; [tauto|].
  simpl. f_equal. apply IH. tauto.
Qed.

Lemma notin_filter_other (k : string) (l : list ospfInterface) :
  ~ In k (names (filter (other k) l)).
Proof.
  rewrite names_filter. intros Hin. apply filter_In in Hin as [_ Hk].
  now rewrite String.eqb_refl in Hk.
Qed.

Lemma NoDup_filter_names (k : string) (l : list ospfInterface) :
  NoDup (names l) -> NoDup (names (filter (other k) l)).
Proof. rewrite names_filter. apply NoDup_filter. Qed.

Lemma NoDup_bump (k : string) (l : list ospfInterface) (r : ospfInterface) :
  NoDup (names l) -> name r = k -> NoDup (names (filter (other k) l ++ [r])).
Proof.
  intros Hnd Hr. rewrite names_app. simpl. rewrite Hr.
  apply NoDup_app; [now apply NoDup_filter_names | repeat constructor; auto | ].
  intros x Hx [Hk|[]]. subst x. now apply notin_filter_other in Hx.
Qed.

(** What [copyAndRemoveItemMapList] hands back. *)
Lemma copyAndRemove_name (m : ospfInterface) (l : list ospfInterface) :
  name (fst (copyAndRemoveItemMapList name m l)) = name m.
Proof.
  induction l as [|x l IH]; [reflexivity|]. simpl.
  destruct (String.eqb_spec (name x) (name m)) as [Heq|Hne]; [exact Heq|].
  destruct (copyAndRemoveItemMapList name m l). exact IH.
Qed.

Lemma copyAndRemove_notin (m : ospfInterface) (l : list ospfInterface) :
  ~ In (name m) (names l) -> copyAndRemoveItemMapList name m l = (m, l).
Proof.
  induction l as [|x l IH]; [reflexivity|]. simpl. intros Hnot.
  destruct (String.eqb_spec (name x) (name m)) as [Heq|Hne]; [tauto|].
  rewrite IH by tauto. reflexivity.
Qed.

Lemma copyAndRemove_rest (m : ospfInterface) (l : list ospfInterface) :
  NoDup (names l) ->
  snd (copyAndRemoveItemMapList name m l) = filter (other (name m)) l.
Proof.
  induction l as [|x l IH]; [reflexivity|]. simpl. intros Hnd.
  inversion Hnd as [|? ? Hx Hl]; subst. unfold other at 1.
  destruct (String.eqb_spec (name x) (name m)) as [Heq|Hne]; simpl.
  - symmetry. apply filter_other_notin. now rewrite <- Heq.
  - destruct (copyAndRemoveItemMapList name m l) as [m' l'] eqn:Hcr.
    simpl in *. f_equal. now apply IH.
Qed.

Lemma copyAndRemove_found (m r : ospfInterface) (l : list ospfInterface) :
  NoDup (names l) -> In r l -> name r = name m ->
  fst (copyAndRemoveItemMapList name m l) = r.
Proof.
  induction l as [|x l IH]; [intros _ []|]. simpl. intros Hnd Hin Hr.
  inversion Hnd as [|? ? Hx Hl]; subst.
  destruct (String.eqb_spec (name x) (name m)) as [Heq|Hne]; simpl.
  - destruct Hin as [->|Hin]; [reflexivity|].
    exfalso. apply Hx. rewrite Heq, <- Hr. now apply in_map.
  - destruct Hin as [->|Hin]; [congruence|].
    destruct (copyAndRemoveItemMapList name m l) as [m' l'] eqn:Hcr.
    simpl in *. now apply IH.
Qed.

Lemma copyAndRemove_last (m r : ospfInterface) (l : list ospfInterface) :
  ~ In (name m) (names l) -> name r = name m ->
  copyAndRemoveItemMapList name m (l ++ [r]) = (r, l).
Proof.
  induction l as [|x l IH]; simpl; intros Hnot Hr.
  - rewrite Hr, String.eqb_refl. reflexivity.
  - destruct (String.eqb_spec (name x) (name m)) as [Heq|Hne]; [tauto|].
    rewrite IH by tauto. reflexivity.
Qed.

(** What a line of the interface block does to the list: it sets a field of
    the element of its key, or it ends the loop with an error. *)
Lemma readOspfArea_interface_shape (itemTrim : string) :
  (exists f : ospfInterface -> ospfInterface,
      (forall r, name (f r) = name r) /\ (forall r, f (f r) = f r)
      /\ (forall r, extends r (f r))
      /\ forall l,
           readOspfArea_interface itemTrim l
           = (snd (copyAndRemoveItemMapList name (interfaceOptions_new (block_key itemTrim)) l)
                ++ [f (fst (copyAndRemoveItemMapList name
                              (interfaceOptions_new (block_key itemTrim)) l))],
              None))
  \/ (exists err,
        forall l,
          readOspfArea_interface itemTrim l
          = (snd (copyAndRemoveItemMapList name (interfaceOptions_new (block_key itemTrim)) l),
             Some err)).
Proof.
  unfold readOspfArea_interface.
  fold (block_key itemTrim). fold (block_rest itemTrim).
  unfold extends.
  destruct (strings.HasPrefix (block_rest itemTrim) "disable");
    [left; exists (fun r => set_disable r true); repeat split; auto;
     intros l; now destruct (copyAndRemoveItemMapList _ _ l)|].
  destruct (strings.HasPrefix (block_rest itemTrim) "passive");
    [left; exists (fun r => set_passive r true); repeat split; auto;
     intros l; now destruct (copyAndRemoveItemMapList _ _ l)|].
  destruct (strings.HasPrefix (block_rest itemTrim) "metric ");
    [destruct (strconv.Atoi _) as [v [err|]];
     [right; eexists; intros l; now destruct (copyAndRemoveItemMapList _ _ l)
     |left; exists (fun r => set_metric r v); repeat split; eauto 8;
      intros l; now destruct (copyAndRemoveItemMapList _ _ l)]|].
  destruct (strings.HasPrefix (block_rest itemTrim) "hello-interval ");
    [destruct (strconv.Atoi _) as [v [err|]];
     [right; eexists; intros l; now destruct (copyAndRemoveItemMapList _ _ l)
     |left; exists (fun r => set_hello_interval r v); repeat split; eauto 8;
      intros l; now destruct (copyAndRemoveItemMapList _ _ l)]|].
  destruct (strings.HasPrefix (block_rest itemTrim) "retransmit-interval ");
    [destruct (strconv.Atoi _) as [v [err|]];
     [right; eexists; intros l; now destruct (copyAndRemoveItemMapList _ _ l)
     |left; exists (fun r => set_retransmit_interval r v); repeat split; eauto 8;
      intros l; now destruct (copyAndRemoveItemMapList _ _ l)]|].
  destruct (strings.HasPrefix (block_rest itemTrim) "dead-interval ");
    [destruct (strconv.Atoi _) as [v [err|]];
     [right; eexists; intros l; now destruct (copyAndRemoveItemMapList _ _ l)
     |left; exists (fun r => set_dead_interval r v); repeat split; eauto 8;
      intros l; now destruct (copyAndRemoveItemMapList _ _ l)]|].
  left; exists (fun r => r); repeat split; auto.
  intros l; now destruct (copyAndRemoveItemMapList _ _ l).
Qed.


(** One line of the block on a list with one element for a key. *)
Lemma step_ok (itemTrim : string) (l l1 : list ospfInterface) :
  NoDup (names l) ->
  readOspfArea_interface itemTrim l = (l1, None) ->
  exists r',
    l1 = filter (other (block_key itemTrim)) l ++ [r']
    /\ name r' = block_key itemTrim
    /\ forall r, In r l -> name r = block_key itemTrim -> extends r r'.
Proof.
  intros Hnd Hstep.
  destruct (readOspfArea_interface_shape itemTrim)
    as [(f & Hname & _ & Hext & Hf)|(err & Herr)];
    [|rewrite Herr in Hstep; discriminate].
  rewrite Hf in Hstep. injection Hstep as <-.
  eexists; split; [|split].
  - rewrite (copyAndRemove_rest _ _ Hnd). reflexivity.
  - rewrite Hname. apply copyAndRemove_name.
  - intros r Hin Hr.
    rewrite (copyAndRemove_found (interfaceOptions_new (block_key itemTrim)) r l Hnd Hin Hr).
    apply Hext.
Qed.

(** One line of the block, taken without an error: the element of its key,
    or a new one, goes to the end of the list with the field of the line
    set. *)
Lemma step_sets (itemTrim : string) (l l1 : list ospfInterface) :
  readOspfArea_interface itemTrim l = (l1, None) ->
  l1 = snd (copyAndRemoveItemMapList name (interfaceOptions_new (block_key itemTrim)) l)
       ++ [line_sets (block_rest itemTrim)
             (fst (copyAndRemoveItemMapList name
                     (interfaceOptions_new (block_key itemTrim)) l))].
Proof.
  unfold readOspfArea_interface, line_sets.
  fold (block_key itemTrim). fold (block_rest itemTrim).
  destruct (copyAndRemoveItemMapList name (interfaceOptions_new (block_key itemTrim)) l)
    as [r0 l0].
  cbn [fst snd].
  repeat match goal with
         | |- context [if strings.HasPrefix ?a ?b then _ else _] =>
             destruct (strings.HasPrefix a b)
         | |- context [strconv.Atoi ?a] => destruct (strconv.Atoi a) as [? [?|]]
         end;
    intros Hstep; try discriminate Hstep; injection Hstep as <-; reflexivity.
Qed.

Lemma step_err (itemTrim : string) (l l1 : list ospfInterface) (err : error) :
  NoDup (names l) ->
  readOspfArea_interface itemTrim l = (l1, Some err) ->
  l1 = filter (other (block_key itemTrim)) l.
Proof.
  intros Hnd Hstep.
  destruct (readOspfArea_interface_shape itemTrim)
    as [(f & _ & _ & _ & Hf)|(err' & Herr)];
    [rewrite Hf in Hstep; discriminate|].
  rewrite Herr in Hstep. injection Hstep as <- _.
  now rewrite (copyAndRemove_rest _ _ Hnd).
Qed.

Lemma step_NoDup (itemTrim : string) (l l1 : list ospfInterface) (e : option error) :
  NoDup (names l) ->
  readOspfArea_interface itemTrim l = (l1, e) ->
  NoDup (names l1).
Proof.
  intros Hnd Hstep. destruct e as [err|].
  - rewrite (step_err _ _ _ _ Hnd Hstep). now apply NoDup_filter_names.
  - destruct (step_ok _ _ _ Hnd Hstep) as (r' & -> & Hr' & _).
    now apply NoDup_bump.
Qed.

(** The same line a second time changes nothing. *)
Lemma step_twice (itemTrim : string) (l l1 : list ospfInterface) :
  NoDup (names l) ->
  readOspfArea_interface itemTrim l = (l1, None) ->
  readOspfArea_interface itemTrim l1 = (l1, None).
Proof.
  intros Hnd Hstep.
  destruct (readOspfArea_interface_shape itemTrim)
    as [(f & Hname & Hidem & _ & Hf)|(err & Herr)];
    [|rewrite Herr in Hstep; discriminate].
  rewrite Hf in Hstep. injection Hstep as <-.
  rewrite Hf, (copyAndRemove_rest _ _ Hnd).
  rewrite copyAndRemove_last.
  - simpl. now rewrite Hidem.
  - apply notin_filter_other.
  - rewrite Hname. apply copyAndRemove_name.
Qed.

Lemma length_filter_other (k : string) (r : ospfInterface) (l : list ospfInterface) :
  NoDup (names l) -> In r l -> name r = k ->
  S (length (filter (other k) l)) = length l.
Proof.
  induction l as [|x l IH]; [intros _ []|]. intros Hnd Hin Hr.
  inversion Hnd as [|? ? Hx Hl]; subst. simpl. unfold other at 1.
  destruct (String.eqb_spec (name x) (name r)) as [Heq|Hne]; simpl.
  - f_equal. f_equal. apply filter_other_notin. now rewrite <- Heq.
  - f_equal. destruct Hin as [->|Hin]; [congruence|]. now apply IH.
Qed.

(** The loop keeps the keys of the list apart. *)
Lemma loop_NoDup (items : list string) (c : ospfAreaOptions) :
  NoDup (names (interFace c)) ->
  NoDup (names (interFace (fst (readOspfArea_loop c items)))).
Proof.
  revert c; induction items as [|item rest IH]; intros c Hnd; [exact Hnd|].
  cbn [readOspfArea_loop].
  destruct (strings.Contains item "<configuration-output>"); [now apply IH|].
  destruct (strings.Contains item "</configuration-output>"); [exact Hnd|].
  destruct (strings.HasPrefix _ "interface "); [|now apply IH].
  destruct (readOspfArea_interface _ _) as [l1 e] eqn:Hstep.
  pose proof (step_NoDup _ _ _ _ Hnd Hstep) as Hnd1.
  destruct e as [err|]; [exact Hnd1 | now apply IH].
Qed.

Lemma loop_twice (pre : list string) (item : string) (post : list string)
    (c : ospfAreaOptions) :
  NoDup (names (interFace c)) ->
  readOspfArea_loop c (pre ++ item :: item :: post)
  = readOspfArea_loop c (pre ++ item :: post).
Proof.
  revert c; induction pre as [|line pre IH]; intros c Hnd.
  - cbn [app readOspfArea_loop].
    destruct (strings.Contains item "<configuration-output>") eqn:Hb; [reflexivity|].
    destruct (strings.Contains item "</configuration-output>") eqn:He; [reflexivity|].
    destruct (strings.HasPrefix _ "interface ") eqn:Hi; [|reflexivity].
    destruct (readOspfArea_interface _ (interFace c)) as [l1 [err|]] eqn:Hstep;
      [reflexivity|].
    cbn [interFace set_interFace].
    now rewrite (step_twice _ _ _ Hnd Hstep).
  - cbn [app readOspfArea_loop].
    destruct (strings.Contains line "<configuration-output>"); [now apply IH|].
    destruct (strings.Contains line "</configuration-output>"); [reflexivity|].
    destruct (strings.HasPrefix _ "interface "); [|now apply IH].
    destruct (readOspfArea_interface _ _) as [l1 e] eqn:Hstep.
    pose proof (step_NoDup _ _ _ _ Hnd Hstep) as Hnd1.
    destruct e as [err|]; [reflexivity | now apply IH].
Qed.

(** The order of the keys. *)
Lemma block_keys_content_lines (item : string) (rest : list string) :
  block_keys (content_lines (item :: rest))
  = if strings.Contains item marker_begin then block_keys (content_lines rest)
    else if strings.Contains item marker_end then []
    else if strings.HasPrefix (strings.TrimPrefix item setLineStart) "interface "
         then block_key (strings.TrimPrefix item setLineStart)
              :: block_keys (content_lines rest)
         else block_keys (content_lines rest).
Proof.
  cbn [content_lines].
  destruct (strings.Contains item marker_begin); [reflexivity|].
  destruct (strings.Contains item marker_end); [reflexivity|].
  cbn [block_keys]. unfold interface_key.
  now destruct (strings.HasPrefix _ "interface ").
Qed.

Lemma filter_unseen_nil (N : list string) : filter (unseen []) N = N.
Proof. induction N as [|x N IH]; [reflexivity|]. simpl. now rewrite IH. Qed.

Lemma filter_unseen_cons (k : string) (ks N : list string) :
  filter (unseen ks) (filter (fun x => negb (String.eqb x k)) N)
  = filter (unseen (k :: ks)) N.
Proof.
  induction N as [|x N IH]; [reflexivity|]. unfold unseen in *. simpl.
  destruct (String.eqb x k); simpl; [exact IH|].
  destruct (existsb (String.eqb x) ks); simpl; now rewrite IH.
Qed.

Lemma loop_keys (items : list string) (c c' : ospfAreaOptions) :
  NoDup (names (interFace c)) ->
  readOspfArea_loop c items = (c', None) ->
  names (interFace c')
  = filter (unseen (block_keys (content_lines items))) (names (interFace c))
    ++ last_appearance (block_keys (content_lines items)).
Proof.
  revert c; induction items as [|item rest IH]; intros c Hnd Hloop.
  - injection Hloop as <-. cbn. now rewrite filter_unseen_nil, app_nil_r.
  - rewrite block_keys_content_lines. cbn [readOspfArea_loop] in Hloop.
    change "<configuration-output>" with marker_begin in Hloop.
    change "</configuration-output>" with marker_end in Hloop.
    destruct (strings.Contains item marker_begin); [now apply IH|].
    destruct (strings.Contains item marker_end);
      [injection Hloop as <-; cbn; now rewrite filter_unseen_nil, app_nil_r|].
    destruct (strings.HasPrefix _ "interface "); [|now apply IH].
    destruct (readOspfArea_interface _ _) as [l1 [err|]] eqn:Hstep; [discriminate|].
    pose proof (step_NoDup _ _ _ _ Hnd Hstep) as Hnd1.
    rewrite (IH (set_interFace c l1) Hnd1 Hloop). cbn [interFace set_interFace].
    destruct (step_ok _ _ _ Hnd Hstep) as (r' & -> & Hr' & _).
    rewrite names_app, names_filter, filter_app, filter_unseen_cons.
    cbn [names map filter last_appearance]. rewrite Hr'. unfold unseen at 2.
    destruct (existsb _ (block_keys (content_lines rest))); cbn [negb];
      rewrite <- app_assoc; reflexivity.
Qed.

(** With the lines of every key together, the last appearances are in the
    order of the first ones. *)
Lemma first_appearance_from_seen (seen seen' keys : list string) :
  (forall x, In x keys -> existsb (String.eqb x) seen = existsb (String.eqb x) seen') ->
  first_appearance_from seen keys = first_appearance_from seen' keys.
Proof.
  revert seen seen'; induction keys as [|k keys IH]; intros seen seen' Hsame;
    [reflexivity|].
  cbn [first_appearance_from]. rewrite (Hsame k (or_introl eq_refl)).
  destruct (existsb (String.eqb k) seen').
  - apply IH. intros x Hx. apply Hsame. now right.
  - f_equal. apply IH. intros x Hx. cbn [existsb].
    rewrite (Hsame x (or_intror Hx)). reflexivity.
Qed.

Lemma existsb_eqb_In (k : string) (l : list string) :
  existsb (String.eqb k) l = true <-> In k l.
Proof.
  rewrite existsb_exists. split.
  - intros (x & Hx & Heq). apply String.eqb_eq in Heq. now subst.
  - intros Hin. exists k. split; [assumption | apply String.eqb_refl].
Qed.

Lemma last_first_grouped (keys : list string) :
  grouped keys -> last_appearance keys = first_appearance keys.
Proof.
  unfold first_appearance.
  induction keys as [|k rest IH]; [reflexivity|].
  intros [Hk Hrest]. specialize (IH Hrest).
  cbn [last_appearance first_appearance_from existsb].
  destruct rest as [|k' rest']; [reflexivity|].
  destruct (String.eqb_spec k k') as [<-|Hne].
  - (* the same key again *)
    cbn [existsb]. rewrite String.eqb_refl. cbn [orb].
    rewrite IH. cbn [first_appearance_from existsb]. rewrite String.eqb_refl.
    cbn [orb]. reflexivity.
  - destruct Hk as [Hk|Hk]; [contradiction|].
    destruct (existsb (String.eqb k) (k' :: rest')) eqn:Hex;
      [apply existsb_eqb_In in Hex; contradiction|].
    f_equal. rewrite IH. apply first_appearance_from_seen.
    intros x Hx. cbn [existsb].
    destruct (String.eqb_spec x k) as [->|]; [contradiction | reflexivity].
Qed.

End MergeFacts.

Section InterfaceBlock.
Import OspfArea MergeFacts.
Local Open Scope list_scope.

(** C7, as the modelled code has it: when [readOspfArea] succeeds, the
    interface list holds the keys of the lines it looked at in the order of
    their last appearance, a line for a key seen before moving the merged
    element to the end of the list; when the lines of every key come one
    after the other, that is the order of the first appearance. *)
Theorem interface_order (confRead : ospfAreaOptions) (items : list string) :
  interFace confRead = [] ->
  is_error (readOspfArea_loop confRead items) = false ->
  decoded_keys confRead items = last_appearance (block_keys (content_lines items))
  /\ (grouped (block_keys (content_lines items)) ->
      decoded_keys confRead items = first_appearance (block_keys (content_lines items))).
Proof.
  intros Hempty Hok. unfold decoded_keys.
  destruct (readOspfArea_loop confRead items) as [c' [err|]] eqn:Hloop; [discriminate|].
  assert (Hnd : NoDup (names (interFace confRead))) by (rewrite Hempty; constructor).
  assert (Hkeys : names (interFace c')
                  = last_appearance (block_keys (content_lines items))).
  { rewrite (loop_keys items confRead c' Hnd Hloop), Hempty. reflexivity. }
  cbn [fst]. split; [exact Hkeys|].
  intros Hgrouped. rewrite Hkeys. now apply last_first_grouped.
Qed.

(** C8: the interface list [readOspfArea] builds never holds two elements
    with one key; a line that is there twice in a row does what it does once;
    and a line for a key of the list updates the element of that key: the
    list stays as long as it was, the element is taken out and put back at
    the end with the field that the line names set to the value of the line
    and its other fields as they were ([line_sets]).  A line for a key that
    is not in the list adds, at the end, a new element of that key with the
    field of the line set, and leaves the others alone. *)
Theorem interface_keys_unique :
  (forall confRead items,
      NoDup (names (interFace confRead)) -> NoDup (decoded_keys confRead items))
  /\ (forall confRead pre item post,
        NoDup (names (interFace confRead)) ->
        readOspfArea_loop confRead (pre ++ item :: item :: post)
        = readOspfArea_loop confRead (pre ++ item :: post))
  /\ (forall l itemTrim l' r,
        NoDup (names l) -> In r l -> name r = block_key itemTrim ->
        readOspfArea_interface itemTrim l = (l', None) ->
        exists r', extends r r'
                   /\ l' = filter (other (name r)) l ++ [r']
                   /\ length l' = length l
                   /\ r' = line_sets (block_rest itemTrim) r)
  /\ (forall l itemTrim l',
        ~ In (block_key itemTrim) (names l) ->
        readOspfArea_interface itemTrim l = (l', None) ->
        l' = l ++ [line_sets (block_rest itemTrim)
                     (interfaceOptions_new (block_key itemTrim))]).
Proof.
  split; [|split; [|split]].
  - intros confRead items. apply loop_NoDup.
  - intros confRead pre item post. apply loop_twice.
  - intros l itemTrim l' r Hnd Hin Hr Hstep.
    destruct (step_ok _ _ _ Hnd Hstep) as (r' & -> & Hr' & Hext).
    exists r'. rewrite Hr. repeat split; [now apply Hext| |].
    + rewrite length_app, Nat.add_comm. cbn [length Nat.add].
      now apply length_filter_other with (r := r).
    + apply step_sets in Hstep.
      rewrite (copyAndRemove_found (interfaceOptions_new (block_key itemTrim)) r l
                 Hnd Hin Hr) in Hstep.
      apply app_inj_tail in Hstep. now destruct Hstep.
  - intros l itemTrim l' Hnot Hstep.
    apply step_sets in Hstep.
    now rewrite (copyAndRemove_notin (interfaceOptions_new (block_key itemTrim)) l Hnot)
      in Hstep.
Qed.

End InterfaceBlock.

Lemma interface_order_witness :
  OspfArea.decoded_keys OspfArea.zero
    ["set interface ge-0/0/0 metric 100"; "set interface ge-0/0/0 passive";
     "set interface ge-0/0/1 disable"]
  = ["ge-0/0/0"; "ge-0/0/1"].
Proof.
  apply (proj2 (interface_order OspfArea.zero
                  ["set interface ge-0/0/0 metric 100"; "set interface ge-0/0/0 passive";
                   "set interface ge-0/0/1 disable"] eq_refl eq_refl)).
  vm_compute. intuition discriminate.
Defined.

(** C7 as the spec has it fails: when a line for the first key comes after a
    line for the second one, the merged element of the first key is the last
    of the list. *)
Lemma interface_order_counterexample :
  OspfArea.readOspfArea_loop OspfArea.zero
    ["set interface ge-0/0/0 metric 100"; "set interface ge-0/0/1 disable";
     "set interface ge-0/0/0 passive"]
  = (OspfArea.set_interFace OspfArea.zero
       [OspfArea.set_disable (OspfArea.interfaceOptions_new "ge-0/0/1") true;
        OspfArea.set_passive
          (OspfArea.set_metric (OspfArea.interfaceOptions_new "ge-0/0/0") 100) true],
     None)
  /\ OspfArea.first_appearance
       (OspfArea.block_keys
          (content_lines
             ["set interface ge-0/0/0 metric 100"; "set interface ge-0/0/1 disable";
              "set interface ge-0/0/0 passive"]))
     = ["ge-0/0/0"; "ge-0/0/1"]
  /\ OspfArea.decoded_keys OspfArea.zero
       ["set interface ge-0/0/0 metric 100"; "set interface ge-0/0/1 disable";
        "set interface ge-0/0/0 passive"]
     <> OspfArea.first_appearance
          (OspfArea.block_keys
             (content_lines
                ["set interface ge-0/0/0 metric 100"; "set interface ge-0/0/1 disable";
                 "set interface ge-0/0/0 passive"])).
Proof. repeat split; vm_compute; discriminate. Qed.

Lemma interface_keys_unique_witness :
  exists r',
    OspfArea.extends (OspfArea.set_metric (OspfArea.interfaceOptions_new "ge-0/0/0") 100) r'
    /\ fst (OspfArea.readOspfArea_interface "interface ge-0/0/0 passive"
              [OspfArea.set_metric (OspfArea.interfaceOptions_new "ge-0/0/0") 100;
               OspfArea.set_disable (OspfArea.interfaceOptions_new "ge-0/0/1") true])
       = (filter (OspfArea.other "ge-0/0/0")
            [OspfArea.set_metric (OspfArea.interfaceOptions_new "ge-0/0/0") 100;
             OspfArea.set_disable (OspfArea.interfaceOptions_new "ge-0/0/1") true]
          ++ [r'])%list
    /\ length (fst (OspfArea.readOspfArea_interface "interface ge-0/0/0 passive"
              [OspfArea.set_metric (OspfArea.interfaceOptions_new "ge-0/0/0") 100;
               OspfArea.set_disable (OspfArea.interfaceOptions_new "ge-0/0/1") true]))
       = 2
    /\ r' = OspfArea.set_passive
              (OspfArea.set_metric (OspfArea.interfaceOptions_new "ge-0/0/0") 100) true.
Proof.
  apply (proj1 (proj2 (proj2 interface_keys_unique))
           [OspfArea.set_metric (OspfArea.interfaceOptions_new "ge-0/0/0") 100;
            OspfArea.set_disable (OspfArea.interfaceOptions_new "ge-0/0/1") true]
           "interface ge-0/0/0 passive"
           (fst (OspfArea.readOspfArea_interface "interface ge-0/0/0 passive"
              [OspfArea.set_metric (OspfArea.interfaceOptions_new "ge-0/0/0") 100;
               OspfArea.set_disable (OspfArea.interfaceOptions_new "ge-0/0/1") true]))
           (OspfArea.set_metric (OspfArea.interfaceOptions_new "ge-0/0/0") 100)).
  - repeat constructor; simpl; intuition discriminate.
  - left; reflexivity.
  - reflexivity.
  - reflexivity.
Defined.

(** A line of the metric for a key of the list sets the metric of its
    element and leaves its other fields; a second line for the key with
    another keyword sets that field of the same element. *)
Example interface_line_updates :
  OspfArea.readOspfArea_interface "interface ge-0/0/0 metric 20"
    [OspfArea.set_passive (OspfArea.set_metric (OspfArea.interfaceOptions_new "ge-0/0/0") 100)
       true;
     OspfArea.set_disable (OspfArea.interfaceOptions_new "ge-0/0/1") true]
  = ([OspfArea.set_disable (OspfArea.interfaceOptions_new "ge-0/0/1") true;
      {| OspfArea.name := "ge-0/0/0"; OspfArea.disable := false; OspfArea.passive := true;
         OspfArea.metric := 20; OspfArea.hello_interval := 0;
         OspfArea.retransmit_interval := 0; OspfArea.dead_interval := 0 |}],
     None).
Proof. reflexivity. Qed.

(** ** Reading back the lines that were staged *)

Module RoundTripFacts.
Import strings StringFacts.
Local Open Scope list_scope.

(** A prefix of ordinary bytes does not change what a text contains of a
    marker or of a line feed. *)
Lemma Contains_ordinary_prefix (p v : string) (x : ascii) (m : string) :
  all_bytes (fun c => negb (Ascii.eqb c x)) p = true ->
  Contains (p ++ v)%string (String x m) = Contains v (String x m).
Proof.
  induction p as [|c p IH]; [reflexivity|].
  cbn [all_bytes]. intros Hp. apply andb_true_iff in Hp as [Hc Hp].
  apply negb_true_iff in Hc.
  change (String c p ++ v)%string with (String c (p ++ v)%string).
  cbn [Contains HasPrefix]. rewrite Hc. cbn [andb orb]. now apply IH.
Qed.

Lemma ordinary_not_lt (p : string) :
  all_bytes ordinary p = true -> all_bytes (fun c => negb (Ascii.eqb c "<")) p = true.
Proof.
  apply all_bytes_weaken. unfold ordinary. intros c Hc.
  now apply andb_true_iff in Hc as [Hc _].
Qed.

Lemma ordinary_not_lf (p : string) :
  all_bytes ordinary p = true -> all_bytes (fun c => negb (Ascii.eqb c "010")) p = true.
Proof.
  apply all_bytes_weaken. unfold ordinary. intros c Hc.
  now apply andb_true_iff in Hc as [_ Hc].
Qed.

Lemma plain_ordinary_prefix (p v : string) :
  all_bytes ordinary p = true -> plain (p ++ v)%string = plain v.
Proof.
  intros Hp. unfold plain, LF, marker_begin, marker_end.
  rewrite !Contains_ordinary_prefix;
    auto using ordinary_not_lt, ordinary_not_lf.
Qed.

Lemma plain_ordinary (v : string) : all_bytes ordinary v = true -> plain v = true.
Proof.
  intros Hv. rewrite <- (append_nil_r v).
  rewrite (plain_ordinary_prefix v "" Hv). reflexivity.
Qed.

Lemma plain_Itoa (i : Z) : plain (strconv.Itoa i) = true.
Proof.
  apply plain_ordinary.
  apply (all_bytes_weaken is_digit_or_minus); [|apply StrconvFacts.Itoa_bytes].
  intros c Hc.
  destruct c as [[|] [|] [|] [|] [|] [|] [|] [|]]; try discriminate Hc; reflexivity.
Qed.

Lemma plain_parts (v : string) :
  plain v = true ->
  Contains v LF = false /\ Contains v marker_begin = false
  /\ Contains v marker_end = false.
Proof.
  unfold plain. intros H.
  apply andb_true_iff in H as [H He]. apply andb_true_iff in H as [Hl Hb].
  apply negb_true_iff in He, Hl, Hb. auto.
Qed.

Lemma plain_set_line (keyword v : string) :
  all_bytes ordinary keyword = true -> plain v = true ->
  plain (set_line (keyword ++ v)) = true.
Proof.
  intros Hk Hv. unfold set_line.
  rewrite plain_ordinary_prefix by reflexivity.
  now rewrite plain_ordinary_prefix.
Qed.

Lemma TrimPrefix_set_line (body : string) : TrimPrefix (set_line body) setLineStart = body.
Proof. apply TrimPrefix_app. Qed.

(** The line of the relative display for a line that was staged. *)
Lemma relative_line (path body : string) :
  (setLineStart ++ TrimPrefix ((setLineStart ++ path) ++ " " ++ body)
                     (setLineStart ++ path ++ " "))%string
  = set_line body.
Proof.
  replace ((setLineStart ++ path) ++ " " ++ body)%string
    with ((setLineStart ++ path ++ " ") ++ body)%string
    by (now rewrite !append_assoc).
  now rewrite TrimPrefix_app.
Qed.

(** The text of set lines is not the empty word, and its lines are the
    lines. *)
Lemma Join_set_lines_not_empty (K : Constants) (bodies : list string) :
  sentinel_ok K = true ->
  String.eqb (Join (map set_line bodies) LF) (emptyWord K) = false.
Proof.
  unfold sentinel_ok. intros HK. apply andb_true_iff in HK as [Hne Hset].
  apply negb_true_iff in Hne, Hset.
  destruct bodies as [|b bodies].
  - cbn [map Join]. now rewrite String.eqb_sym.
  - apply String.eqb_neq. intros Heq.
    assert (Hp : HasPrefix (Join (map set_line (b :: bodies)) LF) setLineStart = true).
    { cbn [map Join]. destruct (map set_line bodies); unfold set_line;
        [|rewrite append_assoc]; apply HasPrefix_app. }
    rewrite Heq in Hp. congruence.
Qed.

Lemma Split_Join_lines (lines : list string) :
  Forall (fun l => plain l = true) lines ->
  Split (Join lines LF) LF = match lines with [] => [""%string] | _ :: _ => lines end.
Proof.
  intros Hall. destruct lines as [|l lines]; [reflexivity|].
  apply Split_Join; [discriminate|].
  eapply Forall_impl; [|exact Hall].
  intros a Ha. now apply plain_parts in Ha.
Qed.


(** A set line that is looked at: its markers, its line start. *)
Ltac look_at_line Hplain :=
  let Hlf := fresh "Hlf" in
  let Hb := fresh "Hb" in
  let He := fresh "He" in
  destruct (plain_parts _ Hplain) as (Hlf & Hb & He);
  unfold marker_begin in Hb; unfold marker_end in He;
  rewrite Hb, He, TrimPrefix_set_line; clear Hlf Hb He.

(** The keyword of a line is found and taken off by computing on the bytes of
    the keyword. *)
Ltac keyword :=
  cbn [HasPrefix TrimPrefix drop String.length append Ascii.eqb Bool.eqb andb].

(** *** junos_security_ipsec_policy *)

Section IpsecPolicyRoundTrip.
Import IpsecPolicy.
Context (K : Constants).

Lemma ipsec_display (s : schema) :
  display_set_relative (path (s_name s)) (setIpsecPolicy_configSet s)
  = Join (map set_line (relative_bodies s)) LF.
Proof.
  unfold display_set_relative, setIpsecPolicy_configSet, relative_bodies, path.
  f_equal. rewrite !map_app, !map_map. f_equal.
  - destruct (negb (String.eqb (s_pfs_keys s) "")); [|reflexivity].
    cbn [map]. f_equal.
    apply (relative_line ("security ipsec policy " ++ s_name s)
             ("perfect-forward-secrecy keys " ++ s_pfs_keys s)).
  - apply map_ext. intros v.
    apply (relative_line ("security ipsec policy " ++ s_name s) ("proposals " ++ v)).
Qed.

Lemma ipsec_decode_lines (nm : string) (bodies : list string) :
  sentinel_ok K = true ->
  Forall (fun l => plain l = true) (map set_line bodies) ->
  readIpsecPolicy_decode K nm (Join (map set_line bodies) LF)
  = readIpsecPolicy_loop {| name := nm; pfsKeys := ""; proposals := [] |}
      (map set_line bodies).
Proof.
  intros HK Hplain. unfold readIpsecPolicy_decode.
  rewrite (Join_set_lines_not_empty K bodies HK). cbn [negb].
  change (String "010" "") with LF. rewrite (Split_Join_lines _ Hplain).
  destruct (map set_line bodies); reflexivity.
Qed.

Lemma ipsec_pfs_line (c : ipsecPolicyOptions) (v : string) (rest : list string) :
  plain v = true ->
  readIpsecPolicy_loop c (set_line ("perfect-forward-secrecy keys " ++ v) :: rest)
  = readIpsecPolicy_loop
      {| name := name c; pfsKeys := v; proposals := proposals c |} rest.
Proof.
  intros Hv. pose proof (plain_set_line "perfect-forward-secrecy keys " v eq_refl Hv) as Hl.
  cbn [readIpsecPolicy_loop]. look_at_line Hl. keyword. reflexivity.
Qed.

Lemma ipsec_proposals_lines (c : ipsecPolicyOptions) (vs : list string) :
  forallb plain vs = true ->
  readIpsecPolicy_loop c (map set_line (map (fun v => ("proposals " ++ v)%string) vs))
  = ({| name := name c; pfsKeys := pfsKeys c; proposals := proposals c ++ vs |}, None).
Proof.
  revert c; induction vs as [|v vs IH]; intros c Hvs.
  - cbn. rewrite app_nil_r. now destruct c.
  - cbn [forallb] in Hvs. apply andb_true_iff in Hvs as [Hv Hvs].
    pose proof (plain_set_line "proposals " v eq_refl Hv) as Hl.
    cbn [map readIpsecPolicy_loop]. look_at_line Hl. keyword.
    rewrite (IH _ Hvs). cbn [name pfsKeys proposals].
    now rewrite <- app_assoc.
Qed.

Lemma ipsec_relative_plain (s : schema) :
  well_formed s = true ->
  Forall (fun l => plain l = true) (map set_line (relative_bodies s)).
Proof.
  unfold well_formed, relative_bodies. intros Hwf.
  apply andb_true_iff in Hwf as [Hp Hvs].
  rewrite map_app. apply Forall_app. split.
  - destruct (negb (String.eqb (s_pfs_keys s) "")); constructor; [|constructor].
    now apply plain_set_line.
  - rewrite forallb_forall in Hvs. rewrite !Forall_map. apply Forall_forall.
    intros v Hv. apply plain_set_line; auto.
Qed.

Lemma ipsec_roundtrip (s : schema) :
  sentinel_ok K = true -> well_formed s = true -> decode_encode K s = (s, None).
Proof.
  intros HK Hwf. unfold decode_encode.
  rewrite ipsec_display, (ipsec_decode_lines _ _ HK (ipsec_relative_plain s Hwf)).
  unfold well_formed in Hwf. apply andb_true_iff in Hwf as [Hp Hvs].
  unfold relative_bodies.
  destruct (String.eqb_spec (s_pfs_keys s) "") as [Hempty|Hset]; cbn [negb app map].
  - rewrite (ipsec_proposals_lines _ _ Hvs). cbn. destruct s; cbn in *. now subst.
  - rewrite (ipsec_pfs_line _ _ _ Hp), (ipsec_proposals_lines _ _ Hvs).
    cbn. now destruct s.
Qed.

End IpsecPolicyRoundTrip.


(** *** junos_security_ike_proposal *)

Section IkeProposalRoundTrip.
Import IkeProposal.
Context (K : Constants).

Lemma ikeproposal_display (s : schema) :
  display_set_relative (path (s_name s)) (setIkeProposal_configSet s)
  = Join (map set_line (relative_bodies s)) LF.
Proof.
  unfold display_set_relative, setIkeProposal_configSet, relative_bodies, path.
  f_equal. rewrite !map_app.
  repeat (f_equal;
          [match goal with
           | |- context [if ?b then _ else _] => destruct b
           end; [cbn [map]; f_equal|reflexivity]|]).
  5: { match goal with |- context [if ?b then _ else _] => destruct b end;
       [cbn [map]; f_equal|reflexivity].
       apply (relative_line ("security ike proposal " ++ s_name s)
                ("lifetime-seconds " ++ strconv.Itoa (s_lifetime_seconds s))). }
  - apply (relative_line ("security ike proposal " ++ s_name s)
             ("authentication-method " ++ s_authentication_method s)).
  - apply (relative_line ("security ike proposal " ++ s_name s)
             ("authentication-algorithm " ++ s_authentication_algorithm s)).
  - apply (relative_line ("security ike proposal " ++ s_name s)
             ("dh-group " ++ s_dh_group s)).
  - apply (relative_line ("security ike proposal " ++ s_name s)
             ("encryption-algorithm " ++ s_encryption_algorithm s)).
Qed.

Lemma ikeproposal_decode_lines (nm : string) (bodies : list string) :
  sentinel_ok K = true ->
  Forall (fun l => plain l = true) (map set_line bodies) ->
  readIkeProposal_decode K nm (Join (map set_line bodies) LF)
  = readIkeProposal_loop (set_name zero nm) (map set_line bodies).
Proof.
  intros HK Hplain. unfold readIkeProposal_decode.
  rewrite (Join_set_lines_not_empty K bodies HK). cbn [negb].
  change (String "010" "") with LF. rewrite (Split_Join_lines _ Hplain).
  destruct (map set_line bodies); reflexivity.
Qed.

(** A line that is there when its value is set. *)
Ltac optional_line v keyword_text :=
  let Hv := fresh "Hv" in
  let Hl := fresh "Hl" in
  intros Hv; destruct (negb (String.eqb v "")); cbn [app]; [|reflexivity];
  pose proof (plain_set_line keyword_text v eq_refl Hv) as Hl;
  cbn [readIkeProposal_loop]; look_at_line Hl; keyword; reflexivity.

Lemma ikeproposal_method_line (c : ikeProposalOptions) (v : string) (rest : list string) :
  plain v = true ->
  readIkeProposal_loop c
    ((if negb (String.eqb v "") then [set_line ("authentication-method " ++ v)] else [])
     ++ rest)
  = readIkeProposal_loop
      (if negb (String.eqb v "") then set_authenticationMethod c v else c) rest.
Proof. optional_line v "authentication-method ". Qed.

Lemma ikeproposal_algorithm_line (c : ikeProposalOptions) (v : string) (rest : list string) :
  plain v = true ->
  readIkeProposal_loop c
    ((if negb (String.eqb v "") then [set_line ("authentication-algorithm " ++ v)] else [])
     ++ rest)
  = readIkeProposal_loop
      (if negb (String.eqb v "") then set_authenticationAlgorithm c v else c) rest.
Proof. optional_line v "authentication-algorithm ". Qed.

Lemma ikeproposal_dh_line (c : ikeProposalOptions) (v : string) (rest : list string) :
  plain v = true ->
  readIkeProposal_loop c
    ((if negb (String.eqb v "") then [set_line ("dh-group " ++ v)] else []) ++ rest)
  = readIkeProposal_loop (if negb (String.eqb v "") then set_dhGroup c v else c) rest.
Proof. optional_line v "dh-group ". Qed.

Lemma ikeproposal_encryption_line (c : ikeProposalOptions) (v : string) (rest : list string) :
  plain v = true ->
  readIkeProposal_loop c
    ((if negb (String.eqb v "") then [set_line ("encryption-algorithm " ++ v)] else [])
     ++ rest)
  = readIkeProposal_loop
      (if negb (String.eqb v "") then set_encryptionAlgorithm c v else c) rest.
Proof. optional_line v "encryption-algorithm ". Qed.

Lemma in_int_range_bounds (i : Z) :
  in_int_range i = true -> (strconv.minInt <= i <= strconv.maxInt)%Z.
Proof.
  unfold in_int_range. intros H. apply andb_true_iff in H as [Hlo Hhi].
  apply Z.leb_le in Hlo, Hhi. now split.
Qed.

Lemma ikeproposal_lifetime_line (c : ikeProposalOptions) (i : Z) (rest : list string) :
  in_int_range i = true ->
  readIkeProposal_loop c
    ((if negb (Z.eqb i 0) then [set_line ("lifetime-seconds " ++ strconv.Itoa i)] else [])
     ++ rest)
  = readIkeProposal_loop (if negb (Z.eqb i 0) then set_lifetimeSeconds c i else c) rest.
Proof.
  intros Hi. destruct (negb (Z.eqb i 0)); cbn [app]; [|reflexivity].
  pose proof (plain_set_line "lifetime-seconds " _ eq_refl (plain_Itoa i)) as Hl.
  cbn [readIkeProposal_loop]. look_at_line Hl. keyword.
  rewrite (StrconvFacts.Atoi_Itoa i (in_int_range_bounds i Hi)). reflexivity.
Qed.

Lemma optional_plain (keyword_text v : string) (b : bool) :
  all_bytes ordinary keyword_text = true -> plain v = true ->
  Forall (fun l => plain l = true)
    (map set_line (if b then [(keyword_text ++ v)%string] else [])).
Proof.
  intros Hk Hv. destruct b; constructor; [|constructor]. now apply plain_set_line.
Qed.

Lemma ikeproposal_relative_plain (s : schema) :
  well_formed s = true ->
  Forall (fun l => plain l = true) (map set_line (relative_bodies s)).
Proof.
  unfold well_formed, relative_bodies. intros Hwf.
  do 4 (let H := fresh "Hw" in apply andb_true_iff in Hwf as [Hwf H]).
  rewrite !map_app.
  repeat (apply Forall_app; split);
    apply optional_plain; auto using plain_Itoa.
Qed.

Lemma ikeproposal_roundtrip (s : schema) :
  sentinel_ok K = true -> well_formed s = true -> decode_encode K s = (s, None).
Proof.
  intros HK Hwf. unfold decode_encode.
  rewrite ikeproposal_display,
    (ikeproposal_decode_lines _ _ HK (ikeproposal_relative_plain s Hwf)).
  unfold well_formed in Hwf.
  do 4 (let H := fresh "Hw" in apply andb_true_iff in Hwf as [Hwf H]).
  unfold relative_bodies. rewrite !map_app.
  repeat match goal with
         | |- context [map set_line (if ?b then [?x] else [])] =>
             replace (map set_line (if b then [x] else []))
               with (if b then [set_line x] else []) by now destruct b
         end.
  rewrite ikeproposal_method_line, ikeproposal_algorithm_line, ikeproposal_dh_line,
    ikeproposal_encryption_line by assumption.
  rewrite <- (app_nil_r (if negb (s_lifetime_seconds s =? 0)%Z then _ else _)).
  rewrite ikeproposal_lifetime_line by assumption.
  cbn [readIkeProposal_loop fst snd]. f_equal.
  destruct s as [nm alg meth dh enc life]; cbn in *.
  destruct (String.eqb_spec meth ""), (String.eqb_spec alg ""), (String.eqb_spec dh ""),
    (String.eqb_spec enc ""), (Z.eqb_spec life 0); subst; reflexivity.
Qed.

End IkeProposalRoundTrip.


(** *** junos_security_ike_policy *)

Section IkePolicyRoundTrip.
Import IkePolicy.
Context (K : Constants) (jdecode_Decode : string -> string * option error).

Lemma ikepolicy_configSet (s : schema) :
  mode_known s = true ->
  setIkePolicy_configSet s
  = inl ((if negb (String.eqb (s_mode s) "")
          then [("set security ike policy " ++ s_name s ++ " mode " ++ s_mode s)%string]
          else [])
         ++ map (fun v => ("set security ike policy " ++ s_name s ++ " proposals " ++ v)%string)
              (s_proposals s)
         ++ (if negb (String.eqb (s_pre_shared_key_text s) "")
             then [("set security ike policy " ++ s_name s ++ " pre-shared-key ascii-text "
                    ++ s_pre_shared_key_text s)%string]
             else [])
         ++ (if negb (String.eqb (s_pre_shared_key_hexa s) "")
             then [("set security ike policy " ++ s_name s ++ " pre-shared-key hexadecimal "
                    ++ s_pre_shared_key_hexa s)%string]
             else [])).
Proof.
  unfold mode_known, setIkePolicy_configSet. intros Hmode.
  destruct (String.eqb (s_mode s) ""), (String.eqb (s_mode s) "main"),
    (String.eqb (s_mode s) "aggressive"); try discriminate Hmode; cbn [negb andb];
    rewrite !append_assoc; reflexivity.
Qed.

Lemma ikepolicy_display (s : schema) (configSet : list string) :
  setIkePolicy_configSet s = inl configSet ->
  display_set_relative (path (s_name s)) configSet
  = Join (map set_line (relative_bodies s)) LF.
Proof.
  unfold setIkePolicy_configSet.
  destruct (_ && _); [discriminate|]. intros [= <-].
  unfold display_set_relative, relative_bodies, path.
  f_equal. rewrite !map_app, !map_map.
  f_equal; [|f_equal; [|f_equal]].
  - destruct (negb _); [cbn [map]; f_equal|reflexivity].
    apply (relative_line ("security ike policy " ++ s_name s) ("mode " ++ s_mode s)).
  - apply map_ext. intros v.
    apply (relative_line ("security ike policy " ++ s_name s) ("proposals " ++ v)).
  - destruct (negb _); [cbn [map]; f_equal|reflexivity].
    apply (relative_line ("security ike policy " ++ s_name s)
             ("pre-shared-key ascii-text " ++ s_pre_shared_key_text s)).
  - destruct (negb _); [cbn [map]; f_equal|reflexivity].
    apply (relative_line ("security ike policy " ++ s_name s)
             ("pre-shared-key hexadecimal " ++ s_pre_shared_key_hexa s)).
Qed.

Lemma ikepolicy_decode_lines (nm : string) (bodies : list string) :
  sentinel_ok K = true ->
  Forall (fun l => plain l = true) (map set_line bodies) ->
  readIkePolicy_decode K jdecode_Decode nm (Join (map set_line bodies) LF)
  = readIkePolicy_loop jdecode_Decode (set_name zero nm) (map set_line bodies).
Proof.
  intros HK Hplain. unfold readIkePolicy_decode.
  rewrite (Join_set_lines_not_empty K bodies HK). cbn [negb].
  change (String "010" "") with LF. rewrite (Split_Join_lines _ Hplain).
  destruct (map set_line bodies); reflexivity.
Qed.

Lemma ikepolicy_mode_line (c : ikePolicyOptions) (v : string) (rest : list string) :
  plain v = true ->
  readIkePolicy_loop jdecode_Decode c
    ((if negb (String.eqb v "") then [set_line ("mode " ++ v)] else []) ++ rest)
  = readIkePolicy_loop jdecode_Decode
      (if negb (String.eqb v "") then set_mode c v else c) rest.
Proof.
  intros Hv; destruct (negb (String.eqb v "")); cbn [app]; [|reflexivity].
  pose proof (plain_set_line "mode " v eq_refl Hv) as Hl.
  cbn [readIkePolicy_loop]. look_at_line Hl. keyword. reflexivity.
Qed.

Lemma ikepolicy_proposals_lines (c : ikePolicyOptions) (vs rest : list string) :
  forallb plain vs = true ->
  readIkePolicy_loop jdecode_Decode c
    (map set_line (map (fun v => ("proposals " ++ v)%string) vs) ++ rest)
  = readIkePolicy_loop jdecode_Decode (set_proposals c (proposals c ++ vs)) rest.
Proof.
  revert c; induction vs as [|v vs IH]; intros c Hvs.
  - cbn [map app]. rewrite app_nil_r. now destruct c.
  - cbn [forallb] in Hvs. apply andb_true_iff in Hvs as [Hv Hvs].
    pose proof (plain_set_line "proposals " v eq_refl Hv) as Hl.
    cbn [map app readIkePolicy_loop]. look_at_line Hl. keyword.
    rewrite (IH _ Hvs). unfold set_proposals. cbn [proposals name mode
      preSharedKeyText preSharedKeyHexa].
    now rewrite <- app_assoc.
Qed.

Lemma ikepolicy_text_line (c : ikePolicyOptions) (v : string) (rest : list string) :
  plain v = true -> decodes_to_itself jdecode_Decode v ->
  readIkePolicy_loop jdecode_Decode c
    ((if negb (String.eqb v "")
      then [set_line ("pre-shared-key ascii-text " ++ v)] else []) ++ rest)
  = readIkePolicy_loop jdecode_Decode
      (if negb (String.eqb v "") then set_preSharedKeyText c v else c) rest.
Proof.
  intros Hv Hdec. destruct (String.eqb_spec v "") as [Hempty|Hset]; cbn [negb app];
    [reflexivity|].
  destruct Hdec as [Hempty|Hdec]; [contradiction|].
  pose proof (plain_set_line "pre-shared-key ascii-text " v eq_refl Hv) as Hl.
  cbn [readIkePolicy_loop]. look_at_line Hl. keyword. rewrite Hdec. reflexivity.
Qed.

Lemma ikepolicy_hexa_line (c : ikePolicyOptions) (v : string) (rest : list string) :
  plain v = true -> decodes_to_itself jdecode_Decode v ->
  readIkePolicy_loop jdecode_Decode c
    ((if negb (String.eqb v "")
      then [set_line ("pre-shared-key hexadecimal " ++ v)] else []) ++ rest)
  = readIkePolicy_loop jdecode_Decode
      (if negb (String.eqb v "") then set_preSharedKeyHexa c v else c) rest.
Proof.
  intros Hv Hdec. destruct (String.eqb_spec v "") as [Hempty|Hset]; cbn [negb app];
    [reflexivity|].
  destruct Hdec as [Hempty|Hdec]; [contradiction|].
  pose proof (plain_set_line "pre-shared-key hexadecimal " v eq_refl Hv) as Hl.
  cbn [readIkePolicy_loop]. look_at_line Hl. keyword. rewrite Hdec. reflexivity.
Qed.

Lemma ikepolicy_relative_plain (s : schema) :
  plain_fields s = true ->
  Forall (fun l => plain l = true) (map set_line (relative_bodies s)).
Proof.
  unfold plain_fields, relative_bodies. intros Hwf.
  do 3 (let H := fresh "Hw" in apply andb_true_iff in Hwf as [Hwf H]).
  rewrite !map_app.
  repeat (apply Forall_app; split); try (apply optional_plain; auto).
  rewrite forallb_forall in Hw1. rewrite !Forall_map. apply Forall_forall.
  intros v Hv. apply plain_set_line; auto.
Qed.

Lemma ikepolicy_roundtrip (s : schema) :
  sentinel_ok K = true -> plain_fields s = true -> mode_known s = true ->
  decodes_to_itself jdecode_Decode (s_pre_shared_key_text s) ->
  decodes_to_itself jdecode_Decode (s_pre_shared_key_hexa s) ->
  decode_encode K jdecode_Decode s = Some (s, None).
Proof.
  intros HK Hwf Hmode Htext Hhexa. unfold decode_encode.
  pose proof (ikepolicy_configSet s Hmode) as Hset.
  rewrite Hset, (ikepolicy_display s _ Hset),
    (ikepolicy_decode_lines _ _ HK (ikepolicy_relative_plain s Hwf)).
  unfold plain_fields in Hwf.
  do 3 (let H := fresh "Hw" in apply andb_true_iff in Hwf as [Hwf H]).
  unfold relative_bodies. rewrite !map_app.
  repeat match goal with
         | |- context [map set_line (if ?b then [?x] else [])] =>
             replace (map set_line (if b then [x] else []))
               with (if b then [set_line x] else []) by now destruct b
         end.
  rewrite ikepolicy_mode_line, ikepolicy_proposals_lines, ikepolicy_text_line
    by assumption.
  rewrite <- (app_nil_r (if negb (String.eqb (s_pre_shared_key_hexa s) "") then _ else _)).
  rewrite ikepolicy_hexa_line by assumption.
  cbn [readIkePolicy_loop fst snd]. do 2 f_equal.
  destruct s as [nm props md text hexa]; cbn in *.
  destruct (String.eqb_spec md ""), (String.eqb_spec text ""), (String.eqb_spec hexa "");
    subst; reflexivity.
Qed.

End IkePolicyRoundTrip.


(** *** junos_ospf_area *)

Section OspfAreaRoundTrip.
Import OspfArea MergeFacts.
Context (K : Constants).

Lemma ospf_setPrefix (s : schema) :
  setOspfArea_setPrefix K s = (setLineStart ++ path K s ++ " ")%string.
Proof.
  unfold setOspfArea_setPrefix, path.
  destruct (String.eqb (s_routing_instance s) (defaultWord K));
    rewrite !append_assoc; reflexivity.
Qed.

Lemma relative_block_line (p block field : string) :
  (setLineStart ++ TrimPrefix (((setLineStart ++ p ++ " ") ++ block) ++ field)
                     (setLineStart ++ p ++ " "))%string
  = set_line (block ++ field).
Proof. now rewrite (append_assoc (setLineStart ++ p ++ " ")), TrimPrefix_app. Qed.

Lemma ospf_relative_interface (p : string) (i : ospfInterface) :
  map (fun line => (setLineStart ++ TrimPrefix line (setLineStart ++ p ++ " "))%string)
      (setOspfArea_interface (setLineStart ++ p ++ " ") i)
  = map set_line (relative_bodies_interface i).
Proof.
  unfold setOspfArea_interface, relative_bodies_interface.
  rewrite !map_app.
  repeat (f_equal;
          [match goal with
           | |- context [if ?b then _ else _] => destruct b
           end; [cbn [map]; f_equal; apply relative_block_line | reflexivity]|]).
  match goal with |- context [if ?b then _ else _] => destruct b end;
    [cbn [map]; f_equal; apply relative_block_line | reflexivity].
Qed.

Lemma ospf_display (s : schema) :
  display_set_relative (path K s) (setOspfArea_configSet K s)
  = Join (map set_line (relative_bodies (s_interface s))) LF.
Proof.
  unfold display_set_relative, setOspfArea_configSet, relative_bodies.
  rewrite ospf_setPrefix. f_equal.
  induction (s_interface s) as [|i l IH]; [reflexivity|].
  cbn [flat_map]. rewrite !map_app, IH. f_equal. apply ospf_relative_interface.
Qed.

Lemma ospf_decode_lines (idArea version routingInstance : string) (bodies : list string) :
  sentinel_ok K = true ->
  Forall (fun l => plain l = true) (map set_line bodies) ->
  readOspfArea_decode K idArea version routingInstance (Join (map set_line bodies) LF)
  = readOspfArea_loop
      {| areaID := idArea; routingInstance := routingInstance; version := version;
         interFace := [] |}
      (map set_line bodies).
Proof.
  intros HK Hplain. unfold readOspfArea_decode.
  rewrite (Join_set_lines_not_empty K bodies HK). cbn [negb].
  change (String "010" "") with LF. rewrite (Split_Join_lines _ Hplain).
  destruct (map set_line bodies); reflexivity.
Qed.

(** The bytes of a name in one piece. *)
Lemma token_ordinary (v : string) : token v = true -> all_bytes ordinary v = true.
Proof.
  induction v as [|c v IH]; [reflexivity|]. cbn [token all_bytes]. intros H.
  apply andb_true_iff in H as [H Hv]. apply andb_true_iff in H as [H Hlt].
  apply andb_true_iff in H as [Hsp Hlf].
  unfold ordinary at 1. now rewrite Hlt, Hlf, IH.
Qed.

Lemma token_no_space (v : string) : token v = true -> Contains v " " = false.
Proof.
  intros Hv. rewrite Contains_byte. apply negb_false_iff.
  induction v as [|c v IH]; [reflexivity|]. cbn [token all_bytes] in *.
  apply andb_true_iff in Hv as [H Hv]. apply andb_true_iff in H as [H _].
  apply andb_true_iff in H as [Hsp _]. now rewrite Hsp, IH.
Qed.

(** The key of a line of the block, and what follows the key. *)
Lemma block_line_prefix (n field : string) :
  HasPrefix (("interface " ++ n ++ " ") ++ field)%string "interface " = true.
Proof. rewrite !append_assoc. apply HasPrefix_app. Qed.

Lemma block_line_key (n field : string) :
  token n = true -> block_key (("interface " ++ n ++ " ") ++ field)%string = n.
Proof.
  intros Hn. unfold block_key.
  replace (("interface " ++ n ++ " ") ++ field)%string
    with ("interface " ++ (n ++ String " " field))%string
    by (rewrite !append_assoc; reflexivity).
  rewrite TrimPrefix_app, (Split_app_sep " " n field (token_no_space n Hn)).
  reflexivity.
Qed.

Lemma block_line_rest (n field : string) :
  token n = true -> block_rest (("interface " ++ n ++ " ") ++ field)%string = field.
Proof.
  intros Hn. unfold block_rest. rewrite (block_line_key n field Hn).
  apply TrimPrefix_app.
Qed.

(** The element a line goes on with: the one of its key when the list ends
    with it, a new one when the list has none. *)
Lemma copyAndRemove_current (n : string) (l : list ospfInterface) (e : bool)
    (p : ospfInterface) :
  ~ In n (names l) -> name p = n -> (e = false -> p = interfaceOptions_new n) ->
  copyAndRemoveItemMapList name (interfaceOptions_new n) (l ++ if e then [p] else [])
  = (p, l).
Proof.
  intros Hnot Hp Hnew. destruct e.
  - now apply copyAndRemove_last.
  - rewrite app_nil_r, (Hnew eq_refl). now apply copyAndRemove_notin.
Qed.


Lemma ordinary_Itoa (i : Z) : all_bytes ordinary (strconv.Itoa i) = true.
Proof.
  apply (all_bytes_weaken is_digit_or_minus); [|apply StrconvFacts.Itoa_bytes].
  intros c Hc.
  destruct c as [[|] [|] [|] [|] [|] [|] [|] [|]]; try discriminate Hc; reflexivity.
Qed.

Lemma plain_block_line (n field : string) :
  token n = true -> all_bytes ordinary field = true ->
  plain (set_line (("interface " ++ n ++ " ") ++ field)) = true.
Proof.
  intros Hn Hf. apply plain_ordinary. unfold set_line.
  rewrite !all_bytes_app, (token_ordinary n Hn), Hf. reflexivity.
Qed.

(** One line of the block for the interface that is being read. *)
Ltac block_line Hn Hnot Hp Hnew Hfield :=
  let Hl := fresh "Hl" in
  pose proof (plain_block_line _ _ Hn Hfield) as Hl;
  cbn [readOspfArea_loop]; look_at_line Hl;
  rewrite block_line_prefix;
  unfold readOspfArea_interface;
  match goal with
  | |- context [strings.Split (TrimPrefix ?body "interface ") " "] =>
      fold (block_key body); fold (block_rest body)
  end;
  rewrite (block_line_key _ _ Hn), (block_line_rest _ _ Hn);
  cbn [interFace set_interFace];
  rewrite (copyAndRemove_current _ _ _ _ Hnot Hp Hnew);
  keyword.

Lemma ospf_disable_line (c : ospfAreaOptions) (l : list ospfInterface) (e : bool)
    (p : ospfInterface) (n : string) (rest : list string) :
  token n = true -> ~ In n (names l) -> reading_of n e p ->
  readOspfArea_loop (reading c l e p)
    (set_line (("interface " ++ n ++ " ") ++ "disable") :: rest)
  = readOspfArea_loop (reading c l true (set_disable p true)) rest.
Proof.
  intros Hn Hnot [Hp Hnew]. unfold reading.
  block_line Hn Hnot Hp Hnew (eq_refl : all_bytes ordinary "disable" = true).
  reflexivity.
Qed.

(** The line is there when the field is set. *)
Lemma ospf_disable_lines (c : ospfAreaOptions) (l : list ospfInterface) (e : bool)
    (p : ospfInterface) (n : string) (b : bool) (rest : list string) :
  token n = true -> ~ In n (names l) -> reading_of n e p ->
  readOspfArea_loop (reading c l e p)
    (map set_line (if b then [(("interface " ++ n ++ " ") ++ "disable")%string] else [])
     ++ rest)
  = readOspfArea_loop (reading c l (e || b) (if b then set_disable p true else p)) rest
  /\ reading_of n (e || b) (if b then set_disable p true else p).
Proof.
  intros Hn Hnot Hinv. destruct (b); cbn [map app].
  - rewrite orb_true_r. split; [now apply ospf_disable_line|].
    destruct Hinv as [Hp _]. split; [exact Hp | discriminate].
  - rewrite orb_false_r. now split.
Qed.

Lemma ospf_passive_line (c : ospfAreaOptions) (l : list ospfInterface) (e : bool)
    (p : ospfInterface) (n : string) (rest : list string) :
  token n = true -> ~ In n (names l) -> reading_of n e p ->
  readOspfArea_loop (reading c l e p)
    (set_line (("interface " ++ n ++ " ") ++ "passive") :: rest)
  = readOspfArea_loop (reading c l true (set_passive p true)) rest.
Proof.
  intros Hn Hnot [Hp Hnew]. unfold reading.
  block_line Hn Hnot Hp Hnew (eq_refl : all_bytes ordinary "passive" = true).
  reflexivity.
Qed.

(** The line is there when the field is set. *)
Lemma ospf_passive_lines (c : ospfAreaOptions) (l : list ospfInterface) (e : bool)
    (p : ospfInterface) (n : string) (b : bool) (rest : list string) :
  token n = true -> ~ In n (names l) -> reading_of n e p ->
  readOspfArea_loop (reading c l e p)
    (map set_line (if b then [(("interface " ++ n ++ " ") ++ "passive")%string] else [])
     ++ rest)
  = readOspfArea_loop (reading c l (e || b) (if b then set_passive p true else p)) rest
  /\ reading_of n (e || b) (if b then set_passive p true else p).
Proof.
  intros Hn Hnot Hinv. destruct (b); cbn [map app].
  - rewrite orb_true_r. split; [now apply ospf_passive_line|].
    destruct Hinv as [Hp _]. split; [exact Hp | discriminate].
  - rewrite orb_false_r. now split.
Qed.

Lemma ospf_metric_line (c : ospfAreaOptions) (l : list ospfInterface) (e : bool)
    (p : ospfInterface) (n : string) (v : Z) (rest : list string) :
  token n = true -> ~ In n (names l) -> reading_of n e p ->
  in_int_range v = true ->
  readOspfArea_loop (reading c l e p)
    (set_line (("interface " ++ n ++ " ") ++ ("metric " ++ strconv.Itoa v)) :: rest)
  = readOspfArea_loop (reading c l true (set_metric p v)) rest.
Proof.
  intros Hn Hnot [Hp Hnew] Hv. unfold reading.
  assert (Hfield : all_bytes ordinary ("metric " ++ strconv.Itoa v) = true)
    by (rewrite all_bytes_app, ordinary_Itoa; reflexivity).
  block_line Hn Hnot Hp Hnew Hfield.
  rewrite (StrconvFacts.Atoi_Itoa v (in_int_range_bounds v Hv)). reflexivity.
Qed.

(** The line is there when the field is set. *)
Lemma ospf_metric_lines (c : ospfAreaOptions) (l : list ospfInterface) (e : bool)
    (p : ospfInterface) (n : string) (v : Z) (rest : list string) :
  token n = true -> ~ In n (names l) -> reading_of n e p ->
  in_int_range v = true ->
  readOspfArea_loop (reading c l e p)
    (map set_line (if negb (Z.eqb v 0) then [(("interface " ++ n ++ " ") ++ ("metric " ++ strconv.Itoa v))%string] else [])
     ++ rest)
  = readOspfArea_loop (reading c l (e || negb (Z.eqb v 0)) (if negb (Z.eqb v 0) then set_metric p v else p)) rest
  /\ reading_of n (e || negb (Z.eqb v 0)) (if negb (Z.eqb v 0) then set_metric p v else p).
Proof.
  intros Hn Hnot Hinv Hv. destruct (negb (Z.eqb v 0)); cbn [map app].
  - rewrite orb_true_r. split; [now apply ospf_metric_line|].
    destruct Hinv as [Hp _]. split; [exact Hp | discriminate].
  - rewrite orb_false_r. now split.
Qed.

Lemma ospf_hello_interval_line (c : ospfAreaOptions) (l : list ospfInterface) (e : bool)
    (p : ospfInterface) (n : string) (v : Z) (rest : list string) :
  token n = true -> ~ In n (names l) -> reading_of n e p ->
  in_int_range v = true ->
  readOspfArea_loop (reading c l e p)
    (set_line (("interface " ++ n ++ " ") ++ ("hello-interval " ++ strconv.Itoa v)) :: rest)
  = readOspfArea_loop (reading c l true (set_hello_interval p v)) rest.
Proof.
  intros Hn Hnot [Hp Hnew] Hv. unfold reading.
  assert (Hfield : all_bytes ordinary ("hello-interval " ++ strconv.Itoa v) = true)
    by (rewrite all_bytes_app, ordinary_Itoa; reflexivity).
  block_line Hn Hnot Hp Hnew Hfield.
  rewrite (StrconvFacts.Atoi_Itoa v (in_int_range_bounds v Hv)). reflexivity.
Qed.

(** The line is there when the field is set. *)
Lemma ospf_hello_interval_lines (c : ospfAreaOptions) (l : list ospfInterface) (e : bool)
    (p : ospfInterface) (n : string) (v : Z) (rest : list string) :
  token n = true -> ~ In n (names l) -> reading_of n e p ->
  in_int_range v = true ->
  readOspfArea_loop (reading c l e p)
    (map set_line (if negb (Z.eqb v 0) then [(("interface " ++ n ++ " ") ++ ("hello-interval " ++ strconv.Itoa v))%string] else [])
     ++ rest)
  = readOspfArea_loop (reading c l (e || negb (Z.eqb v 0)) (if negb (Z.eqb v 0) then set_hello_interval p v else p)) rest
  /\ reading_of n (e || negb (Z.eqb v 0)) (if negb (Z.eqb v 0) then set_hello_interval p v else p).
Proof.
  intros Hn Hnot Hinv Hv. destruct (negb (Z.eqb v 0)); cbn [map app].
  - rewrite orb_true_r. split; [now apply ospf_hello_interval_line|].
    destruct Hinv as [Hp _]. split; [exact Hp | discriminate].
  - rewrite orb_false_r. now split.
Qed.

Lemma ospf_retransmit_interval_line (c : ospfAreaOptions) (l : list ospfInterface) (e : bool)
    (p : ospfInterface) (n : string) (v : Z) (rest : list string) :
  token n = true -> ~ In n (names l) -> reading_of n e p ->
  in_int_range v = true ->
  readOspfArea_loop (reading c l e p)
    (set_line (("interface " ++ n ++ " ") ++ ("retransmit-interval " ++ strconv.Itoa v)) :: rest)
  = readOspfArea_loop (reading c l true (set_retransmit_interval p v)) rest.
Proof.
  intros Hn Hnot [Hp Hnew] Hv. unfold reading.
  assert (Hfield : all_bytes ordinary ("retransmit-interval " ++ strconv.Itoa v) = true)
    by (rewrite all_bytes_app, ordinary_Itoa; reflexivity).
  block_line Hn Hnot Hp Hnew Hfield.
  rewrite (StrconvFacts.Atoi_Itoa v (in_int_range_bounds v Hv)). reflexivity.
Qed.

(** The line is there when the field is set. *)
Lemma ospf_retransmit_interval_lines (c : ospfAreaOptions) (l : list ospfInterface) (e : bool)
    (p : ospfInterface) (n : string) (v : Z) (rest : list string) :
  token n = true -> ~ In n (names l) -> reading_of n e p ->
  in_int_range v = true ->
  readOspfArea_loop (reading c l e p)
    (map set_line (if negb (Z.eqb v 0) then [(("interface " ++ n ++ " ") ++ ("retransmit-interval " ++ strconv.Itoa v))%string] else [])
     ++ rest)
  = readOspfArea_loop (reading c l (e || negb (Z.eqb v 0)) (if negb (Z.eqb v 0) then set_retransmit_interval p v else p)) rest
  /\ reading_of n (e || negb (Z.eqb v 0)) (if negb (Z.eqb v 0) then set_retransmit_interval p v else p).
Proof.
  intros Hn Hnot Hinv Hv. destruct (negb (Z.eqb v 0)); cbn [map app].
  - rewrite orb_true_r. split; [now apply ospf_retransmit_interval_line|].
    destruct Hinv as [Hp _]. split; [exact Hp | discriminate].
  - rewrite orb_false_r. now split.
Qed.

Lemma ospf_dead_interval_line (c : ospfAreaOptions) (l : list ospfInterface) (e : bool)
    (p : ospfInterface) (n : string) (v : Z) (rest : list string) :
  token n = true -> ~ In n (names l) -> reading_of n e p ->
  in_int_range v = true ->
  readOspfArea_loop (reading c l e p)
    (set_line (("interface " ++ n ++ " ") ++ ("dead-interval " ++ strconv.Itoa v)) :: rest)
  = readOspfArea_loop (reading c l true (set_dead_interval p v)) rest.
Proof.
  intros Hn Hnot [Hp Hnew] Hv. unfold reading.
  assert (Hfield : all_bytes ordinary ("dead-interval " ++ strconv.Itoa v) = true)
    by (rewrite all_bytes_app, ordinary_Itoa; reflexivity).
  block_line Hn Hnot Hp Hnew Hfield.
  rewrite (StrconvFacts.Atoi_Itoa v (in_int_range_bounds v Hv)). reflexivity.
Qed.

(** The line is there when the field is set. *)
Lemma ospf_dead_interval_lines (c : ospfAreaOptions) (l : list ospfInterface) (e : bool)
    (p : ospfInterface) (n : string) (v : Z) (rest : list string) :
  token n = true -> ~ In n (names l) -> reading_of n e p ->
  in_int_range v = true ->
  readOspfArea_loop (reading c l e p)
    (map set_line (if negb (Z.eqb v 0) then [(("interface " ++ n ++ " ") ++ ("dead-interval " ++ strconv.Itoa v))%string] else [])
     ++ rest)
  = readOspfArea_loop (reading c l (e || negb (Z.eqb v 0)) (if negb (Z.eqb v 0) then set_dead_interval p v else p)) rest
  /\ reading_of n (e || negb (Z.eqb v 0)) (if negb (Z.eqb v 0) then set_dead_interval p v else p).
Proof.
  intros Hn Hnot Hinv Hv. destruct (negb (Z.eqb v 0)); cbn [map app].
  - rewrite orb_true_r. split; [now apply ospf_dead_interval_line|].
    destruct Hinv as [Hp _]. split; [exact Hp | discriminate].
  - rewrite orb_false_r. now split.
Qed.

Lemma well_formed_interface_parts (i : ospfInterface) :
  well_formed_interface i = true ->
  token (name i) = true /\ has_explicit_field i = true
  /\ in_int_range (metric i) = true /\ in_int_range (hello_interval i) = true
  /\ in_int_range (retransmit_interval i) = true
  /\ in_int_range (dead_interval i) = true.
Proof.
  unfold well_formed_interface. intros H.
  do 5 (let Hw := fresh "Hw" in apply andb_true_iff in H as [H Hw]). auto 7.
Qed.

(** The lines of one interface, read after the interfaces of [l]. *)
Ltac next_field lemma c l n Hn Hnot Hinv :=
  match goal with
  | |- readOspfArea_loop (reading c l ?e ?p) (map set_line (if ?b then _ else _) ++ ?rest) = _ =>
      let Heq := fresh "Heq" in
      let Hinv' := fresh "Hinv" in
      destruct (lemma e p rest) as [Heq Hinv']; [exact Hn | exact Hnot | exact Hinv | ..];
      [try assumption .. | rewrite Heq; clear Heq Hinv; rename Hinv' into Hinv]
  end.

Lemma ospf_interface_lines (c : ospfAreaOptions) (l : list ospfInterface)
    (i : ospfInterface) (rest : list string) :
  ~ In (name i) (names l) -> well_formed_interface i = true ->
  readOspfArea_loop (set_interFace c l)
    (map set_line (relative_bodies_interface i) ++ rest)
  = readOspfArea_loop (set_interFace c (l ++ [i])) rest.
Proof.
  intros Hnot Hwf.
  destruct (well_formed_interface_parts i Hwf) as (Hn & Hfield & Hm & Hh & Hr & Hd).
  unfold relative_bodies_interface. cbv zeta. rewrite !map_app, <- !app_assoc.
  replace (set_interFace c l)
    with (reading c l false (interfaceOptions_new (name i)))
    by (unfold reading; now rewrite app_nil_r).
  assert (Hinv : reading_of (name i) false (interfaceOptions_new (name i)))
    by (split; auto).
  next_field (fun e p rest => ospf_disable_lines c l e p (name i) (disable i) rest)
    c l (name i) Hn Hnot Hinv.
  next_field (fun e p rest => ospf_passive_lines c l e p (name i) (passive i) rest)
    c l (name i) Hn Hnot Hinv.
  next_field (fun e p rest => ospf_metric_lines c l e p (name i) (metric i) rest)
    c l (name i) Hn Hnot Hinv.
  next_field (fun e p rest =>
                ospf_hello_interval_lines c l e p (name i) (hello_interval i) rest)
    c l (name i) Hn Hnot Hinv.
  next_field (fun e p rest =>
                ospf_retransmit_interval_lines c l e p (name i) (retransmit_interval i) rest)
    c l (name i) Hn Hnot Hinv.
  next_field (fun e p rest =>
                ospf_dead_interval_lines c l e p (name i) (dead_interval i) rest)
    c l (name i) Hn Hnot Hinv.
  cbn [orb]. unfold has_explicit_field in Hfield. rewrite Hfield.
  unfold reading. do 3 f_equal.
  clear - i. destruct i as [n d p m h r dd]; cbn.
  destruct d, p, (Z.eqb_spec m 0), (Z.eqb_spec h 0), (Z.eqb_spec r 0), (Z.eqb_spec dd 0);
    subst; reflexivity.
Qed.

Lemma ospf_interfaces_lines (c : ospfAreaOptions) (ifs l : list ospfInterface) :
  NoDup (names (l ++ ifs)) -> forallb well_formed_interface ifs = true ->
  readOspfArea_loop (set_interFace c l) (map set_line (relative_bodies ifs))
  = (set_interFace c (l ++ ifs), None).
Proof.
  revert l; induction ifs as [|i ifs IH]; intros l Hnd Hwf.
  - cbn. now rewrite app_nil_r.
  - cbn [forallb] in Hwf. apply andb_true_iff in Hwf as [Hi Hwf].
    unfold relative_bodies in *. cbn [flat_map]. rewrite map_app.
    rewrite ospf_interface_lines; [| |exact Hi].
    + replace (l ++ i :: ifs) with ((l ++ [i]) ++ ifs) in * by (now rewrite <- app_assoc).
      now apply IH.
    + unfold names in Hnd. rewrite map_app in Hnd. cbn [map] in Hnd.
      apply NoDup_remove_2 in Hnd. intros Hin. apply Hnd.
      apply in_or_app. now left.
Qed.

Lemma ospf_interface_plain (i : ospfInterface) :
  well_formed_interface i = true ->
  Forall (fun l => plain l = true) (map set_line (relative_bodies_interface i)).
Proof.
  intros Hwf.
  destruct (well_formed_interface_parts i Hwf) as (Hn & _).
  unfold relative_bodies_interface. cbv zeta. rewrite !map_app.
  repeat (apply Forall_app; split);
    match goal with |- context [if ?b then _ else _] => destruct b end;
    constructor; try constructor;
    apply (plain_block_line _ _ Hn);
    rewrite ?all_bytes_app, ?ordinary_Itoa; reflexivity.
Qed.

Lemma ospf_relative_plain (l : list ospfInterface) :
  forallb well_formed_interface l = true ->
  Forall (fun l => plain l = true) (map set_line (relative_bodies l)).
Proof.
  induction l as [|i l IH]; [constructor|].
  cbn [forallb]. intros Hwf. apply andb_true_iff in Hwf as [Hi Hwf].
  unfold relative_bodies in *. cbn [flat_map]. rewrite map_app.
  apply Forall_app. split; [now apply ospf_interface_plain | now apply IH].
Qed.

Lemma ospf_roundtrip (s : schema) :
  sentinel_ok K = true -> well_formed s -> decode_encode K s = (s, None).
Proof.
  intros HK [Hnd Hwf]. unfold decode_encode.
  rewrite ospf_display, (ospf_decode_lines _ _ _ _ HK (ospf_relative_plain _ Hwf)).
  change {| areaID := s_area_id s; routingInstance := s_routing_instance s;
            version := s_version s; interFace := [] |}
    with (set_interFace {| areaID := s_area_id s; routingInstance := s_routing_instance s;
                           version := s_version s; interFace := [] |} []).
  rewrite (ospf_interfaces_lines _ _ [] Hnd Hwf). cbn. now destruct s.
Qed.

End OspfAreaRoundTrip.

End RoundTripFacts.

(** C4, as the code has it.  With an empty word that is no configuration
    text, reading back the lines that were staged for a record gives the
    record, lists in their order: for the ipsec policy and the ike proposal
    when the texts are plain (one line, no marker) and the lifetime is a Go
    integer; for the ike policy when moreover the mode is one the set
    function takes and [jdecode.Decode] hands each pre-shared key that is set
    back as it was written; for the ospf area when the interfaces have
    different names, each name in one piece, each interface with a field
    that a line is written for, and integers of the Go type. *)
Theorem decode_encode_roundtrip (K : Constants)
    (jdecode_Decode : string -> string * option error) :
  sentinel_ok K = true ->
  (forall s, IpsecPolicy.well_formed s = true ->
             IpsecPolicy.decode_encode K s = (s, None))
  /\ (forall s, IkeProposal.well_formed s = true ->
                IkeProposal.decode_encode K s = (s, None))
  /\ (forall s, IkePolicy.plain_fields s = true -> IkePolicy.mode_known s = true ->
                IkePolicy.decodes_to_itself jdecode_Decode
                  (IkePolicy.s_pre_shared_key_text s) ->
                IkePolicy.decodes_to_itself jdecode_Decode
                  (IkePolicy.s_pre_shared_key_hexa s) ->
                IkePolicy.decode_encode K jdecode_Decode s = Some (s, None))
  /\ (forall s, OspfArea.well_formed s -> OspfArea.decode_encode K s = (s, None)).
Proof.
  intros HK. repeat split; intros.
  - now apply RoundTripFacts.ipsec_roundtrip.
  - now apply RoundTripFacts.ikeproposal_roundtrip.
  - now apply RoundTripFacts.ikepolicy_roundtrip.
  - now apply RoundTripFacts.ospf_roundtrip.
Qed.

Lemma decode_encode_roundtrip_witness :
  IpsecPolicy.decode_encode TestDevice.K (fields TestDevice.rd_ipsec)
  = (fields TestDevice.rd_ipsec, None)
  /\ OspfArea.decode_encode TestDevice.K
       (TestDevice.ospf_area
          [OspfArea.set_metric
             (OspfArea.set_passive (OspfArea.interfaceOptions_new "ge-0/0/0.0") true) 100;
           OspfArea.set_disable (OspfArea.interfaceOptions_new "ge-0/0/1.0") true])
     = (TestDevice.ospf_area
          [OspfArea.set_metric
             (OspfArea.set_passive (OspfArea.interfaceOptions_new "ge-0/0/0.0") true) 100;
           OspfArea.set_disable (OspfArea.interfaceOptions_new "ge-0/0/1.0") true],
        None).
Proof.
  split.
  - apply (proj1 (decode_encode_roundtrip TestDevice.K TestDevice.decode_refuses eq_refl)).
    reflexivity.
  - apply (proj2 (proj2 (proj2
             (decode_encode_roundtrip TestDevice.K TestDevice.decode_refuses eq_refl)))).
    split; [|reflexivity].
    repeat constructor; simpl; intuition discriminate.
Defined.

(** C4 as the spec has it fails for the ike policy, whatever
    [jdecode.Decode] does: the key a and the key a between double quotes are
    staged as they are, and read back through [strings.Trim] and
    [jdecode.Decode], which get the same text a for both; so one of the two
    records does not come back. *)
Lemma decode_encode_counterexample :
  ~ (exists jdecode_Decode,
        IkePolicy.decode_encode TestDevice.K jdecode_Decode (TestDevice.ike_policy "a")
        = Some (TestDevice.ike_policy "a", None)
        /\ IkePolicy.decode_encode TestDevice.K jdecode_Decode
             (TestDevice.ike_policy TestDevice.quoted_a)
           = Some (TestDevice.ike_policy TestDevice.quoted_a, None))
  /\ ~ (exists jdecode_Decode, IkePolicy.roundtrips TestDevice.K jdecode_Decode).
Proof.
  assert (Hpair :
    ~ (exists jdecode_Decode,
        IkePolicy.decode_encode TestDevice.K jdecode_Decode (TestDevice.ike_policy "a")
        = Some (TestDevice.ike_policy "a", None)
        /\ IkePolicy.decode_encode TestDevice.K jdecode_Decode
             (TestDevice.ike_policy TestDevice.quoted_a)
           = Some (TestDevice.ike_policy TestDevice.quoted_a, None))).
  { intros (Decode & H1 & H2).
    vm_compute in H1, H2.
    destruct (Decode "a") as [v [err|]]; [discriminate H1|].
    injection H1 as H1. injection H2 as H2. rewrite H1 in H2. discriminate H2. }
  split; [exact Hpair|].
  intros (Decode & Hall). apply Hpair. exists Decode. split; apply Hall; reflexivity.
Qed.

(** What the set lines of the ike policy with the key a read back as when
    the decoding refuses the text, as it does for a text that is no
    obfuscated secret. *)
Example decode_encode_secret_refused :
  IkePolicy.decode_encode TestDevice.K TestDevice.decode_refuses (TestDevice.ike_policy "a")
  = Some ({| IkePolicy.s_name := "POL1"; IkePolicy.s_proposals := ["p1"];
             IkePolicy.s_mode := "main"; IkePolicy.s_pre_shared_key_text := "";
             IkePolicy.s_pre_shared_key_hexa := "" |},
          Some (wrapError "failed to decode pre-shared-key ascii-text : "
                  (errorString "invalid junos secret"))).
Proof. reflexivity. Qed.

(** The ospf area left out of C4: an interface with its name only has no
    line, and is not read back. *)
Example decode_encode_name_only :
  OspfArea.decode_encode TestDevice.K
    (TestDevice.ospf_area [OspfArea.interfaceOptions_new "ge-0/0/0.0"])
  = (TestDevice.ospf_area [], None).
Proof. reflexivity. Qed.

(** ** The calls of the lifecycle functions *)

(** The steps of a run are unfolded, the imports and the lists of calls
    included. *)
Ltac unfold_run :=
  cbv beta iota zeta delta
    [bind ret run defer_closeSession sess_startNewSession sess_closeSession
     sess_configLock sess_configClear sess_command sess_configSet sess_commitConf
     record_call mutex_Lock mutex_Unlock d_Get d_Id d_SetId d_Partial d_Set d_self
     device d log fields Id partial trace rev app negb diag_FromErr fst snd
     answers_exists answers_absent
     is_SetId is_ConfigSet is_ConfigClear is_ConfigLock is_commit_ok
     is_Command is_CommitConf is_Mutex is_change
     configSets commands answers set_ids session_discipline mutex_discipline
     is_ConfigSet_refused before_commit after_commit
     existsb andb orb filter hd_error option_map firstn map Nat.eqb tl
     reads_only holds_mutex closes_sessions fails_at_start refuses_platform
     create_verified identity_when_verified deletes_blindly updates_in_order
     read_outcome
     import_result import_not_found import_fills
     IpsecPolicy.resourceIpsecPolicyCreate IpsecPolicy.resourceIpsecPolicyRead
     IpsecPolicy.resourceIpsecPolicyUpdate IpsecPolicy.resourceIpsecPolicyDelete
     IpsecPolicy.resourceIpsecPolicyImport
     IpsecPolicy.checkIpsecPolicyExists IpsecPolicy.setIpsecPolicy
     IpsecPolicy.readIpsecPolicy IpsecPolicy.delIpsecPolicy
     IpsecPolicy.fillIpsecPolicyData
     IkeProposal.resourceIkeProposalCreate IkeProposal.resourceIkeProposalRead
     IkeProposal.resourceIkeProposalUpdate IkeProposal.resourceIkeProposalDelete
     IkeProposal.resourceIkeProposalImport
     IkeProposal.checkIkeProposalExists IkeProposal.setIkeProposal
     IkeProposal.readIkeProposal IkeProposal.delIkeProposal
     IkeProposal.fillIkeProposalData
     IkePolicy.resourceIkePolicyCreate IkePolicy.resourceIkePolicyRead
     IkePolicy.resourceIkePolicyUpdate IkePolicy.resourceIkePolicyDelete
     IkePolicy.resourceIkePolicyImport
     IkePolicy.checkIkePolicyExists IkePolicy.setIkePolicy
     IkePolicy.readIkePolicy IkePolicy.delIkePolicy
     IkePolicy.fillIkePolicyData
     OspfArea.resourceOspfAreaCreate OspfArea.resourceOspfAreaRead
     OspfArea.resourceOspfAreaUpdate OspfArea.resourceOspfAreaDelete
     OspfArea.resourceOspfAreaImport
     OspfArea.checkOspfAreaExists OspfArea.setOspfArea
     OspfArea.readOspfArea OspfArea.delOspfArea
     OspfArea.fillOspfAreaData].

(** The next call of the run is answered in every way the collaborator can
    answer it; what a decoder or an encoder returned is kept as an
    equation. *)
Ltac answer_call :=
  match goal with
  | Hq : String.eqb ?a ?b = _ |- context [String.eqb ?a ?b] => rewrite Hq
  | Hq : Nat.ltb ?a ?b = _ |- context [Nat.ltb ?a ?b] => rewrite Hq
  | Hq : IkePolicy.setIkePolicy_configSet ?s = _
    |- context [IkePolicy.setIkePolicy_configSet ?s] => rewrite Hq
  | Hq : IpsecPolicy.readIpsecPolicy_decode ?k ?a ?b = _
    |- context [IpsecPolicy.readIpsecPolicy_decode ?k ?a ?b] => rewrite Hq
  | Hq : IkeProposal.readIkeProposal_decode ?k ?a ?b = _
    |- context [IkeProposal.readIkeProposal_decode ?k ?a ?b] => rewrite Hq
  | Hq : IkePolicy.readIkePolicy_decode ?k ?f ?a ?b = _
    |- context [IkePolicy.readIkePolicy_decode ?k ?f ?a ?b] => rewrite Hq
  | Hq : OspfArea.readOspfArea_decode ?k ?a ?b ?c ?e = _
    |- context [OspfArea.readOspfArea_decode ?k ?a ?b ?c ?e] => rewrite Hq
  | |- context [startNewSession ?s ?x] => destruct (startNewSession s x) as [[?|?] ?]
  | |- context [command ?s ?c ?h ?x] => destruct (command s c h x) as [[?|?] ?]
  | |- context [configSet ?s ?c ?h ?x] => destruct (configSet s c h x) as [[?|] ?]
  | |- context [commitConf ?s ?c ?h ?x] => destruct (commitConf s c h x) as [[?|] ?]
  | |- context [checkCompatibilitySecurity ?s ?h] =>
      destruct (checkCompatibilitySecurity s h)
  | |- context [IpsecPolicy.readIpsecPolicy_decode ?k ?a ?b] =>
      destruct (IpsecPolicy.readIpsecPolicy_decode k a b) as [? [?|]] eqn:?
  | |- context [IkeProposal.readIkeProposal_decode ?k ?a ?b] =>
      destruct (IkeProposal.readIkeProposal_decode k a b) as [? [?|]] eqn:?
  | |- context [IkePolicy.readIkePolicy_decode ?k ?f ?a ?b] =>
      destruct (IkePolicy.readIkePolicy_decode k f a b) as [? [?|]] eqn:?
  | |- context [OspfArea.readOspfArea_decode ?k ?a ?b ?c ?e] =>
      destruct (OspfArea.readOspfArea_decode k a b c e) as [? [?|]] eqn:?
  | |- context [IkePolicy.setIkePolicy_configSet ?s] =>
      destruct (IkePolicy.setIkePolicy_configSet s) as [?|?] eqn:?
  | |- context [Nat.ltb ?a ?b] => destruct (Nat.ltb a b) eqn:?
  | |- context [if String.eqb ?a ?b then _ else _] => destruct (String.eqb a b) eqn:?
  end.

Ltac follow := unfold_run; repeat (answer_call; unfold_run).

(** What the tests of the run found is used where the statement asks for
    it. *)
Ltac use_tests :=
  repeat match goal with
         | Hq : String.eqb ?a ?b = _ |- context [String.eqb ?a ?b] => rewrite Hq
         end.

(** The run is followed once, and the statement is read at each of its
    ends. *)
Ltac follow_once :=
  match goal with
  | |- context [run ?f ?dv ?rd] =>
      let r := fresh "r" in
      let E := fresh "E" in
      remember (run f dv rd) as r eqn:E; revert E; follow;
      intros E; subst r; unfold_run; use_tests
  end.

(** The calls of a run are matched with the calls a statement lists. *)
Ltac shape :=
  cbv beta iota;
  lazymatch goal with
  | |- _ \/ _ => first [left; solve [shape] | right; solve [shape]]
  | |- exists _, _ => eexists; shape
  | |- _ /\ _ => split; [shape | shape]
  | |- _ => solve [reflexivity | eassumption]
  end.

Section Runs.
Context {D H : Type} (sess : Session D H) (K : Constants)
        (jdecode_Decode : string -> string * option error).

(** The line of every delete function is the word delete and the path of
    the object. *)
Lemma delOspfArea_path (s : OspfArea.schema) :
  OspfArea.delOspfArea_configSet K s = ["delete " ++ OspfArea.path K s].
Proof.
  unfold OspfArea.delOspfArea_configSet, OspfArea.path.
  destruct (String.eqb _ _); reflexivity.
Qed.

(** C3, as the code has it.  In every resource, a create, update or delete
    that took the lock and fails before a commit went through ends by
    clearing the candidate configuration ([configClear]) and closing the
    session, so the error comes after the rollback; once a commit went
    through, no [configClear] is made whatever follows.  And the operation
    commits all it stages or nothing: the commit is asked for once at most,
    and only once the session has taken every call that stages lines, the
    delete line of an update and of a delete and the lines of the set
    function of a create and of an update, and nothing is staged or
    committed after it; when no commit goes through the operation returns
    an error, and it returns no error only after a commit that went
    through. *)
Theorem rollback_until_commit :
  (transaction (IpsecPolicy.resourceIpsecPolicyCreate sess K)
     (fun s => [IpsecPolicy.setIpsecPolicy_configSet s])
   /\ transaction (IpsecPolicy.resourceIpsecPolicyUpdate sess K)
     (fun s => [["delete " ++ IpsecPolicy.path (IpsecPolicy.s_name s)];
                IpsecPolicy.setIpsecPolicy_configSet s])
   /\ transaction (IpsecPolicy.resourceIpsecPolicyDelete sess)
     (fun s => [["delete " ++ IpsecPolicy.path (IpsecPolicy.s_name s)]]))
  /\ (transaction (IkeProposal.resourceIkeProposalCreate sess K)
     (fun s => [IkeProposal.setIkeProposal_configSet s])
   /\ transaction (IkeProposal.resourceIkeProposalUpdate sess K)
     (fun s => [["delete " ++ IkeProposal.path (IkeProposal.s_name s)];
                IkeProposal.setIkeProposal_configSet s])
   /\ transaction (IkeProposal.resourceIkeProposalDelete sess)
     (fun s => [["delete " ++ IkeProposal.path (IkeProposal.s_name s)]]))
  /\ (transaction (IkePolicy.resourceIkePolicyCreate sess K jdecode_Decode)
     (fun s => match IkePolicy.setIkePolicy_configSet s with
               | inl configSet => [configSet]
               | inr _ => []
               end)
   /\ transaction (IkePolicy.resourceIkePolicyUpdate sess K jdecode_Decode)
     (fun s => ["delete " ++ IkePolicy.path (IkePolicy.s_name s)]
               :: match IkePolicy.setIkePolicy_configSet s with
                  | inl configSet => [configSet]
                  | inr _ => []
                  end)
   /\ transaction (IkePolicy.resourceIkePolicyDelete sess)
     (fun s => [["delete " ++ IkePolicy.path (IkePolicy.s_name s)]]))
  /\ (transaction (OspfArea.resourceOspfAreaCreate sess K)
     (fun s => [OspfArea.setOspfArea_configSet K s])
   /\ transaction (OspfArea.resourceOspfAreaUpdate sess K)
     (fun s => [["delete " ++ OspfArea.path K s]; OspfArea.setOspfArea_configSet K s])
   /\ transaction (OspfArea.resourceOspfAreaDelete sess K)
     (fun s => [["delete " ++ OspfArea.path K s]])).
Proof.
  repeat apply conj; intros dv rd;
    cbv delta [rolls_back_until_commit all_or_nothing] beta zeta;
    rewrite <- ?delOspfArea_path; follow_once;
    unfold cleared_before_close; cbn [rev app];
    repeat split; intros; solve [reflexivity | congruence].
Qed.


(** X1: the read of every resource only reads: it takes no configuration
    lock, hands no line to the session, clears no candidate configuration
    and commits nothing, and it asks the device one question at most,
    whatever the device answers. *)
Theorem read_changes_nothing :
  reads_only (IpsecPolicy.resourceIpsecPolicyRead sess K)
  /\ reads_only (IkeProposal.resourceIkeProposalRead sess K)
  /\ reads_only (IkePolicy.resourceIkePolicyRead sess K jdecode_Decode)
  /\ reads_only (OspfArea.resourceOspfAreaRead sess K).
Proof.
  repeat apply conj; intros dv rd; follow; split; solve [reflexivity | auto].
Qed.

(** X2: the read of every resource locks the mutex before anything else,
    starts its session and asks its question while it holds the mutex, and
    unlocks it once on every path: after a failed start, or after the answer
    and before the session is closed, which is closed only when the mutex is
    free again. *)
Theorem read_holds_mutex :
  holds_mutex (IpsecPolicy.resourceIpsecPolicyRead sess K)
  /\ holds_mutex (IkeProposal.resourceIkeProposalRead sess K)
  /\ holds_mutex (IkePolicy.resourceIkePolicyRead sess K jdecode_Decode)
  /\ holds_mutex (OspfArea.resourceOspfAreaRead sess K).
Proof.
  repeat apply conj; intros dv rd; follow; repeat split; reflexivity.
Qed.

(** X3: every lifecycle function of every resource (create, read, update,
    delete, import) closes every session it opens, on every path, and
    nothing follows the close of the session it opened first: the session of
    the read that a create or an update ends with is opened while theirs is
    open and closed before it.  Every call is made on the session that was
    opened last and is not closed yet. *)
Theorem sessions_are_closed :
  (closes_sessions (IpsecPolicy.resourceIpsecPolicyCreate sess K)
   /\ closes_sessions (IpsecPolicy.resourceIpsecPolicyRead sess K)
   /\ closes_sessions (IpsecPolicy.resourceIpsecPolicyUpdate sess K)
   /\ closes_sessions (IpsecPolicy.resourceIpsecPolicyDelete sess)
   /\ closes_sessions (IpsecPolicy.resourceIpsecPolicyImport sess K))
  /\ (closes_sessions (IkeProposal.resourceIkeProposalCreate sess K)
   /\ closes_sessions (IkeProposal.resourceIkeProposalRead sess K)
   /\ closes_sessions (IkeProposal.resourceIkeProposalUpdate sess K)
   /\ closes_sessions (IkeProposal.resourceIkeProposalDelete sess)
   /\ closes_sessions (IkeProposal.resourceIkeProposalImport sess K))
  /\ (closes_sessions (IkePolicy.resourceIkePolicyCreate sess K jdecode_Decode)
   /\ closes_sessions (IkePolicy.resourceIkePolicyRead sess K jdecode_Decode)
   /\ closes_sessions (IkePolicy.resourceIkePolicyUpdate sess K jdecode_Decode)
   /\ closes_sessions (IkePolicy.resourceIkePolicyDelete sess)
   /\ closes_sessions (IkePolicy.resourceIkePolicyImport sess K jdecode_Decode))
  /\ (closes_sessions (OspfArea.resourceOspfAreaCreate sess K)
   /\ closes_sessions (OspfArea.resourceOspfAreaRead sess K)
   /\ closes_sessions (OspfArea.resourceOspfAreaUpdate sess K)
   /\ closes_sessions (OspfArea.resourceOspfAreaDelete sess K)
   /\ closes_sessions (OspfArea.resourceOspfAreaImport sess K)).
Proof.
  repeat apply conj; intros dv rd; follow;
    repeat split; intros; solve [reflexivity | discriminate].
Qed.

(** X4: when the session cannot be started, the create, the read, the update
    and the delete of every resource return the error of the start as their
    one diagnostic, make no other call on the session, and leave the schema
    fields and the identity of the resource as they were. *)
Theorem start_failure :
  (fails_at_start sess (IpsecPolicy.resourceIpsecPolicyCreate sess K)
   /\ fails_at_start sess (IpsecPolicy.resourceIpsecPolicyRead sess K)
   /\ fails_at_start sess (IpsecPolicy.resourceIpsecPolicyUpdate sess K)
   /\ fails_at_start sess (IpsecPolicy.resourceIpsecPolicyDelete sess))
  /\ (fails_at_start sess (IkeProposal.resourceIkeProposalCreate sess K)
   /\ fails_at_start sess (IkeProposal.resourceIkeProposalRead sess K)
   /\ fails_at_start sess (IkeProposal.resourceIkeProposalUpdate sess K)
   /\ fails_at_start sess (IkeProposal.resourceIkeProposalDelete sess))
  /\ (fails_at_start sess (IkePolicy.resourceIkePolicyCreate sess K jdecode_Decode)
   /\ fails_at_start sess (IkePolicy.resourceIkePolicyRead sess K jdecode_Decode)
   /\ fails_at_start sess (IkePolicy.resourceIkePolicyUpdate sess K jdecode_Decode)
   /\ fails_at_start sess (IkePolicy.resourceIkePolicyDelete sess))
  /\ (fails_at_start sess (OspfArea.resourceOspfAreaCreate sess K)
   /\ fails_at_start sess (OspfArea.resourceOspfAreaRead sess K)
   /\ fails_at_start sess (OspfArea.resourceOspfAreaUpdate sess K)
   /\ fails_at_start sess (OspfArea.resourceOspfAreaDelete sess K)).
Proof.
  repeat apply conj; intros dv dv' rd err Hstart; unfold_run; rewrite Hstart;
    unfold_run; repeat split; reflexivity.
Qed.

(** X5: on a device that [checkCompatibilitySecurity] refuses, the create of
    the three security resources returns the error that the resource is not
    compatible with the model of the device, and all it does with the
    session it started is to close it: the check comes before the lock, so
    no lock is taken, no question asked and no line staged, and the resource
    data is as it was. *)
Theorem create_refuses_platform :
  refuses_platform sess (IpsecPolicy.resourceIpsecPolicyCreate sess K)
    "security ipsec policy not compatible with Junos device "
  /\ refuses_platform sess (IkeProposal.resourceIkeProposalCreate sess K)
    "security ike proposal not compatible with Junos device "
  /\ refuses_platform sess (IkePolicy.resourceIkePolicyCreate sess K jdecode_Decode)
    "security ike policy not compatible with Junos device ".
Proof.
  repeat apply conj; intros dv dv' rd jnprSess Hstart Hcompat; unfold_run;
    rewrite Hstart; unfold_run; rewrite Hcompat; reflexivity.
Qed.

(** X6: in every resource, a create that returns no diagnostics made its
    calls in this order: session, lock, the question for the set lines under
    the path of the object, answered with the empty word; the lines of the
    set function, staged in one call; the commit, which went through; the
    same question again, answered with a text; and the identity: the name,
    or for an ospf area the area, the version and the routing instance
    joined by the separator.  What follows, the read, changes nothing on
    the device.  The identity is then what the resource data holds, unless
    the read took it away. *)
Theorem create_verifies :
  create_verified K (IpsecPolicy.resourceIpsecPolicyCreate sess K)
    IpsecPolicy.s_name
    (fun s => show_set (IpsecPolicy.path (IpsecPolicy.s_name s)))
    (fun s => inl (IpsecPolicy.setIpsecPolicy_configSet s))
  /\ create_verified K (IkeProposal.resourceIkeProposalCreate sess K)
    IkeProposal.s_name
    (fun s => show_set (IkeProposal.path (IkeProposal.s_name s)))
    (fun s => inl (IkeProposal.setIkeProposal_configSet s))
  /\ create_verified K (IkePolicy.resourceIkePolicyCreate sess K jdecode_Decode)
    IkePolicy.s_name
    (fun s => show_set (IkePolicy.path (IkePolicy.s_name s)))
    IkePolicy.setIkePolicy_configSet
  /\ create_verified K (OspfArea.resourceOspfAreaCreate sess K)
    (OspfArea.identity K)
    (fun s => show_set (OspfArea.path K s))
    (fun s => inl (OspfArea.setOspfArea_configSet K s)).
Proof.
  repeat apply conj; intros dv rd; cbv delta [create_verified] beta; intros Hok;
    revert Hok; follow_once; intros Hok; try discriminate Hok.
  all: unfold show_set, IpsecPolicy.path, IkeProposal.path, IkePolicy.path, OspfArea.path,
         OspfArea.identity; use_tests.
  all: repeat (progress (simpl; rewrite ?StringFacts.append_assoc)).
  all: (split; [|split; [|split; [|split; [|split; [|split]]]]]);
         try reflexivity; try (left; reflexivity); try (right; reflexivity).
  all: unfold verified_run; shape.
Qed.

(** X21: in every resource, a create sets an identity only in a run whose
    commit went through and whose second existence check found the object,
    the first one having found nothing; no such run clears the candidate
    configuration.  The second check is the one after the commit, and the
    identity is set right after its answer: the calls up to there are, in
    this order, session, lock, first check, lines staged, commit, second
    check, identity.  This holds also for a create that returns an error
    after it set the identity, as it does when the read at its end fails. *)
Theorem identity_only_when_verified :
  identity_when_verified K (IpsecPolicy.resourceIpsecPolicyCreate sess K)
    IpsecPolicy.s_name
    (fun s => show_set (IpsecPolicy.path (IpsecPolicy.s_name s)))
    (fun s => inl (IpsecPolicy.setIpsecPolicy_configSet s))
  /\ identity_when_verified K (IkeProposal.resourceIkeProposalCreate sess K)
    IkeProposal.s_name
    (fun s => show_set (IkeProposal.path (IkeProposal.s_name s)))
    (fun s => inl (IkeProposal.setIkeProposal_configSet s))
  /\ identity_when_verified K (IkePolicy.resourceIkePolicyCreate sess K jdecode_Decode)
    IkePolicy.s_name
    (fun s => show_set (IkePolicy.path (IkePolicy.s_name s)))
    IkePolicy.setIkePolicy_configSet
  /\ identity_when_verified K (OspfArea.resourceOspfAreaCreate sess K)
    (OspfArea.identity K)
    (fun s => show_set (OspfArea.path K s))
    (fun s => inl (OspfArea.setOspfArea_configSet K s)).
Proof.
  repeat apply conj; intros dv rd; cbv delta [identity_when_verified] beta zeta;
    follow_once; intros Hset; try (exfalso; apply Hset; reflexivity).
  all: unfold show_set, IpsecPolicy.path, IkeProposal.path, IkePolicy.path, OspfArea.path,
         OspfArea.identity; use_tests.
  all: repeat (progress (simpl; rewrite ?StringFacts.append_assoc)).
  all: (split; [|split; [|split]]); try reflexivity.
  all: unfold verified_run; shape.
Qed.

(** X7: in every resource, a delete asks the device nothing (it does not
    check that the object is there, before or after), leaves the resource
    data as it was, and returns no diagnostics exactly when its commit went
    through.  Once its session is started it locks the configuration and
    hands the session the one line that deletes the path of the object, and
    no other line; it asks for the commit when that line was taken, and for
    nothing else; a line or a commit that is refused is followed by the
    clearing of the candidate configuration. *)
Theorem delete_is_blind :
  deletes_blindly (IpsecPolicy.resourceIpsecPolicyDelete sess)
    (fun s => ["delete " ++ IpsecPolicy.path (IpsecPolicy.s_name s)])
  /\ deletes_blindly (IkeProposal.resourceIkeProposalDelete sess)
    (fun s => ["delete " ++ IkeProposal.path (IkeProposal.s_name s)])
  /\ deletes_blindly (IkePolicy.resourceIkePolicyDelete sess)
    (fun s => ["delete " ++ IkePolicy.path (IkePolicy.s_name s)])
  /\ deletes_blindly (OspfArea.resourceOspfAreaDelete sess K)
    (fun s => ["delete " ++ OspfArea.path K s]).
Proof.
  repeat apply conj; intros dv rd; cbv delta [deletes_blindly] beta zeta;
    rewrite <- ?delOspfArea_path; follow_once;
    (split; [reflexivity | split; [now destruct rd | split; [|split]]]);
    try solve [ now exists [] | eexists; reflexivity
              | split; intros Hx; solve [reflexivity | discriminate Hx]
              | unfold delete_run; shape ].
Qed.

(** X8: in every resource, an update hands the session first the line that
    deletes the path of the object and then, in a second call, the lines of
    the set function, and asks for the commit only when both calls were
    taken; a call or a commit that is refused, and a set function that
    returns an error, are followed by the clearing of the candidate
    configuration.  It asks the device nothing before its commit went
    through, so it does not check that the object is there, and once at
    most after it (the read); nothing is staged or committed after the
    commit.  The partial mode it switches on at its start is switched off
    exactly when the commit went through; and it sets no identity but the
    empty one of a read that found nothing. *)
Theorem update_in_order :
  updates_in_order (IpsecPolicy.resourceIpsecPolicyUpdate sess K)
    (fun s => ["delete " ++ IpsecPolicy.path (IpsecPolicy.s_name s)])
    (fun s => inl (IpsecPolicy.setIpsecPolicy_configSet s))
  /\ updates_in_order (IkeProposal.resourceIkeProposalUpdate sess K)
    (fun s => ["delete " ++ IkeProposal.path (IkeProposal.s_name s)])
    (fun s => inl (IkeProposal.setIkeProposal_configSet s))
  /\ updates_in_order (IkePolicy.resourceIkePolicyUpdate sess K jdecode_Decode)
    (fun s => ["delete " ++ IkePolicy.path (IkePolicy.s_name s)])
    IkePolicy.setIkePolicy_configSet
  /\ updates_in_order (OspfArea.resourceOspfAreaUpdate sess K)
    (fun s => ["delete " ++ OspfArea.path K s])
    (fun s => inl (OspfArea.setOspfArea_configSet K s)).
Proof.
  repeat apply conj; intros dv rd; cbv delta [updates_in_order] beta zeta;
    rewrite <- ?delOspfArea_path; follow_once;
    (split; [|split; [solve [auto] | split; [reflexivity | split]]]);
    solve [ now exists [] | eexists; reflexivity | unfold update_run; shape ].
Qed.

(** X9: in every resource, a read whose question was answered with a text
    asked for the lines under the path of the object, without the path,
    and does what the decoding of the text says: on an error it returns the
    error and leaves the resource data as it was; on a record without name
    (for an ospf area, without area) it sets the empty identity and leaves
    the schema fields; otherwise it writes the fields of the record and
    leaves the identity.  The partial mode is never touched. *)
Theorem read_follows_decoding :
  read_outcome (IpsecPolicy.resourceIpsecPolicyRead sess K)
    (fun s => show_set_relative (IpsecPolicy.path (IpsecPolicy.s_name s)))
    (fun s => IpsecPolicy.readIpsecPolicy_decode K (IpsecPolicy.s_name s))
    (fun o => String.eqb (IpsecPolicy.name o) "") IpsecPolicy.schema_of
  /\ read_outcome (IkeProposal.resourceIkeProposalRead sess K)
    (fun s => show_set_relative (IkeProposal.path (IkeProposal.s_name s)))
    (fun s => IkeProposal.readIkeProposal_decode K (IkeProposal.s_name s))
    (fun o => String.eqb (IkeProposal.name o) "") IkeProposal.schema_of
  /\ read_outcome (IkePolicy.resourceIkePolicyRead sess K jdecode_Decode)
    (fun s => show_set_relative (IkePolicy.path (IkePolicy.s_name s)))
    (fun s => IkePolicy.readIkePolicy_decode K jdecode_Decode (IkePolicy.s_name s))
    (fun o => String.eqb (IkePolicy.name o) "") IkePolicy.schema_of
  /\ read_outcome (OspfArea.resourceOspfAreaRead sess K)
    (fun s => show_set_relative (OspfArea.path K s))
    (fun s => OspfArea.readOspfArea_decode K (OspfArea.s_area_id s)
                (OspfArea.s_version s) (OspfArea.s_routing_instance s))
    (fun o => String.eqb (OspfArea.areaID o) "") OspfArea.schema_of.
Proof.
  repeat apply conj; intros dv rd text; cbv delta [read_outcome] beta zeta;
    follow_once; intros Hans; try discriminate Hans;
    injection Hans as ->;
    match goal with
    | Hq : ?t = _, Hq' : ?t = _ |- _ => rewrite Hq in Hq'; inversion Hq'; subst
    end;
    use_tests;
    (split; [| split; solve [reflexivity | now destruct rd | congruence]]);
    unfold show_set_relative, IpsecPolicy.path, IkeProposal.path, IkePolicy.path,
      OspfArea.path; use_tests;
    repeat (progress (simpl; rewrite ?StringFacts.append_assoc)); reflexivity.
Qed.

(** X10: in every resource, an import only reads (no lock, no line, no
    clearing, no commit), does so without the mutex of the read path, and
    never sets or changes the identity.  When it returns an error its slice
    is empty and the resource data is as it was; when it returns none its
    slice holds the resource data as the function leaves it. *)
Theorem import_returns :
  import_result (IpsecPolicy.resourceIpsecPolicyImport sess K)
  /\ import_result (IkeProposal.resourceIkeProposalImport sess K)
  /\ import_result (IkePolicy.resourceIkePolicyImport sess K jdecode_Decode)
  /\ import_result (OspfArea.resourceOspfAreaImport sess K).
Proof.
  repeat apply conj; intros dv rd; cbv delta [import_result] beta zeta;
    follow_once; repeat split; solve [reflexivity | now destruct rd].
Qed.

(** X11: in every resource, an import whose existence check is answered with
    the empty word returns the error that no object with this identity is
    found, which quotes the identity and the form it must have, and asks the
    device nothing more: the object is not read. *)
Theorem import_finds_nothing :
  import_not_found K (IpsecPolicy.resourceIpsecPolicyImport sess K)
    (fun id => "don't find security ipsec policy with id '" ++ id
               ++ "' (id must be <name>)")
  /\ import_not_found K (IkeProposal.resourceIkeProposalImport sess K)
    (fun id => "don't find security ike proposal with id '" ++ id
               ++ "' (id must be <name>)")
  /\ import_not_found K (IkePolicy.resourceIkePolicyImport sess K jdecode_Decode)
    (fun id => "don't find security ike policy with id '" ++ id
               ++ "' (id must be <name>)")
  /\ import_not_found K (OspfArea.resourceOspfAreaImport sess K)
    (fun id => "don't find ospf area with id '" ++ id ++ "' (id must be "
               ++ "<aread_id>" ++ idSeparator K ++ "<version>" ++ idSeparator K
               ++ "<routing_instance>)").
Proof.
  repeat apply conj; intros dv rd; cbv delta [import_not_found] beta zeta;
    follow_once; intros Hans; try discriminate Hans; split; reflexivity.
Qed.

(** X12: in every resource, an import that returns no error asked two
    questions, whether there are set lines under the path of the object its
    identity names and what they are without the path, and wrote the schema
    fields of the record the read decoded, without an error, from the second
    answer.  The object is the one the identity names: for an ospf area the
    one of the first three pieces of the identity. *)
Theorem import_reads_identity :
  import_fills (IpsecPolicy.resourceIpsecPolicyImport sess K)
    IpsecPolicy.path (IpsecPolicy.readIpsecPolicy_decode K) IpsecPolicy.schema_of
  /\ import_fills (IkeProposal.resourceIkeProposalImport sess K)
    IkeProposal.path (IkeProposal.readIkeProposal_decode K) IkeProposal.schema_of
  /\ import_fills (IkePolicy.resourceIkePolicyImport sess K jdecode_Decode)
    IkePolicy.path (IkePolicy.readIkePolicy_decode K jdecode_Decode) IkePolicy.schema_of
  /\ import_fills (OspfArea.resourceOspfAreaImport sess K)
    (fun id => OspfArea.path K (OspfArea.schema_of_id K id))
    (fun id => OspfArea.readOspfArea_decode K
                 (OspfArea.s_area_id (OspfArea.schema_of_id K id))
                 (OspfArea.s_version (OspfArea.schema_of_id K id))
                 (OspfArea.s_routing_instance (OspfArea.schema_of_id K id)))
    OspfArea.schema_of.
Proof.
  repeat apply conj; intros dv rd; cbv delta [import_fills] beta zeta;
    follow_once; intros Hok; try discriminate Hok;
    (do 2 eexists; split; [reflexivity|]);
    cbv delta [OspfArea.schema_of_id OspfArea.s_area_id OspfArea.s_version
               OspfArea.s_routing_instance] beta iota zeta;
    match goal with Hq : _ = (_, None) |- _ => rewrite Hq end;
    (split; [| split; reflexivity]);
    unfold show_set, show_set_relative, IpsecPolicy.path, IkeProposal.path,
      IkePolicy.path, OspfArea.path;
    cbv delta [OspfArea.s_area_id OspfArea.s_version
               OspfArea.s_routing_instance] beta iota zeta; use_tests;
    repeat (progress (simpl; rewrite ?StringFacts.append_assoc)); reflexivity.
Qed.

(** [setIkePolicy] on a mode it does not know. *)
Lemma setIkePolicy_unknown_mode (s : IkePolicy.schema) :
  IkePolicy.mode_known s = false ->
  IkePolicy.setIkePolicy_configSet s
  = inr (errorString ("unknown ike mode " ++ IkePolicy.s_mode s)).
Proof.
  unfold IkePolicy.mode_known, IkePolicy.setIkePolicy_configSet.
  destruct (String.eqb (IkePolicy.s_mode s) ""),
    (String.eqb (IkePolicy.s_mode s) "main"),
    (String.eqb (IkePolicy.s_mode s) "aggressive"); try discriminate; reflexivity.
Qed.

(** X17: an ike policy whose mode is neither empty nor main nor aggressive
    is never committed.  Its create hands no line to the session and, once
    the existence check found nothing, clears the candidate configuration
    and returns the error that the mode is unknown.  Its update stages at
    most the delete line and, once that line was taken, clears the
    candidate configuration, which drops the delete as well, returns the
    same error and leaves the partial mode on. *)
Theorem unknown_ike_mode :
  (forall dv rd,
     IkePolicy.mode_known (fields rd) = false ->
     let r := run (IkePolicy.resourceIkePolicyCreate sess K jdecode_Decode) dv rd in
     configSets (trace (snd r)) = []
     /\ existsb is_CommitConf (trace (snd r)) = false
     /\ fst r <> []
     /\ (option_map (answers_absent K) (hd_error (answers (trace (snd r)))) = Some true ->
         fst r = [errorString ("unknown ike mode " ++ IkePolicy.s_mode (fields rd))]
         /\ cleared_before_close (trace (snd r)) = true))
  /\ (forall dv rd,
     IkePolicy.mode_known (fields rd) = false ->
     let r := run (IkePolicy.resourceIkePolicyUpdate sess K jdecode_Decode) dv rd in
     prefix_of (configSets (trace (snd r)))
       [["delete " ++ IkePolicy.path (IkePolicy.s_name (fields rd))]]
     /\ existsb is_CommitConf (trace (snd r)) = false
     /\ fst r <> []
     /\ partial (d (snd r)) = true
     /\ (existsb is_ConfigSet_ok (trace (snd r)) = true ->
         fst r = [errorString ("unknown ike mode " ++ IkePolicy.s_mode (fields rd))]
         /\ cleared_before_close (trace (snd r)) = true)).
Proof.
  split; intros dv [f id p] Hmode; cbn [fields] in Hmode |- *;
    apply setIkePolicy_unknown_mode in Hmode; cbv zeta;
    follow_once; unfold cleared_before_close; cbn [rev app];
    repeat split; try reflexivity; try discriminate;
    try solve [ now exists [] | eexists; reflexivity
              | intros Hx; discriminate Hx ].
Qed.

(** X18: the import of an ospf area whose identity splits at the separator
    into fewer than three pieces returns, once its session is started, the
    error that elements are missing in the identity, with the separator, and
    does no more than close the session: the device is asked nothing and
    the resource data is as it was. *)
Theorem import_missing_elements :
  forall (dv dv' : D) (rd : ResourceData OspfArea.schema) (jnprSess : H),
    startNewSession sess dv = (inl jnprSess, dv') ->
    List.length (strings.Split (Id rd) (idSeparator K)) < 3 ->
    run (OspfArea.resourceOspfAreaImport sess K) dv rd
    = (([], Some (errorString ("missing element(s) in id with separator "
                               ++ idSeparator K))),
       {| device := closeSession sess jnprSess dv'; d := rd;
          log := [EvCloseSession jnprSess; EvStartNewSession (inl jnprSess)] |}).
Proof.
  intros dv dv' [f id p] jnprSess Hstart Hlen. cbn [Id] in Hlen.
  apply Nat.ltb_lt in Hlen.
  unfold_run. rewrite Hstart. unfold_run. rewrite Hlen. reflexivity.
Qed.

End Runs.

(** ** What the read loops keep, and what they collect *)

Module DecodeFacts.

(** The cases of a loop body are followed one by one. *)
Ltac loop_body IH :=
  repeat match goal with
         | |- context [if ?b then _ else _] => destruct b
         | |- context [match ?x with (_, _) => _ end] => destruct x as [? [?|]]
         end;
  try reflexivity; rewrite ?IH; reflexivity.

Lemma ipsec_loop_name (items : list string) (c : IpsecPolicy.ipsecPolicyOptions) :
  IpsecPolicy.name (fst (IpsecPolicy.readIpsecPolicy_loop c items)) = IpsecPolicy.name c.
Proof.
  revert c; induction items as [|item rest IH]; intros c; [reflexivity|].
  cbn [IpsecPolicy.readIpsecPolicy_loop]. loop_body IH.
Qed.

Lemma ikeproposal_loop_name (items : list string) (c : IkeProposal.ikeProposalOptions) :
  IkeProposal.name (fst (IkeProposal.readIkeProposal_loop c items)) = IkeProposal.name c.
Proof.
  revert c; induction items as [|item rest IH]; intros c; [reflexivity|].
  cbn [IkeProposal.readIkeProposal_loop]. loop_body IH.
Qed.

Lemma ikepolicy_loop_name (Decode : string -> string * option error)
    (items : list string) (c : IkePolicy.ikePolicyOptions) :
  IkePolicy.name (fst (IkePolicy.readIkePolicy_loop Decode c items)) = IkePolicy.name c.
Proof.
  revert c; induction items as [|item rest IH]; intros c; [reflexivity|].
  cbn [IkePolicy.readIkePolicy_loop]. loop_body IH.
Qed.

Lemma ospf_loop_key (items : list string) (c : OspfArea.ospfAreaOptions) :
  let o := fst (OspfArea.readOspfArea_loop c items) in
  OspfArea.areaID o = OspfArea.areaID c
  /\ OspfArea.version o = OspfArea.version c
  /\ OspfArea.routingInstance o = OspfArea.routingInstance c.
Proof.
  revert c; induction items as [|item rest IH]; intros c; [now repeat split|].
  cbn [OspfArea.readOspfArea_loop].
  repeat match goal with
         | |- context [if ?b then _ else _] => destruct b
         | |- context [match ?x with (_, _) => _ end] => destruct x as [? [?|]]
         end;
    try (now repeat split); try apply IH.
  exact (IH (OspfArea.set_interFace c l)).
Qed.

(** The last element does not depend on the default once there is one. *)
Lemma last_cons {A} (a : A) (l : list A) (d : A) : last (a :: l) d = last l a.
Proof.
  revert a d; induction l as [|b l IH]; intros a d; [reflexivity|].
  change (last (a :: b :: l) d) with (last (b :: l) d).
  now rewrite (IH b d), (IH b a).
Qed.

Lemma values_of_cons (keyword item : string) (rest : list string) :
  values_of keyword (item :: rest)
  = if strings.HasPrefix (strings.TrimPrefix item setLineStart) keyword
    then strings.TrimPrefix (strings.TrimPrefix item setLineStart) keyword
         :: values_of keyword rest
    else values_of keyword rest.
Proof.
  unfold values_of. cbn [filter].
  destruct (strings.HasPrefix _ keyword); reflexivity.
Qed.

Ltac other_keyword :=
  repeat match goal with
  | Hp : strings.HasPrefix ?t ?p = true |- context [strings.HasPrefix ?t ?q] =>
      rewrite (StringFacts.HasPrefix_other t p q Hp eq_refl eq_refl)
  end.

Lemma ipsec_loop_collects (items : list string) (c : IpsecPolicy.ipsecPolicyOptions) :
  IpsecPolicy.proposals (fst (IpsecPolicy.readIpsecPolicy_loop c items))
  = (IpsecPolicy.proposals c ++ values_of "proposals " (content_lines items))%list
  /\ IpsecPolicy.pfsKeys (fst (IpsecPolicy.readIpsecPolicy_loop c items))
     = last (values_of "perfect-forward-secrecy keys " (content_lines items))
            (IpsecPolicy.pfsKeys c).
Proof.
  revert c; induction items as [|item rest IH]; intros c.
  - cbn. now rewrite app_nil_r.
  - cbn [IpsecPolicy.readIpsecPolicy_loop content_lines].
    change "<configuration-output>" with marker_begin.
    change "</configuration-output>" with marker_end.
    destruct (strings.Contains item marker_begin); [apply IH|].
    destruct (strings.Contains item marker_end); [cbn; now rewrite app_nil_r|].
    rewrite !values_of_cons.
    destruct (strings.HasPrefix (strings.TrimPrefix item setLineStart) "proposals ")
      eqn:Hp.
    + other_keyword.
      destruct (IH {| IpsecPolicy.name := IpsecPolicy.name c;
                      IpsecPolicy.pfsKeys := IpsecPolicy.pfsKeys c;
                      IpsecPolicy.proposals :=
                        (IpsecPolicy.proposals c
                         ++ [strings.TrimPrefix (strings.TrimPrefix item setLineStart)
                               "proposals "])%list |}) as [IHp IHk].
      rewrite IHp, IHk. cbn [IpsecPolicy.proposals IpsecPolicy.pfsKeys].
      now rewrite <- app_assoc.
    + destruct (strings.HasPrefix (strings.TrimPrefix item setLineStart)
                  "perfect-forward-secrecy keys ") eqn:Hk; [|apply IH].
      destruct (IH {| IpsecPolicy.name := IpsecPolicy.name c;
                      IpsecPolicy.pfsKeys :=
                        strings.TrimPrefix (strings.TrimPrefix item setLineStart)
                          "perfect-forward-secrecy keys ";
                      IpsecPolicy.proposals := IpsecPolicy.proposals c |}) as [IHp IHk].
      rewrite IHp, IHk, last_cons. now split.
Qed.

Lemma ikepolicy_loop_collects (Decode : string -> string * option error)
    (items : list string) (c : IkePolicy.ikePolicyOptions) :
  is_error (IkePolicy.readIkePolicy_loop Decode c items) = false ->
  IkePolicy.proposals (fst (IkePolicy.readIkePolicy_loop Decode c items))
  = (IkePolicy.proposals c ++ values_of "proposals " (content_lines items))%list
  /\ IkePolicy.mode (fst (IkePolicy.readIkePolicy_loop Decode c items))
     = last (values_of "mode " (content_lines items)) (IkePolicy.mode c).
Proof.
  revert c; induction items as [|item rest IH]; intros c.
  - cbn. now rewrite app_nil_r.
  - cbn [IkePolicy.readIkePolicy_loop content_lines].
    change "<configuration-output>" with marker_begin.
    change "</configuration-output>" with marker_end.
    destruct (strings.Contains item marker_begin); [apply IH|].
    destruct (strings.Contains item marker_end); [cbn; now rewrite app_nil_r|].
    rewrite !values_of_cons.
    destruct (strings.HasPrefix (strings.TrimPrefix item setLineStart) "mode ") eqn:Hm.
    { other_keyword. intros Herr.
      destruct (IH _ Herr) as [IHp IHm]. rewrite IHp, IHm, last_cons. now split. }
    destruct (strings.HasPrefix (strings.TrimPrefix item setLineStart) "proposals ")
      eqn:Hp.
    { intros Herr. destruct (IH _ Herr) as [IHp IHm]. rewrite IHp, IHm.
      cbn [IkePolicy.set_proposals IkePolicy.proposals IkePolicy.mode].
      now rewrite <- app_assoc. }
    destruct (strings.HasPrefix (strings.TrimPrefix item setLineStart)
                "pre-shared-key hexadecimal ").
    { destruct (Decode _) as [v [err|]]; [discriminate|].
      intros Herr. destruct (IH _ Herr) as [IHp IHm]. rewrite IHp, IHm. now split. }
    destruct (strings.HasPrefix (strings.TrimPrefix item setLineStart)
                "pre-shared-key ascii-text ").
    { destruct (Decode _) as [v [err|]]; [discriminate|].
      intros Herr. destruct (IH _ Herr) as [IHp IHm]. rewrite IHp, IHm. now split. }
    apply IH.
Qed.

Section DecodeKey.
Context (K : Constants) (Decode : string -> string * option error).

Lemma ipsec_decode_name (nm text : string) :
  IpsecPolicy.name (fst (IpsecPolicy.readIpsecPolicy_decode K nm text))
  = if String.eqb text (emptyWord K) then "" else nm.
Proof.
  unfold IpsecPolicy.readIpsecPolicy_decode.
  destruct (String.eqb text (emptyWord K)); [reflexivity|].
  cbn [negb]. apply ipsec_loop_name.
Qed.

Lemma ikeproposal_decode_name (nm text : string) :
  IkeProposal.name (fst (IkeProposal.readIkeProposal_decode K nm text))
  = if String.eqb text (emptyWord K) then "" else nm.
Proof.
  unfold IkeProposal.readIkeProposal_decode.
  destruct (String.eqb text (emptyWord K)); [reflexivity|].
  cbn [negb]. apply ikeproposal_loop_name.
Qed.

Lemma ikepolicy_decode_name (nm text : string) :
  IkePolicy.name (fst (IkePolicy.readIkePolicy_decode K Decode nm text))
  = if String.eqb text (emptyWord K) then "" else nm.
Proof.
  unfold IkePolicy.readIkePolicy_decode.
  destruct (String.eqb text (emptyWord K)); [reflexivity|].
  cbn [negb]. apply ikepolicy_loop_name.
Qed.

Lemma ospf_decode_key (idArea version routingInstance text : string) :
  let o := fst (OspfArea.readOspfArea_decode K idArea version routingInstance text) in
  (OspfArea.areaID o, OspfArea.version o, OspfArea.routingInstance o)
  = if String.eqb text (emptyWord K) then ("", "", "")
    else (idArea, version, routingInstance).
Proof.
  unfold OspfArea.readOspfArea_decode.
  destruct (String.eqb text (emptyWord K)); [reflexivity|].
  cbn [negb].
  destruct (ospf_loop_key (strings.Split text (String "010" ""))
              {| OspfArea.areaID := idArea; OspfArea.routingInstance := routingInstance;
                 OspfArea.version := version; OspfArea.interFace := [] |})
    as (Ha & Hv & Hr).
  cbv zeta in *. rewrite Ha, Hv, Hr. reflexivity.
Qed.

End DecodeKey.

End DecodeFacts.

Section Decoding.
Context (K : Constants) (jdecode_Decode : string -> string * option error).

(** X13: whatever the device answers, the record a read function decodes
    carries the key it was asked for, the name (for an ospf area: the area,
    the version and the routing instance), unless the answer is the empty
    word, in which case it carries the empty key; no line of the answer
    changes the key, and this holds also when the decoding ends in an
    error. *)
Theorem decode_keeps_key :
  (forall nm text,
     IpsecPolicy.name (fst (IpsecPolicy.readIpsecPolicy_decode K nm text))
     = if String.eqb text (emptyWord K) then "" else nm)
  /\ (forall nm text,
     IkeProposal.name (fst (IkeProposal.readIkeProposal_decode K nm text))
     = if String.eqb text (emptyWord K) then "" else nm)
  /\ (forall nm text,
     IkePolicy.name (fst (IkePolicy.readIkePolicy_decode K jdecode_Decode nm text))
     = if String.eqb text (emptyWord K) then "" else nm)
  /\ (forall idArea version routingInstance text,
     let o := fst (OspfArea.readOspfArea_decode K idArea version routingInstance text) in
     (OspfArea.areaID o, OspfArea.version o, OspfArea.routingInstance o)
     = if String.eqb text (emptyWord K) then ("", "", "")
       else (idArea, version, routingInstance)).
Proof.
  repeat apply conj.
  - apply DecodeFacts.ipsec_decode_name.
  - apply DecodeFacts.ikeproposal_decode_name.
  - apply DecodeFacts.ikepolicy_decode_name.
  - apply DecodeFacts.ospf_decode_key.
Qed.

(** X14: the proposals of the record that [readIpsecPolicy] and
    [readIkePolicy] decode are those the record had, followed by the values
    of the proposals lines the loop gets to look at, in the order of the
    lines; a field with one value (the perfect-forward-secrecy keys, the
    mode) has the value of the last of its lines, and the value the record
    had when there is none.  For [readIkePolicy] this is the record of a
    decoding without error. *)
Theorem decode_collects_proposals :
  (forall c items,
     IpsecPolicy.proposals (fst (IpsecPolicy.readIpsecPolicy_loop c items))
     = (IpsecPolicy.proposals c ++ values_of "proposals " (content_lines items))%list
     /\ IpsecPolicy.pfsKeys (fst (IpsecPolicy.readIpsecPolicy_loop c items))
        = last (values_of "perfect-forward-secrecy keys " (content_lines items))
               (IpsecPolicy.pfsKeys c))
  /\ (forall c items,
     is_error (IkePolicy.readIkePolicy_loop jdecode_Decode c items) = false ->
     IkePolicy.proposals (fst (IkePolicy.readIkePolicy_loop jdecode_Decode c items))
     = (IkePolicy.proposals c ++ values_of "proposals " (content_lines items))%list
     /\ IkePolicy.mode (fst (IkePolicy.readIkePolicy_loop jdecode_Decode c items))
        = last (values_of "mode " (content_lines items)) (IkePolicy.mode c)).
Proof.
  split.
  - intros c items. apply DecodeFacts.ipsec_loop_collects.
  - intros c items. apply DecodeFacts.ikepolicy_loop_collects.
Qed.

End Decoding.

(** ** Where the set lines go *)

Module PathFacts.

Lemma under_line (p body : string) :
  is_under p ((setLineStart ++ p) ++ " " ++ body) = true.
Proof.
  unfold is_under.
  replace ((setLineStart ++ p) ++ " " ++ body)%string
    with ((setLineStart ++ p ++ " ") ++ body)%string
    by (now rewrite !StringFacts.append_assoc).
  apply StringFacts.HasPrefix_app.
Qed.

Lemma under_block_line (p block field : string) :
  is_under p (((setLineStart ++ p ++ " ") ++ block) ++ field) = true.
Proof.
  unfold is_under. rewrite (StringFacts.append_assoc (setLineStart ++ p ++ " ")).
  apply StringFacts.HasPrefix_app.
Qed.

Lemma forallb_optional (ok : string -> bool) (b : bool) (line : string) :
  ok line = true -> forallb ok (if b then [line] else []) = true.
Proof. intros Hok. destruct b; cbn; [now rewrite Hok | reflexivity]. Qed.

Lemma forallb_map_lines (ok : string -> bool) (line : string -> string) (vs : list string) :
  (forall v, ok (line v) = true) -> forallb ok (map line vs) = true.
Proof.
  intros Hok. induction vs as [|v vs IH]; cbn; [reflexivity|].
  now rewrite Hok, IH.
Qed.

Lemma ospf_interface_under (p : string) (i : OspfArea.ospfInterface) :
  forallb (is_under p) (OspfArea.setOspfArea_interface (setLineStart ++ p ++ " ") i) = true.
Proof.
  unfold OspfArea.setOspfArea_interface. cbv zeta.
  rewrite !forallb_app, !andb_true_iff.
  repeat split; apply forallb_optional; apply under_block_line.
Qed.

End PathFacts.

Section Paths.
Context (K : Constants).

(** X15: every line a set function hands to the session is a set line under
    the path of the object, the path that the one line of the delete
    function deletes and that the existence check and the read ask for: so
    what an update stages after its delete line replaces what the delete
    line removes, and nothing is written outside the object. *)
Theorem set_lines_under_path :
  (forall s, forallb (is_under (IpsecPolicy.path (IpsecPolicy.s_name s)))
               (IpsecPolicy.setIpsecPolicy_configSet s) = true)
  /\ (forall s, forallb (is_under (IkeProposal.path (IkeProposal.s_name s)))
                  (IkeProposal.setIkeProposal_configSet s) = true)
  /\ (forall s configSet,
        IkePolicy.setIkePolicy_configSet s = inl configSet ->
        forallb (is_under (IkePolicy.path (IkePolicy.s_name s))) configSet = true)
  /\ (forall s, forallb (is_under (OspfArea.path K s))
                  (OspfArea.setOspfArea_configSet K s) = true).
Proof.
  repeat apply conj.
  - intros s. unfold IpsecPolicy.setIpsecPolicy_configSet. cbv zeta.
    rewrite forallb_app, andb_true_iff. split.
    + apply PathFacts.forallb_optional.
      apply (PathFacts.under_line (IpsecPolicy.path (IpsecPolicy.s_name s))
               ("perfect-forward-secrecy keys " ++ IpsecPolicy.s_pfs_keys s)).
    + apply PathFacts.forallb_map_lines. intros v.
      apply (PathFacts.under_line (IpsecPolicy.path (IpsecPolicy.s_name s))
               ("proposals " ++ v)).
  - intros s. unfold IkeProposal.setIkeProposal_configSet. cbv zeta.
    rewrite !forallb_app, !andb_true_iff.
    repeat split; apply PathFacts.forallb_optional.
    + apply (PathFacts.under_line (IkeProposal.path (IkeProposal.s_name s))
               ("authentication-method " ++ IkeProposal.s_authentication_method s)).
    + apply (PathFacts.under_line (IkeProposal.path (IkeProposal.s_name s))
               ("authentication-algorithm " ++ IkeProposal.s_authentication_algorithm s)).
    + apply (PathFacts.under_line (IkeProposal.path (IkeProposal.s_name s))
               ("dh-group " ++ IkeProposal.s_dh_group s)).
    + apply (PathFacts.under_line (IkeProposal.path (IkeProposal.s_name s))
               ("encryption-algorithm " ++ IkeProposal.s_encryption_algorithm s)).
    + apply (PathFacts.under_line (IkeProposal.path (IkeProposal.s_name s))
               ("lifetime-seconds " ++ strconv.Itoa (IkeProposal.s_lifetime_seconds s))).
  - intros s configSet. unfold IkePolicy.setIkePolicy_configSet. cbv zeta.
    destruct (_ && _); [discriminate|]. intros Hset; injection Hset as <-.
    rewrite !forallb_app, !andb_true_iff.
    repeat split.
    + apply PathFacts.forallb_optional.
      apply (PathFacts.under_line (IkePolicy.path (IkePolicy.s_name s))
               ("mode " ++ IkePolicy.s_mode s)).
    + apply PathFacts.forallb_map_lines. intros v.
      apply (PathFacts.under_line (IkePolicy.path (IkePolicy.s_name s))
               ("proposals " ++ v)).
    + apply PathFacts.forallb_optional.
      apply (PathFacts.under_line (IkePolicy.path (IkePolicy.s_name s))
               ("pre-shared-key ascii-text " ++ IkePolicy.s_pre_shared_key_text s)).
    + apply PathFacts.forallb_optional.
      apply (PathFacts.under_line (IkePolicy.path (IkePolicy.s_name s))
               ("pre-shared-key hexadecimal " ++ IkePolicy.s_pre_shared_key_hexa s)).
  - intros s. unfold OspfArea.setOspfArea_configSet.
    rewrite RoundTripFacts.ospf_setPrefix.
    induction (OspfArea.s_interface s) as [|i l IH]; [reflexivity|].
    cbn [flat_map]. rewrite forallb_app, IH, PathFacts.ospf_interface_under. reflexivity.
Qed.

End Paths.

(** ** The identity of an ospf area, split again *)

Module SplitFacts.
Import strings.

(** The bytes of an occurrence that are still to be passed over are passed
    over. *)
Lemma genSplit_skip (sep p rest : string) :
  genSplit sep (String.length p) (p ++ rest) = genSplit sep 0 rest.
Proof. induction p as [|c p IH]; [reflexivity | exact IH]. Qed.

(** A piece without the first byte of the separator ends at the separator
    that follows it. *)
Lemma genSplit_piece (x : ascii) (sep' a rest : string) :
  all_bytes (not_byte x) a = true ->
  genSplit (String x sep') 0 (a ++ String x sep' ++ rest)
  = a :: genSplit (String x sep') 0 rest.
Proof.
  induction a as [|c a IH]; intros Ha.
  - change ("" ++ String x sep' ++ rest)%string with (String x (sep' ++ rest)).
    cbn [genSplit HasPrefix]. rewrite Ascii.eqb_refl, StringFacts.HasPrefix_app.
    cbn [andb String.length Nat.sub]. rewrite Nat.sub_0_r, genSplit_skip. reflexivity.
  - cbn [all_bytes] in Ha. apply andb_true_iff in Ha as [Hc Ha].
    unfold not_byte in Hc. apply negb_true_iff in Hc.
    change (String c a ++ String x sep' ++ rest)%string
      with (String c (a ++ String x sep' ++ rest)).
    cbn [genSplit HasPrefix]. rewrite Hc. cbn [andb]. now rewrite (IH Ha).
Qed.

(** A text without the separator is one piece. *)
Lemma genSplit_no_sep (x : ascii) (sep' a : string) :
  Contains a (String x sep') = false -> genSplit (String x sep') 0 a = [a].
Proof.
  induction a as [|c a IH]; [reflexivity|].
  intros Ha. cbn [Contains] in Ha. apply orb_false_iff in Ha as [Hp Ha].
  cbn [genSplit]. rewrite Hp. now rewrite (IH Ha).
Qed.

End SplitFacts.

Section Identity.
Context (K : Constants).

(** X16: the identity a create gives an ospf area is split by the import
    into the area, the version and the routing instance it was made of, so
    the import of that identity is not refused for missing elements and asks
    for the path of the very object the create wrote, provided the area and
    the version hold no byte equal to the first byte of the separator and
    the routing instance does not hold the separator. *)
Theorem identity_splits (s : OspfArea.schema) (x : ascii) (sep' : string) :
  idSeparator K = String x sep' ->
  all_bytes (not_byte x) (OspfArea.s_area_id s) = true ->
  all_bytes (not_byte x) (OspfArea.s_version s) = true ->
  strings.Contains (OspfArea.s_routing_instance s) (idSeparator K) = false ->
  strings.Split (OspfArea.identity K s) (idSeparator K)
  = [OspfArea.s_area_id s; OspfArea.s_version s; OspfArea.s_routing_instance s]
  /\ OspfArea.path K (OspfArea.schema_of_id K (OspfArea.identity K s)) = OspfArea.path K s.
Proof.
  intros Hsep Ha Hv Hr.
  assert (Hsplit : strings.Split (OspfArea.identity K s) (idSeparator K)
                   = [OspfArea.s_area_id s; OspfArea.s_version s;
                      OspfArea.s_routing_instance s]).
  { unfold strings.Split, OspfArea.identity. rewrite Hsep in *.
    rewrite (SplitFacts.genSplit_piece x sep' _ _ Ha).
    rewrite (SplitFacts.genSplit_piece x sep' _ _ Hv).
    now rewrite (SplitFacts.genSplit_no_sep x sep' _ Hr). }
  split; [exact Hsplit|].
  unfold OspfArea.path, OspfArea.schema_of_id. cbv zeta. rewrite Hsplit. reflexivity.
Qed.

End Identity.

Lemma identity_splits_witness :
  strings.Split (OspfArea.identity TestDevice.K (TestDevice.ospf_area [])) "_-_"
  = ["0.0.0.0"; "v2"; "default"]
  /\ OspfArea.path TestDevice.K
       (OspfArea.schema_of_id TestDevice.K
          (OspfArea.identity TestDevice.K (TestDevice.ospf_area [])))
     = "protocols ospf area 0.0.0.0".
Proof.
  apply (identity_splits TestDevice.K (TestDevice.ospf_area []) "_" "-_");
    reflexivity.
Defined.

(** ** The keywords of [readIkeProposal] that are tested without their space *)

Section LooseKeywords.

(** X20: [readIkeProposal] tests the keywords encryption-algorithm and
    lifetime-seconds without the space it then trims with them.  So a line
    that goes on after one of the two keywords with anything but a space is
    taken for a line of the keyword, and nothing is trimmed: the encryption
    algorithm becomes the whole line after the line start, keyword
    included, and the lifetime is converted from the whole line, which
    fails, so the loop ends with the error that the line cannot be converted
    to an integer. *)
Theorem ikeproposal_loose_keywords (c : IkeProposal.ikeProposalOptions)
    (item : string) (rest : list string) :
  strings.Contains item marker_begin = false ->
  strings.Contains item marker_end = false ->
  let itemTrim := strings.TrimPrefix item setLineStart in
  (strings.HasPrefix itemTrim "encryption-algorithm" = true ->
   strings.HasPrefix itemTrim "encryption-algorithm " = false ->
   IkeProposal.readIkeProposal_loop c (item :: rest)
   = IkeProposal.readIkeProposal_loop (IkeProposal.set_encryptionAlgorithm c itemTrim) rest)
  /\ (strings.HasPrefix itemTrim "lifetime-seconds" = true ->
      strings.HasPrefix itemTrim "lifetime-seconds " = false ->
      IkeProposal.readIkeProposal_loop c (item :: rest)
      = (IkeProposal.set_lifetimeSeconds c 0,
         Some (wrapError ("failed to convert value from '" ++ itemTrim
                          ++ "' to integer : ")
                 (NumError "Atoi" itemTrim strconv.ErrSyntax)))).
Proof.
  intros Hb He itemTrim.
  cbn [IkeProposal.readIkeProposal_loop].
  change "<configuration-output>" with marker_begin.
  change "</configuration-output>" with marker_end.
  rewrite Hb, He. cbv zeta. fold itemTrim. clearbody itemTrim.
  split; intros Hk Hno.
  - rewrite (StringFacts.HasPrefix_other _ _ "authentication-algorithm " Hk eq_refl eq_refl).
    rewrite (StringFacts.HasPrefix_other _ _ "authentication-method " Hk eq_refl eq_refl).
    rewrite (StringFacts.HasPrefix_other _ _ "dh-group " Hk eq_refl eq_refl).
    rewrite Hk. unfold strings.TrimPrefix. rewrite Hno. reflexivity.
  - rewrite (StringFacts.HasPrefix_other _ _ "authentication-algorithm " Hk eq_refl eq_refl).
    rewrite (StringFacts.HasPrefix_other _ _ "authentication-method " Hk eq_refl eq_refl).
    rewrite (StringFacts.HasPrefix_other _ _ "dh-group " Hk eq_refl eq_refl).
    rewrite (StringFacts.HasPrefix_other _ _ "encryption-algorithm" Hk eq_refl eq_refl).
    rewrite Hk. unfold strings.TrimPrefix. rewrite Hno.
    destruct itemTrim as [|x t]; [discriminate Hk|].
    cbn [strings.HasPrefix] in Hk. apply andb_true_iff in Hk as [Hx _].
    apply Ascii.eqb_eq in Hx; subst x.
    unfold strconv.Atoi. cbn [Ascii.eqb Bool.eqb orb andb].
    unfold DecimalString.NilZero.uint_of_string.
    cbn [DecimalString.NilEmpty.uint_of_string].
    destruct (DecimalString.NilEmpty.uint_of_string t); reflexivity.
Qed.

End LooseKeywords.

Lemma ikeproposal_loose_keywords_witness :
  IkeProposal.readIkeProposal_loop IkeProposal.zero ["set encryption-algorithms aes"]
  = (IkeProposal.set_encryptionAlgorithm IkeProposal.zero "encryption-algorithms aes", None).
Proof.
  apply (proj1 (ikeproposal_loose_keywords IkeProposal.zero
                  "set encryption-algorithms aes" [] eq_refl eq_refl));
    reflexivity.
Defined.

(** ** What an import leaves in the resource data *)

Section ImportedKey.
Context {D H : Type} (sess : Session D H) (K : Constants)
        (jdecode_Decode : string -> string * option error).

(** X19: in every resource, after an import that returns no error the key
    fields of the resource data are those of the identity: the name is the
    identity, and for an ospf area the area, the version and the routing
    instance are the first three pieces of the identity.  The one exception
    is a device that answers the read with the empty word after it answered
    the existence check with a text: the import still returns no error and
    leaves empty key fields. *)
Theorem import_sets_key :
  (forall dv rd,
     let r := run (IpsecPolicy.resourceIpsecPolicyImport sess K) dv rd in
     snd (fst r) = None ->
     exists found text,
       answers (trace (snd r)) = [inl found; inl text]
       /\ IpsecPolicy.s_name (fields (d (snd r)))
          = if String.eqb text (emptyWord K) then "" else Id rd)
  /\ (forall dv rd,
     let r := run (IkeProposal.resourceIkeProposalImport sess K) dv rd in
     snd (fst r) = None ->
     exists found text,
       answers (trace (snd r)) = [inl found; inl text]
       /\ IkeProposal.s_name (fields (d (snd r)))
          = if String.eqb text (emptyWord K) then "" else Id rd)
  /\ (forall dv rd,
     let r := run (IkePolicy.resourceIkePolicyImport sess K jdecode_Decode) dv rd in
     snd (fst r) = None ->
     exists found text,
       answers (trace (snd r)) = [inl found; inl text]
       /\ IkePolicy.s_name (fields (d (snd r)))
          = if String.eqb text (emptyWord K) then "" else Id rd)
  /\ (forall dv rd,
     let r := run (OspfArea.resourceOspfAreaImport sess K) dv rd in
     snd (fst r) = None ->
     exists found text,
       answers (trace (snd r)) = [inl found; inl text]
       /\ (OspfArea.s_area_id (fields (d (snd r))),
           OspfArea.s_version (fields (d (snd r))),
           OspfArea.s_routing_instance (fields (d (snd r))))
          = if String.eqb text (emptyWord K) then ("", "", "")
            else (OspfArea.s_area_id (OspfArea.schema_of_id K (Id rd)),
                  OspfArea.s_version (OspfArea.schema_of_id K (Id rd)),
                  OspfArea.s_routing_instance (OspfArea.schema_of_id K (Id rd)))).
Proof.
  repeat apply conj; intros dv rd; cbv zeta; follow_once; intros Hok;
    try discriminate Hok;
    (do 2 eexists; split; [reflexivity|]);
    match goal with
    | Hq : IpsecPolicy.readIpsecPolicy_decode _ ?nm ?text = (?o, None) |- _ =>
        change (IpsecPolicy.name o = if String.eqb text (emptyWord K) then "" else nm);
        rewrite <- (DecodeFacts.ipsec_decode_name K nm text), Hq; reflexivity
    | Hq : IkeProposal.readIkeProposal_decode _ ?nm ?text = (?o, None) |- _ =>
        change (IkeProposal.name o = if String.eqb text (emptyWord K) then "" else nm);
        rewrite <- (DecodeFacts.ikeproposal_decode_name K nm text), Hq; reflexivity
    | Hq : IkePolicy.readIkePolicy_decode _ _ ?nm ?text = (?o, None) |- _ =>
        change (IkePolicy.name o = if String.eqb text (emptyWord K) then "" else nm);
        rewrite <- (DecodeFacts.ikepolicy_decode_name K jdecode_Decode nm text), Hq;
        reflexivity
    | Hq : OspfArea.readOspfArea_decode _ ?a ?v ?ri ?text = (?o, None) |- _ =>
        change ((OspfArea.areaID o, OspfArea.version o, OspfArea.routingInstance o)
                = if String.eqb text (emptyWord K) then ("", "", "") else (a, v, ri));
        rewrite <- (DecodeFacts.ospf_decode_key K a v ri text), Hq; reflexivity
    end.
Qed.

End ImportedKey.

(** ** The properties of the runs on the test device *)

(** A create of a policy that the device has ends by clearing the candidate
    configuration; an update of it asks for its commit once the session has
    taken the delete line and the lines of the set function. *)
Lemma rollback_until_commit_witness :
  cleared_before_close
    (trace (snd (run (IpsecPolicy.resourceIpsecPolicyCreate TestDevice.sess TestDevice.K)
                     (TestDevice.device0 [inl "set security ipsec policy POL1 proposals p1"])
                     TestDevice.rd_ipsec))) = true
  /\ configSets (before_commit
       (trace (snd (run (IpsecPolicy.resourceIpsecPolicyUpdate TestDevice.sess TestDevice.K)
                        (TestDevice.device_with
                           ["set security ipsec policy POL1 proposals old"])
                        TestDevice.rd_ipsec))))
     = [["delete security ipsec policy POL1"];
        ["set security ipsec policy POL1 perfect-forward-secrecy keys group14";
         "set security ipsec policy POL1 proposals p1";
         "set security ipsec policy POL1 proposals p2"]].
Proof.
  split.
  - apply (proj1 (proj1 (proj1 (proj1 (rollback_until_commit TestDevice.sess TestDevice.K
                                         (fun s => (s, None)))))
                        (TestDevice.device0
                           [inl "set security ipsec policy POL1 proposals p1"])
                        TestDevice.rd_ipsec)).
    + vm_compute. discriminate.
    + vm_compute. reflexivity.
    + vm_compute. reflexivity.
  - apply (proj1 (proj2 (proj1 (proj2 (proj1
             (rollback_until_commit TestDevice.sess TestDevice.K (fun s => (s, None))))))
             (TestDevice.device_with ["set security ipsec policy POL1 proposals old"])
             TestDevice.rd_ipsec)).
    vm_compute. reflexivity.
Defined.

(** An update on a device that cannot be reached. *)
Lemma start_failure_witness :
  fst (run (IpsecPolicy.resourceIpsecPolicyUpdate TestDevice.sess_down TestDevice.K)
           (TestDevice.device0 []) TestDevice.rd_ipsec)
  = [errorString "connection refused"].
Proof.
  apply (proj1 (proj2 (proj2 (proj1
           (start_failure TestDevice.sess_down TestDevice.K (fun s => (s, None))))))
           (TestDevice.device0 []) (TestDevice.device0 []) TestDevice.rd_ipsec
           (errorString "connection refused")).
  reflexivity.
Defined.

(** A create of a security resource on a router. *)
Lemma create_refuses_platform_witness :
  run (IpsecPolicy.resourceIpsecPolicyCreate TestDevice.sess_router TestDevice.K)
      (TestDevice.device0 []) TestDevice.rd_ipsec
  = ([errorString "security ipsec policy not compatible with Junos device mx240"],
     {| device := TestDevice.device0 []; d := TestDevice.rd_ipsec;
        log := [EvCloseSession tt; EvStartNewSession (inl tt)] |}).
Proof.
  apply (proj1 (create_refuses_platform TestDevice.sess_router TestDevice.K
                  (fun s => (s, None)))
           (TestDevice.device0 []) (TestDevice.device0 []) TestDevice.rd_ipsec tt);
    reflexivity.
Defined.

(** A create on the device without configuration. *)
Lemma create_verifies_witness :
  hd_error (set_ids (trace (snd
    (run (IpsecPolicy.resourceIpsecPolicyCreate TestDevice.sess TestDevice.K)
         (TestDevice.device0 []) TestDevice.rd_ipsec))))
  = Some "POL1".
Proof.
  apply (proj1 (create_verifies TestDevice.sess TestDevice.K (fun s => (s, None)))
           (TestDevice.device0 []) TestDevice.rd_ipsec).
  vm_compute. reflexivity.
Defined.

(** A read of a policy whose one proposal on the device is not one of the
    resource data. *)
Lemma read_follows_decoding_witness :
  fst (run (IpsecPolicy.resourceIpsecPolicyRead TestDevice.sess TestDevice.K)
           (TestDevice.device_with ["set security ipsec policy POL1 proposals p9"])
           TestDevice.rd_ipsec) = []
  /\ d (snd (run (IpsecPolicy.resourceIpsecPolicyRead TestDevice.sess TestDevice.K)
                 (TestDevice.device_with ["set security ipsec policy POL1 proposals p9"])
                 TestDevice.rd_ipsec))
     = {| fields := {| IpsecPolicy.s_name := "POL1"; IpsecPolicy.s_proposals := ["p9"];
                       IpsecPolicy.s_pfs_keys := "" |};
          Id := ""; partial := false |}.
Proof.
  apply (proj1 (read_follows_decoding TestDevice.sess TestDevice.K (fun s => (s, None)))
           (TestDevice.device_with ["set security ipsec policy POL1 proposals p9"])
           TestDevice.rd_ipsec "set proposals p9").
  vm_compute. reflexivity.
Defined.

(** An import of a policy the device does not have. *)
Lemma import_finds_nothing_witness :
  fst (run (IpsecPolicy.resourceIpsecPolicyImport TestDevice.sess TestDevice.K)
           (TestDevice.device0 []) (TestDevice.rd_import_ipsec "POL1"))
  = ([], Some (errorString
                 "don't find security ipsec policy with id 'POL1' (id must be <name>)")).
Proof.
  apply (proj1 (import_finds_nothing TestDevice.sess TestDevice.K (fun s => (s, None)))
           (TestDevice.device0 []) (TestDevice.rd_import_ipsec "POL1")).
  vm_compute. reflexivity.
Defined.

(** An import of an ospf area the device has. *)
Lemma import_reads_identity_witness :
  exists found text,
    answers (trace (snd
      (run (OspfArea.resourceOspfAreaImport TestDevice.sess TestDevice.K)
           (TestDevice.device_with ["set protocols ospf area 0.0.0.0 interface ge-0/0/0 passive"])
           (TestDevice.rd_import_ospf "0.0.0.0_-_v2_-_default"))))
    = [inl found; inl text]
    /\ commands (trace (snd
      (run (OspfArea.resourceOspfAreaImport TestDevice.sess TestDevice.K)
           (TestDevice.device_with ["set protocols ospf area 0.0.0.0 interface ge-0/0/0 passive"])
           (TestDevice.rd_import_ospf "0.0.0.0_-_v2_-_default"))))
      = ["show configuration protocols ospf area 0.0.0.0 | display set";
         "show configuration protocols ospf area 0.0.0.0 | display set relative"]
    /\ snd (OspfArea.readOspfArea_decode TestDevice.K "0.0.0.0" "v2" "default" text) = None
    /\ fields (d (snd
      (run (OspfArea.resourceOspfAreaImport TestDevice.sess TestDevice.K)
           (TestDevice.device_with ["set protocols ospf area 0.0.0.0 interface ge-0/0/0 passive"])
           (TestDevice.rd_import_ospf "0.0.0.0_-_v2_-_default"))))
      = OspfArea.schema_of
          (fst (OspfArea.readOspfArea_decode TestDevice.K "0.0.0.0" "v2" "default" text)).
Proof.
  apply (proj2 (proj2 (proj2
           (import_reads_identity TestDevice.sess TestDevice.K (fun s => (s, None)))))
           (TestDevice.device_with
              ["set protocols ospf area 0.0.0.0 interface ge-0/0/0 passive"])
           (TestDevice.rd_import_ospf "0.0.0.0_-_v2_-_default")).
  vm_compute. reflexivity.
Defined.

(** The import of the area above, run: the interface of the device is in the
    resource data, under the key fields of the identity. *)
Example import_ospf_run :
  fst (run (OspfArea.resourceOspfAreaImport TestDevice.sess TestDevice.K)
           (TestDevice.device_with
              ["set protocols ospf area 0.0.0.0 interface ge-0/0/0 passive"])
           (TestDevice.rd_import_ospf "0.0.0.0_-_v2_-_default"))
  = ([{| fields :=
           {| OspfArea.s_area_id := "0.0.0.0"; OspfArea.s_routing_instance := "default";
              OspfArea.s_version := "v2";
              OspfArea.s_interface :=
                [{| OspfArea.name := "ge-0/0/0"; OspfArea.disable := false;
                    OspfArea.passive := true; OspfArea.metric := 0;
                    OspfArea.hello_interval := 0; OspfArea.retransmit_interval := 0;
                    OspfArea.dead_interval := 0 |}] |};
         Id := "0.0.0.0_-_v2_-_default"; partial := false |}], None).
Proof. vm_compute. reflexivity. Qed.

(** The proposals and the mode of an ike policy, from lines in which the
    mode comes twice. *)
Lemma decode_collects_proposals_witness :
  IkePolicy.proposals
    (fst (IkePolicy.readIkePolicy_loop TestDevice.decode_id
            (IkePolicy.set_name IkePolicy.zero "POL1")
            ["set mode main"; "set proposals p2"; "set mode aggressive";
             "set proposals p1"]))
  = ["p2"; "p1"]
  /\ IkePolicy.mode
       (fst (IkePolicy.readIkePolicy_loop TestDevice.decode_id
               (IkePolicy.set_name IkePolicy.zero "POL1")
               ["set mode main"; "set proposals p2"; "set mode aggressive";
                "set proposals p1"]))
     = "aggressive".
Proof.
  apply (proj2 (decode_collects_proposals TestDevice.decode_id)
           (IkePolicy.set_name IkePolicy.zero "POL1")
           ["set mode main"; "set proposals p2"; "set mode aggressive";
            "set proposals p1"]).
  reflexivity.
Defined.

(** The lines of an ike policy with a key are under its path. *)
Lemma set_lines_under_path_witness :
  forallb (is_under "security ike policy POL1")
    ["set security ike policy POL1 mode main";
     "set security ike policy POL1 proposals p1";
     "set security ike policy POL1 pre-shared-key ascii-text a"] = true.
Proof.
  apply (proj1 (proj2 (proj2 (set_lines_under_path TestDevice.K)))
           (TestDevice.ike_policy "a")).
  reflexivity.
Defined.

(** A create and an update of an ike policy of mode quick. *)
Lemma unknown_ike_mode_witness :
  fst (run (IkePolicy.resourceIkePolicyUpdate TestDevice.sess TestDevice.K
              TestDevice.decode_id)
           (TestDevice.device_with ["set security ike policy POL1 proposals p1"])
           TestDevice.rd_ike_quick)
  = [errorString "unknown ike mode quick"]
  /\ cleared_before_close
       (trace (snd (run (IkePolicy.resourceIkePolicyUpdate TestDevice.sess TestDevice.K
                           TestDevice.decode_id)
                        (TestDevice.device_with ["set security ike policy POL1 proposals p1"])
                        TestDevice.rd_ike_quick))) = true.
Proof.
  apply (proj2 (unknown_ike_mode TestDevice.sess TestDevice.K TestDevice.decode_id)
           (TestDevice.device_with ["set security ike policy POL1 proposals p1"])
           TestDevice.rd_ike_quick).
  - reflexivity.
  - vm_compute. reflexivity.
Defined.

(** The configuration of the device is as it was after the update that was
    refused. *)
Example unknown_ike_mode_run :
  TestDevice.committed
    (device (snd (run (IkePolicy.resourceIkePolicyUpdate TestDevice.sess TestDevice.K
                         TestDevice.decode_id)
                      (TestDevice.device_with ["set security ike policy POL1 proposals p1"])
                      TestDevice.rd_ike_quick)))
  = ["set security ike policy POL1 proposals p1"].
Proof. vm_compute. reflexivity. Qed.

(** An import of an ospf area from an identity of two pieces. *)
Lemma import_missing_elements_witness :
  run (OspfArea.resourceOspfAreaImport TestDevice.sess TestDevice.K)
      (TestDevice.device0 []) (TestDevice.rd_import_ospf "0.0.0.0_-_v2")
  = (([], Some (errorString "missing element(s) in id with separator _-_")),
     {| device := TestDevice.device0 [];
        d := TestDevice.rd_import_ospf "0.0.0.0_-_v2";
        log := [EvCloseSession tt; EvStartNewSession (inl tt)] |}).
Proof.
  apply (import_missing_elements TestDevice.sess TestDevice.K
           (TestDevice.device0 []) (TestDevice.device0 [])
           (TestDevice.rd_import_ospf "0.0.0.0_-_v2") tt).
  - reflexivity.
  - vm_compute. auto.
Defined.

(** An import of a policy the device has. *)
Lemma import_sets_key_witness :
  exists found text,
    answers (trace (snd
      (run (IpsecPolicy.resourceIpsecPolicyImport TestDevice.sess TestDevice.K)
           (TestDevice.device_with ["set security ipsec policy POL1 proposals p1"])
           (TestDevice.rd_import_ipsec "POL1"))))
    = [inl found; inl text]
    /\ IpsecPolicy.s_name (fields (d (snd
      (run (IpsecPolicy.resourceIpsecPolicyImport TestDevice.sess TestDevice.K)
           (TestDevice.device_with ["set security ipsec policy POL1 proposals p1"])
           (TestDevice.rd_import_ipsec "POL1")))))
       = if String.eqb text "empty" then "" else "POL1".
Proof.
  apply (proj1 (import_sets_key TestDevice.sess TestDevice.K (fun s => (s, None)))
           (TestDevice.device_with ["set security ipsec policy POL1 proposals p1"])
           (TestDevice.rd_import_ipsec "POL1")).
  vm_compute. reflexivity.
Defined.

(** The create on the device without configuration sets its identity after
    a commit that went through. *)
Lemma identity_only_when_verified_witness :
  existsb is_commit_ok
    (trace (snd (run (IpsecPolicy.resourceIpsecPolicyCreate TestDevice.sess TestDevice.K)
                     (TestDevice.device0 []) TestDevice.rd_ipsec))) = true.
Proof.
  apply (proj1 (identity_only_when_verified TestDevice.sess TestDevice.K
                  (fun s => (s, None)))
           (TestDevice.device0 []) TestDevice.rd_ipsec).
  vm_compute. discriminate.
Defined.

(** A create whose read at the end gets no answer returns the error of the
    read, with the identity set and the lines committed. *)
Example create_read_fails_run :
  fst (run (IpsecPolicy.resourceIpsecPolicyCreate TestDevice.sess TestDevice.K)
           (TestDevice.device0
              [inl "empty"; inl "set security ipsec policy POL1 proposals p1";
               inr (errorString "timeout")])
           TestDevice.rd_ipsec)
  = [errorString "timeout"]
  /\ Id (d (snd (run (IpsecPolicy.resourceIpsecPolicyCreate TestDevice.sess TestDevice.K)
                     (TestDevice.device0
                        [inl "empty"; inl "set security ipsec policy POL1 proposals p1";
                         inr (errorString "timeout")])
                     TestDevice.rd_ipsec)))
     = "POL1".
Proof. split; vm_compute; reflexivity. Qed.
